(** * maap_client: day-partitioned search, catalog extension and registry

    A shallow embedding of the search engine ([search.py], [utils.py]),
    the catalog builder ([catalog_build.py]), the filename metadata
    extractor ([paths.py]) and the flat-file registry ([registry.py],
    [tracker.py]) of the maap_client package, together with the
    properties of these components stated in its specification.

    Conventions of the embedding.
    - A Python [datetime] that carries a time zone is a record of its local
      calendar date (as a proleptic Gregorian ordinal, [date.toordinal]),
      its local time of day in microseconds and its UTC offset in
      microseconds.  Comparison of two such values is comparison of their
      UTC instants, as in Python.  Naive datetimes are not modelled:
      comparing one with a timezone-carrying value raises [TypeError] in
      Python.  Calendar ordinals are unbounded integers; Python raises
      [OverflowError] past 9999-12-31.
    - Python [str] is [string]; characters are 8-bit.
    - A registry directory is a finite map from the calendar date in a file
      name to the text of that file, one map per record kind. *)

From Stdlib Require Import ZArith Lia List Bool Ascii String Sorted.
From stdpp Require Import base option list strings gmap sets.

Local Open Scope Z_scope.

(** ** Outcomes of a call *)

Module Py.

(** A call returns a value, raises [TypeError], or (in the model only)
    runs out of the fuel given to a loop. *)
Inductive outcome (A : Type) : Type :=
| Return (a : A)
| Raise_TypeError
| Out_of_fuel.
Arguments Return {A} a.
Arguments Raise_TypeError {A}.
Arguments Out_of_fuel {A}.

Definition bind {A B : Type} (m : outcome A) (k : A -> outcome B) : outcome B :=
  match m with
  | Return a => k a
  | Raise_TypeError => Raise_TypeError
  | Out_of_fuel => Out_of_fuel
  end.

Definition returned {A : Type} (m : outcome A) : option A :=
  match m with Return a => Some a | _ => None end.

End Py.
Export Py.

#[global] Instance outcome_ret : MRet outcome := fun _ a => Return a.
#[global] Instance outcome_bind : MBind outcome := fun _ _ k m => bind m k.

(** ** Datetimes *)

Module Datetime.

Definition US_PER_SECOND : Z := 1000000.
Definition US_PER_DAY : Z := 86400 * US_PER_SECOND.

Record datetime : Type := mk_datetime {
  dt_date : Z;       (* local calendar date, proleptic Gregorian ordinal *)
  dt_time : Z;       (* microseconds since local midnight *)
  dt_utcoffset : Z   (* tzinfo.utcoffset, in microseconds *)
}.

(** The fields of a value built by the [datetime] constructor. *)
Definition wf_datetime (d : datetime) : Prop :=
  0 <= dt_time d < US_PER_DAY /\ - US_PER_DAY < dt_utcoffset d < US_PER_DAY.

Definition is_utc (d : datetime) : Prop := dt_utcoffset d = 0.

(** Microseconds since ordinal 0, 00:00 UTC. *)
Definition utc_instant (d : datetime) : Z :=
  dt_date d * US_PER_DAY + dt_time d - dt_utcoffset d.

(** [a < b], [a <= b] and [a == b] on datetimes. *)
Definition dt_ltb (a b : datetime) : bool := utc_instant a <? utc_instant b.
Definition dt_leb (a b : datetime) : bool := utc_instant a <=? utc_instant b.
Definition dt_eqb (a b : datetime) : bool := utc_instant a =? utc_instant b.

(** [dt.date()]: the calendar date of the local fields. *)
Definition date (d : datetime) : Z := dt_date d.

(** [datetime(y, m, d, hh, mm, ss, tzinfo=timezone.utc)], the calendar
    day given by its ordinal. *)
Definition datetime_utc (day hh mm ss : Z) : datetime :=
  mk_datetime day ((hh * 3600 + mm * 60 + ss) * US_PER_SECOND) 0.

(** [dt + timedelta(microseconds=us)]: the local fields move, the zone
    stays. *)
Definition add_timedelta (d : datetime) (us : Z) : datetime :=
  let t := dt_time d + us in
  mk_datetime (dt_date d + t / US_PER_DAY) (t mod US_PER_DAY) (dt_utcoffset d).

Definition timedelta_days (n : Z) : Z := n * US_PER_DAY.
Definition timedelta_seconds (n : Z) : Z := n * US_PER_SECOND.

(** [a - b] on datetimes, a timedelta in microseconds. *)
Definition dt_sub (a b : datetime) : Z := utc_instant a - utc_instant b.

(** [timedelta / int]: CPython's [_divide_and_round], round half to even. *)
Definition divide_and_round (a b : Z) : Z :=
  let q := a / b in
  let r := 2 * (a mod b) in
  let greater_than_half := if 0 <? b then b <? r else r <? b in
  if greater_than_half || ((r =? b) && (q mod 2 =? 1)) then q + 1 else q.

(** Python's [max(a, b)] and [min(a, b)]: the first argument wins a tie. *)
Definition dt_max (a b : datetime) : datetime := if dt_ltb a b then b else a.
Definition dt_min (a b : datetime) : datetime := if dt_ltb b a then b else a.

(** *** Calendar: [datetime.date(y, m, d).toordinal()] *)

Definition is_leap (y : Z) : bool :=
  (y mod 4 =? 0) && (negb (y mod 100 =? 0) || (y mod 400 =? 0)).

Definition days_in_month (y m : Z) : Z :=
  if m =? 2 then (if is_leap y then 29 else 28)
  else if (m =? 4) || (m =? 6) || (m =? 9) || (m =? 11) then 30 else 31.

Definition days_before_year (y : Z) : Z :=
  let y1 := y - 1 in y1 * 365 + y1 / 4 - y1 / 100 + y1 / 400.

Fixpoint days_before_month_nat (y : Z) (k : nat) : Z :=
  match k with
  | O => 0
  | S k' => days_before_month_nat y k' + days_in_month y (Z.of_nat k)
  end.

Definition days_before_month (y m : Z) : Z :=
  days_before_month_nat y (Z.to_nat (m - 1)).

Definition valid_ymd (y m d : Z) : bool :=
  (1 <=? y) && (y <=? 9999) && (1 <=? m) && (m <=? 12)
  && (1 <=? d) && (d <=? days_in_month y m).

Definition ymd2ord (y m d : Z) : Z :=
  days_before_year y + days_before_month y m + d.

(** [datetime(y, m, d, hh, mm, ss, tzinfo=timezone.utc)] from calendar
    fields. *)
Definition utc (y m d hh mm ss : Z) : datetime :=
  datetime_utc (ymd2ord y m d) hh mm ss.

(** [date.fromordinal(n)]: CPython's [_ord2ymd]. *)
Definition ord2ymd (n : Z) : Z * Z * Z :=
  let n := n - 1 in
  let n400 := n / 146097 in
  let n := n mod 146097 in
  let n100 := n / 36524 in
  let n := n mod 36524 in
  let n4 := n / 1461 in
  let n := n mod 1461 in
  let n1 := n / 365 in
  let n := n mod 365 in
  let year := n400 * 400 + 1 + n100 * 100 + n4 * 4 + n1 in
  if (n1 =? 4) || (n100 =? 4) then (year - 1, 12, 31)
  else
    let leapyear := (n1 =? 3) && (negb (n4 =? 24) || (n100 =? 3)) in
    let month := (n + 50) / 32 in
    let preceding :=
      days_before_month 1 month + (if (2 <? month) && leapyear then 1 else 0) in
    if n <? preceding then
      let month := month - 1 in
      let preceding :=
        preceding
        - (days_in_month 1 month + (if (month =? 2) && leapyear then 1 else 0)) in
      (year, month, n - preceding + 1)
    else (year, month, n - preceding + 1).

(** [to_zulu(dt)] of utils.py, as the instant its text denotes:
    [dt.astimezone(timezone.utc).replace(microsecond=0)]. *)
Definition to_zulu (d : datetime) : datetime :=
  let i := utc_instant d in
  mk_datetime (i / US_PER_DAY) (i mod US_PER_DAY / US_PER_SECOND * US_PER_SECOND) 0.

End Datetime.
Export Datetime.

(** ** utils.py *)

Module Utils.

(** [normalize_time_range(start, end, mission_start, mission_end)].  The
    clock reading [datetime.now(timezone.utc).replace(microsecond=0)] is
    the argument [now]. *)
Definition normalize_time_range (now : datetime)
    (start end_ : option datetime) (mission_start mission_end : datetime)
    : datetime * datetime :=
  let end_cap := dt_min now mission_end in
  let t0 := dt_max (default mission_start start) mission_start in
  let t1 := dt_min (default end_cap end_) end_cap in
  (t0, t1).

End Utils.

(** ** search.py: the day iterator *)

Module DayRanges.

Definition window : Type := datetime * datetime.

(** The [while current <= end_date] loop of [_iter_day_ranges]; the list
    is the sequence of yielded windows.  [fuel] bounds the number of
    iterations. *)
Fixpoint iter_loop (fuel : nat) (start end_ : datetime) (end_date : Z)
    (current : Z) (is_first : bool) : list window :=
  match fuel with
  | O => []
  | S fuel' =>
      if current <=? end_date then
        let day_start :=
          if is_first then start else datetime_utc current 0 0 0 in
        let day_end :=
          if current =? end_date then end_ else datetime_utc current 23 59 59 in
        let rest := iter_loop fuel' start end_ end_date (current + 1) false in
        if dt_ltb day_start day_end then (day_start, day_end) :: rest else rest
      else []
  end.

(** [MaapSearcher._iter_day_ranges(start, end)].  The loop runs once per
    calendar day from [start.date()] to [end.date()], which is the fuel. *)
Definition _iter_day_ranges (start end_ : datetime) : list window :=
  iter_loop (Z.to_nat (date end_ - date start + 1)) start end_
            (date end_) (date start) true.

End DayRanges.

(** ** paths.py: the filename metadata extractor *)

Module Paths.

Local Open Scope char_scope.
Local Open Scope Z_scope.

(** *** Characters and fixed-width patterns *)

Definition char_between (lo hi c : ascii) : bool :=
  (nat_of_ascii lo <=? nat_of_ascii c)%nat && (nat_of_ascii c <=? nat_of_ascii hi)%nat.

Definition is_digit (c : ascii) : bool := char_between "0" "9" c.
Definition is_upper (c : ascii) : bool := char_between "A" "Z" c.
Definition is_lower (c : ascii) : bool := char_between "a" "z" c.
Definition is_alnum (c : ascii) : bool := is_digit c || is_upper c || is_lower c.
Definition is_char (x c : ascii) : bool := Ascii.eqb x c.

Definition to_upper (c : ascii) : ascii :=
  if is_lower c then ascii_of_nat (nat_of_ascii c - 32) else c.

(** A literal letter under [re.IGNORECASE]. *)
Definition is_char_ci (x c : ascii) : bool := Ascii.eqb (to_upper x) (to_upper c).

(** A regular expression that is a sequence of single-character classes. *)
Definition pattern : Type := list (ascii -> bool).

Definition lit (s : string) : pattern := map is_char (list_ascii_of_string s).
Definition lit_ci (s : string) : pattern := map is_char_ci (list_ascii_of_string s).
Definition rep (n : nat) (cls : ascii -> bool) : pattern := replicate n cls.

(** [re.match]: the pattern at the start of [s]; the matched text. *)
Fixpoint match_here (p : pattern) (s : string) : option string :=
  match p with
  | [] => Some EmptyString
  | cls :: p' =>
      match s with
      | EmptyString => None
      | String c s' =>
          if cls c then option_map (String c) (match_here p' s') else None
      end
  end.

(** The alternatives of a pattern, tried in order at one position. *)
Fixpoint match_first (ps : list pattern) (s : string) : option string :=
  match ps with
  | [] => None
  | p :: ps' =>
      match match_here p s with
      | Some m => Some m
      | None => match_first ps' s
      end
  end.

(** [re.search]: the match at the leftmost position that has one. *)
Fixpoint re_search (ps : list pattern) (s : string) : option string :=
  match match_first ps s with
  | Some m => Some m
  | None =>
      match s with
      | EmptyString => None
      | String _ s' => re_search ps s'
      end
  end.

Definition startswith (prefix s : string) : bool := String.prefix prefix s.

Fixpoint has_char (x : ascii) (s : string) : bool :=
  match s with
  | EmptyString => false
  | String c s' => Ascii.eqb x c || has_char x s'
  end.

(** [os.path.basename] of [posixpath]: what follows the last slash. *)
Fixpoint basename (s : string) : string :=
  match s with
  | EmptyString => EmptyString
  | String c s' =>
      if has_char "/" s' then basename s'
      else if Ascii.eqb c "/" then s' else s
  end.

(** *** [datetime.strptime] on the matched groups *)

Definition digit_val (c : ascii) : Z := Z.of_nat (nat_of_ascii c) - 48.

Definition digits (s : string) : list Z := map digit_val (list_ascii_of_string s).

Definition num (ds : list Z) : Z := fold_left (fun acc d => 10 * acc + d) ds 0.

Definition int_of (s : string) : Z := num (digits s).

(** [%Y%m%d] on eight digits: the directives take four, two and two
    digits; the constructor rejects an impossible date. *)
Definition strptime_date (s : string) : option Z :=
  let y := int_of (substring 0 4 s) in
  let m := int_of (substring 4 2 s) in
  let d := int_of (substring 6 2 s) in
  if valid_ymd y m d then Some (ymd2ord y m d) else None.

(** [%H%M%S] on six digits up to the end of the text. *)
Definition strptime_hms (s : string) : option Z :=
  let hh := int_of (substring 0 2 s) in
  let mm := int_of (substring 2 2 s) in
  let ss := int_of (substring 4 2 s) in
  if (hh <=? 23) && (mm <=? 59) && (ss <=? 59)
  then Some ((hh * 3600 + mm * 60 + ss) * US_PER_SECOND) else None.

(** One directive of [%H], [%M], [%S]: two digits when [two] accepts
    them, else one digit ([\d]). *)
Definition take_field (two : Z -> Z -> bool) (ds : list Z) : Z * list Z :=
  match ds with
  | a :: b :: rest => if two a b then (10 * a + b, rest) else (a, b :: rest)
  | a :: rest => (a, rest)
  | [] => (0, [])
  end.

(** [%H%M%S%f] on nine digits.  The directives are the regular
    expressions [2[0-3]|[0-1]\d|\d], [[0-5]\d|\d], [6[0-1]|[0-5]\d|\d] and
    [[0-9]{1,6}] of CPython's [_strptime]; on nine digits the first
    alternative that matches is kept, and [%f] takes what is left, padded
    with zeros on the right to six digits. *)
Definition strptime_hmsf (s : string) : option Z :=
  let ds := digits s in
  let '(hh, ds1) := take_field (fun a b => (a <=? 1) || ((a =? 2) && (b <=? 3))) ds in
  let '(mm, ds2) := take_field (fun a _ => a <=? 5) ds1 in
  let '(ss, ds3) := take_field (fun a b => ((a =? 6) && (b <=? 1)) || (a <=? 5)) ds2 in
  let f := num (ds3 ++ replicate (6 - length ds3)%nat 0) in
  if ss <=? 59
  then Some ((hh * 3600 + mm * 60 + ss) * US_PER_SECOND + f) else None.

Definition mk_utc (day : option Z) (time : option Z) : option datetime :=
  match day, time with
  | Some d, Some t => Some (mk_datetime d t 0)
  | _, _ => None
  end.

Definition d8 : pattern := rep 8 is_digit.
Definition pat_sensing_ms : pattern :=
  lit "_" ++ d8 ++ lit "T" ++ rep 9 is_digit ++ lit "_".
Definition pat_stamp : pattern := d8 ++ lit "T" ++ rep 6 is_digit.
(** [_(\d{8}T\d{6})Z?_]: the greedy [Z?] is tried with the [Z] first. *)
Definition pat_sensing_s : list pattern :=
  [ lit "_" ++ pat_stamp ++ lit "Z_"; lit "_" ++ pat_stamp ++ lit "_" ].

(** [extract_sensing_time(filename)] *)
Definition extract_sensing_time (filename : string) : option datetime :=
  let filename := basename filename in
  let ms :=
    match re_search [pat_sensing_ms] filename with
    | Some m =>
        let dt_str := substring 1 18 m in
        mk_utc (strptime_date (substring 0 8 dt_str))
               (strptime_hmsf (substring 9 9 dt_str))
    | None => None
    end in
  match ms with
  | Some dt => Some dt
  | None =>
      match re_search pat_sensing_s filename with
      | Some m =>
          let dt_str := substring 1 15 m in
          mk_utc (strptime_date (substring 0 8 dt_str))
                 (strptime_hms (substring 9 6 dt_str))
      | None => None
      end
  end.

(** [extract_baseline(uri)] *)
Definition pat_aeolus_path : pattern :=
  lit "/" ++ lit_ci "ALD" ++ lit "_"
  ++ [fun c => is_char_ci "U" c || is_char_ci "C" c] ++ lit "_" ++ lit_ci "N"
  ++ lit "_" ++ [is_digit] ++ [fun c => is_char_ci "A" c || is_char_ci "B" c]
  ++ lit "/" ++ rep 4 is_alnum ++ lit "/" ++ rep 4 is_digit ++ lit "/".

Definition extract_baseline (uri : string) : option string :=
  let filename := basename uri in
  match match_here (lit "ECA_" ++ rep 4 is_upper ++ lit "_") filename with
  | Some m => Some (substring 6 2 m)
  | None =>
      if startswith "AE_" filename then
        option_map (substring 12 4) (re_search [pat_aeolus_path] uri)
      else None
  end.

(** The lazy group [(.+?)] followed by the fixed pattern [p]: the
    shortest non-empty text without a line feed after which [p] matches. *)
Fixpoint lazy_group (p : pattern) (s : string) : option string :=
  match s with
  | EmptyString => None
  | String c s' =>
      if Ascii.eqb c "010" then None
      else match match_here p s' with
           | Some _ => Some (String c EmptyString)
           | None => option_map (String c) (lazy_group p s')
           end
  end.

Definition skip (n : nat) (s : string) : string := substring n (String.length s - n) s.

(** [extract_product(filename)] *)
Definition extract_product (filename : string) : option string :=
  let filename := basename filename in
  let eca :=
    match match_here (lit "ECA_" ++ rep 4 is_upper ++ lit "_") filename with
    | Some _ => lazy_group (lit "_" ++ pat_stamp ++ lit "Z_") (skip 9 filename)
    | None => None
    end in
  match eca with
  | Some g => Some g
  | None =>
      option_map (substring 8 10)
        (match_here
           (lit "AE_" ++ rep 4 is_upper ++ lit "_ALD_"
            ++ [fun c => is_char "U" c || is_char "C" c] ++ lit "_N_" ++ [is_digit]
            ++ [fun c => is_char "A" c || is_char "B" c] ++ lit "_" ++ d8 ++ lit "T"
            ++ rep 9 is_digit ++ lit "_")
           filename)
  end.

(** [extract_creation_time(filename)] *)
Definition extract_creation_time (filename : string) : option datetime :=
  let filename := basename filename in
  match re_search [lit "_" ++ pat_stamp ++ lit "Z_" ++ pat_stamp ++ lit "Z_"] filename with
  | Some m =>
      let dt_str := substring 18 16 m in
      mk_utc (strptime_date (substring 0 8 dt_str))
             (strptime_hms (substring 9 6 dt_str))
  | None => None
  end.

(** The end of a pattern: [cls+$] or, with [n] fixed, [cls{n}$]; the
    dollar also matches before a final line feed. *)
Fixpoint all_chars (cls : ascii -> bool) (s : string) : bool :=
  match s with
  | EmptyString => true
  | String c s' => cls c && all_chars cls s'
  end.

Definition at_end (s : string) : bool :=
  String.eqb s EmptyString || String.eqb s (String "010" EmptyString).

Fixpoint plus_to_end (cls : ascii -> bool) (s : string) : bool :=
  match s with
  | EmptyString => false
  | String c s' => cls c && (at_end s' || plus_to_end cls s')
  end.

(** [re.search] of a fixed pattern followed by a condition on the rest. *)
Fixpoint re_search_then (p : pattern) (tail : string -> bool) (s : string)
    : option string :=
  let here :=
    match match_here p s with
    | Some m => if tail (skip (String.length m) s) then Some m else None
    | None => None
    end in
  match here with
  | Some m => Some m
  | None =>
      match s with
      | EmptyString => None
      | String _ s' => re_search_then p tail s'
      end
  end.

Definition is_alpha_ci (c : ascii) : bool := is_upper c || is_lower c.

Fixpoint upper (s : string) : string :=
  match s with
  | EmptyString => EmptyString
  | String c s' => String (to_upper c) (upper s')
  end.

(** [extract_orbit_frame(filename)] *)
Definition extract_orbit_frame (filename : string) : option string :=
  let filename := basename filename in
  match re_search_then (lit "_" ++ rep 5 is_digit ++ [is_alpha_ci] ++ lit ".")
          (plus_to_end is_alnum) filename with
  | Some m => Some (substring 1 5 m ++ upper (substring 6 1 m))%string
  | None =>
      option_map (substring 1 6)
        (re_search_then
           (lit "_" ++ rep 6 is_digit ++ lit "_" ++ rep 4 is_digit ++ lit "."
            ++ rep 3 is_alpha_ci)
           at_end filename)
  end.

(** [extract_agency(filename)] *)
Definition extract_agency (filename : string) : option string :=
  let filename := basename filename in
  match match_here (lit "ECA_" ++ rep 4 is_upper ++ lit "_") filename with
  | Some m => Some (substring 4 2 m)
  | None => if startswith "AE_" filename then Some "EX"%string else None
  end.

(** [extract_mission(filename)] *)
Definition extract_mission (filename : string) : option string :=
  let filename := basename filename in
  if startswith "ECA_" filename then Some "ECA"%string
  else if startswith "AE_" filename then Some "AE"%string
  else None.

(** [GranuleInfo], which is also the dictionary of [extract_info]. *)
Record GranuleInfo : Type := mk_GranuleInfo {
  filename : string;
  mission : option string;
  agency : option string;
  baseline : option string;
  product_type : option string;
  sensing_time : option datetime;
  creation_time : option datetime;
  orbit_frame : option string
}.

(** [extract_info(uri)] *)
Definition extract_info (uri : string) : GranuleInfo :=
  let filename := basename uri in
  {| filename := filename;
     mission := extract_mission filename;
     agency := extract_agency filename;
     baseline := extract_baseline filename;
     product_type := extract_product filename;
     sensing_time := extract_sensing_time filename;
     creation_time := extract_creation_time filename;
     orbit_frame := extract_orbit_frame filename |}.

(** [filter_by_sensing_time(items, start, end)] *)
Definition in_bounds (start end_ : option datetime) (t : datetime) : bool :=
  match start with None => true | Some s => dt_leb s t end
  && match end_ with None => true | Some e => dt_leb t e end.

Fixpoint filter_loop (start end_ : option datetime) (items result : list string)
    : list string :=
  match items with
  | [] => result
  | item :: items' =>
      match extract_sensing_time item with
      | None => filter_loop start end_ items' result
      | Some sensing_time =>
          if in_bounds start end_ sensing_time
          then filter_loop start end_ items' (result ++ [item])
          else filter_loop start end_ items' result
      end
  end.

Definition filter_by_sensing_time (items : list string)
    (start end_ : option datetime) : list string :=
  match start, end_ with
  | None, None => items
  | _, _ => filter_loop start end_ items []
  end.

(** *** Local paths *)

(** [f"{n:0{width}d}"] for a natural number. *)
Fixpoint decimal_digits (fuel : nat) (n : Z) (acc : string) : string :=
  match fuel with
  | O => acc
  | S fuel' =>
      let acc' := String (ascii_of_nat (Z.to_nat (48 + n mod 10))) acc in
      if n <? 10 then acc' else decimal_digits fuel' (n / 10) acc'
  end.

Fixpoint zero_pad (k : nat) (s : string) : string :=
  match k with
  | O => s
  | S k' => String "0" (zero_pad k' s)
  end.

Definition format_d (width : nat) (n : Z) : string :=
  let s := decimal_digits (S (Z.to_nat n)) n EmptyString in
  zero_pad (width - String.length s) s.

Section WithPathlib.

(** [pathlib]: [str(Path(p) / segment)] for a path given by its text. *)
Context (path_div : string -> string -> string).

(** [path / segment]; a [None] segment raises [TypeError]. *)
Definition div (p : outcome string) (segment : option string) : outcome string :=
  p ← p;
  match segment with
  | Some seg => Return (path_div p seg)
  | None => Raise_TypeError
  end.

(** [generate_data_path(data_dir, mission, collection, product_type,
    baseline, dt, filename)] *)
Definition generate_data_path (data_dir mission collection : string)
    (product_type baseline : option string) (dt : datetime)
    (filename : string) : outcome string :=
  let '(year, month, day) := ord2ymd (date dt) in
  let base :=
    div (div (div (div (div (div (div (Return data_dir) (Some mission))
      (Some collection)) product_type) baseline)
      (Some (format_d 4 year))) (Some (format_d 2 month)))
      (Some (format_d 2 day)) in
  div base (Some filename).

(** [url_to_local_path(url, data_dir, mission, collection)] *)
Definition url_to_local_path (url data_dir mission collection : string)
    : outcome (option string) :=
  let info := extract_info url in
  match sensing_time info with
  | None => Return None
  | Some dt =>
      p ← generate_data_path data_dir mission collection
            (product_type info) (baseline info) dt (filename info);
      Return (Some p)
  end.

End WithPathlib.

End Paths.


(** ** search.py: queries and boundary discovery *)

Module Search.
Import Paths DayRanges Utils.

(** A STAC item: its assets, key to href, in the order of the mapping. *)
Record item : Type := mk_item { assets : list (string * string) }.

(** The object returned by [client.search]: [matched()] and [items()]. *)
Record item_search : Type := mk_item_search {
  matched : option Z;
  items : list item
}.

Definition DEDUP_PRODUCTS : list string := ["AUX_MET_1D"%string].

Fixpoint assets_get (key : string) (a : list (string * string)) : option string :=
  match a with
  | [] => None
  | (k, href) :: a' => if String.eqb k key then Some href else assets_get key a'
  end.

Fixpoint first_enclosure (a : list (string * string)) : option string :=
  match a with
  | [] => None
  | (k, href) :: a' =>
      if startswith "enclosure" k then Some href else first_enclosure a'
  end.

(** The body of the loop of [_extract_enclosures] for one item. *)
Definition item_url (priority : string) (it : item) : option string :=
  match assets_get priority (assets it) with
  | Some href => Some href
  | None => first_enclosure (assets it)
  end.

(** [_extract_enclosures(search, format)] *)
Definition _extract_enclosures (search : item_search) (format : option string)
    : list string :=
  let priority :=
    match format with
    | Some f => if String.eqb f "hdr" then "enclosure_hdr" else "enclosure_h5"
    | None => "enclosure_h5"
    end%string in
  flat_map
    (fun it =>
       match item_url priority it with
       | Some url => if String.eqb url "" then [] else [url]
       | None => []
       end)
    (items search).

(** The sort key [extract_sensing_time(u) or datetime.min]; [None] stands
    for [datetime.min], which has no time zone, so that comparing it with
    a sensing time raises [TypeError]. *)
Definition sort_key (u : string) : option datetime := extract_sensing_time u.

Definition key_lt (a b : option datetime) : outcome bool :=
  match a, b with
  | Some x, Some y => Return (dt_ltb x y)
  | None, None => Return false
  | _, _ => Raise_TypeError
  end.

Fixpoint insert_url (u : string) (l : list string) : outcome (list string) :=
  match l with
  | [] => Return [u]
  | v :: l' =>
      b ← key_lt (sort_key v) (sort_key u);
      if (b : bool) then r ← insert_url u l'; Return (v :: r)
      else Return (u :: l)
  end.

(** [_sort_urls(urls)]: [sorted] is stable. *)
Fixpoint _sort_urls (urls : list string) : outcome (list string) :=
  match urls with
  | [] => Return []
  | u :: urls' => r ← _sort_urls urls'; insert_url u r
  end.

(** The dictionary [urls_by_key] of [_dedup_urls], in insertion order. *)
Definition dedup_key : Type := string * datetime.

Definition dedup_key_eqb (a b : dedup_key) : bool :=
  String.eqb (fst a) (fst b) && dt_eqb (snd a) (snd b).

Fixpoint dedup_put (key : dedup_key) (url : string) (creation_time : datetime)
    (d : list (dedup_key * (string * datetime))) : list (dedup_key * (string * datetime)) :=
  match d with
  | [] => [(key, (url, creation_time))]
  | (k, (u, c)) :: d' =>
      if dedup_key_eqb k key
      then (if dt_ltb creation_time c then (k, (url, creation_time)) else (k, (u, c))) :: d'
      else (k, (u, c)) :: dedup_put key url creation_time d'
  end.

(** [_dedup_urls(urls)] *)
Definition _dedup_urls (urls : list string) : list string :=
  let urls_by_key :=
    fold_left
      (fun d url =>
         match extract_baseline url, extract_sensing_time url,
               extract_creation_time url with
         | Some baseline, Some sensing_time, Some creation_time =>
             if String.eqb baseline "" then d
             else dedup_put (baseline, sensing_time) url creation_time d
         | _, _, _ => d
         end)
      urls [] in
  map (fun kv => fst (snd kv)) urls_by_key.

(** [_clean_search_results(search, product_type, start, end, dedup, format)] *)
Definition _clean_search_results (search : item_search) (product_type : string)
    (start end_ : option datetime) (dedup : bool) (format : option string)
    : outcome (list string) :=
  let urls := _extract_enclosures search format in
  let urls := filter_by_sensing_time urls start end_ in
  urls ← _sort_urls urls;
  if dedup && existsb (String.eqb product_type) DEDUP_PRODUCTS
  then Return (_dedup_urls urls) else Return urls.

Definition truthy (s : option string) : bool :=
  match s with
  | Some s => negb (String.eqb s "")
  | None => false
  end.

Definition filter_text (product_type : string) (baseline : option string) : string :=
  ("productType = '" ++ product_type ++ "'"
   ++ match baseline with
      | Some b => if String.eqb b "" then "" else " AND productVersion = '" ++ b ++ "'"
      | None => ""
      end)%string.

Section WithClient.

(** [self.client.search(collections=[collection], filter=..,
    filter_lang=.., datetime=.., method="GET", max_items=..)] of
    pystac_client, the external search capability. *)
Context (client_search :
           string -> string -> option string -> option (datetime * datetime)
           -> Z -> item_search).
(** [self._mission_start], [self._mission_end] after [parse_datetime],
    and the reading of the clock. *)
Context (mission_start mission_end now : datetime).

Definition _resolve_time_range (start end_ : option datetime) : datetime * datetime :=
  normalize_time_range now start end_ mission_start mission_end.

(** [search_has_any_product(collection, product_type, baseline, start, end)] *)
Definition search_has_any_product (collection product_type baseline : string)
    (start end_ : option datetime) : outcome bool :=
  let datetime_arg :=
    match start, end_ with
    | Some s, Some e => Some (s, e)
    | _, _ => None
    end in
  let search :=
    client_search collection
      ("productType = '" ++ product_type ++ "' AND productVersion = '"
       ++ baseline ++ "'")%string
      None datetime_arg 150 in
  match matched search with
  | None => Return false
  | Some m =>
      if m =? 0 then Return false
      else
        match start with
        | None => Return true
        | Some _ =>
            urls ← _clean_search_results search product_type start end_ false None;
            Return (1 <=? length urls)%nat
        end
  end.

(** [search_product_count(collection, product_type, baseline, start, end)] *)
Definition search_product_count (collection product_type baseline : string)
    (start end_ : option datetime) : Z :=
  let datetime_arg :=
    match start, end_ with
    | Some s, Some e => Some (s, e)
    | _, _ => None
    end in
  let search :=
    client_search collection
      ("productType = '" ++ product_type ++ "' AND productVersion = '"
       ++ baseline ++ "'")%string
      None datetime_arg 150 in
  default 0 (matched search).

(** [search_urls_iter_day]: the list of the yielded batches. *)
Fixpoint iter_day_batches (collection product_type : string)
    (baseline : option string) (max_items : Z) (format : option string)
    (windows : list window) : outcome (list (list string)) :=
  match windows with
  | [] => Return []
  | (day_start, day_end) :: windows' =>
      let search :=
        client_search collection (filter_text product_type baseline)
          (Some "cql2-text"%string)
          (Some (to_zulu day_start, to_zulu day_end)) max_items in
      urls ← _clean_search_results search product_type
               (Some day_start) (Some day_end) true format;
      rest ← iter_day_batches collection product_type baseline max_items
               format windows';
      Return (urls :: rest)
  end.

Definition search_urls_iter_day (collection product_type : string)
    (start end_ : option datetime) (baseline : option string)
    (max_items : Z) (format : option string) : outcome (list (list string)) :=
  let '(start, end_) := _resolve_time_range start end_ in
  iter_day_batches collection product_type baseline max_items format
    (_iter_day_ranges start end_).

(** [search_urls(collection, product_type, baseline, start, end,
    max_items, format)] *)
Definition search_urls (collection product_type : string)
    (baseline : option string) (start end_ : option datetime)
    (max_items : Z) (format : option string) : outcome (list string) :=
  let '(start, end_) := _resolve_time_range start end_ in
  let period_days := dt_sub end_ start / US_PER_DAY in
  if period_days <=? 10 then
    let search :=
      client_search collection (filter_text product_type baseline)
        (Some "cql2-text"%string) (Some (start, end_)) max_items in
    _clean_search_results search product_type (Some start) (Some end_) true format
  else
    batches ← search_urls_iter_day collection product_type (Some start)
                (Some end_) baseline max_items format;
    Return (concat batches).

(** The first [while lo.date() <= hi.date()] loop of
    [search_product_info_range].  The second component lists the
    windows of the existence probes, in the order they are issued. *)
Fixpoint first_day_loop (fuel : nat) (collection product_type baseline : string)
    (t0 : datetime) (lo hi : datetime) (first_day : option Z)
    (probes : list window) : outcome (option Z * list window) :=
  if date lo <=? date hi then
    match fuel with
    | O => Out_of_fuel
    | S fuel' =>
        let mid_day := date (add_timedelta lo (divide_and_round (dt_sub hi lo) 2)) in
        let mid_end := datetime_utc mid_day 23 59 59 in
        found ← search_has_any_product collection product_type baseline
                  (Some t0) (Some mid_end);
        if (found : bool) then
          first_day_loop fuel' collection product_type baseline t0 lo
            (add_timedelta (datetime_utc mid_day 0 0 0) (- timedelta_days 1))
            (Some mid_day) (probes ++ [(t0, mid_end)])
        else
          first_day_loop fuel' collection product_type baseline t0
            (add_timedelta (datetime_utc mid_day 0 0 0) (timedelta_days 1)) hi
            first_day (probes ++ [(t0, mid_end)])
    end
  else Return (first_day, probes).

(** The second loop. *)
Fixpoint last_day_loop (fuel : nat) (collection product_type baseline : string)
    (t1 : datetime) (lo hi : datetime) (last_day : option Z)
    (probes : list window) : outcome (option Z * list window) :=
  if date lo <=? date hi then
    match fuel with
    | O => Out_of_fuel
    | S fuel' =>
        let mid_day := date (add_timedelta lo (divide_and_round (dt_sub hi lo) 2)) in
        let mid_start := datetime_utc mid_day 0 0 0 in
        found ← search_has_any_product collection product_type baseline
                  (Some mid_start) (Some t1);
        if (found : bool) then
          last_day_loop fuel' collection product_type baseline t1
            (add_timedelta (datetime_utc mid_day 0 0 0) (timedelta_days 1)) hi
            (Some mid_day) (probes ++ [(mid_start, t1)])
        else
          last_day_loop fuel' collection product_type baseline t1 lo
            (add_timedelta (datetime_utc mid_day 0 0 0) (- timedelta_days 1))
            last_day (probes ++ [(mid_start, t1)])
    end
  else Return (last_day, probes).

(** What [search_product_info_range] returns, with the probes of its
    two binary searches. *)
Record info_range : Type := mk_info_range {
  granules : option (GranuleInfo * GranuleInfo);
  first_probes : list window;
  last_probes : list window
}.

(** [search_product_info_range(collection, product_type, baseline,
    start, end)]; [fuel] bounds the iterations of each loop. *)
Definition search_product_info_range (fuel : nat)
    (collection product_type baseline : string)
    (start end_ : option datetime) : outcome info_range :=
  let '(t0, t1) := _resolve_time_range start end_ in
  any ← search_has_any_product collection product_type baseline (Some t0) (Some t1);
  if negb any then Return (mk_info_range None [] [])
  else
    '(first_day, probes1) ←
      first_day_loop fuel collection product_type baseline t0 t0 t1 None [];
    '(last_day, probes2) ←
      last_day_loop fuel collection product_type baseline t1 t0 t1 None [];
    match first_day, last_day with
    | Some first_day, Some last_day =>
        let ini_day_start := datetime_utc first_day 0 0 0 in
        let ini_day_end := datetime_utc first_day 23 59 59 in
        let end_day_start := datetime_utc last_day 0 0 0 in
        let end_day_end := datetime_utc last_day 23 59 59 in
        first_day_urls ← search_urls collection product_type (Some baseline)
                           (Some ini_day_start) (Some ini_day_end) 50000 None;
        last_day_urls ← search_urls collection product_type (Some baseline)
                          (Some end_day_start) (Some end_day_end) 50000 None;
        match head first_day_urls, last last_day_urls with
        | Some first_url, Some last_url =>
            Return (mk_info_range
                      (Some (extract_info first_url, extract_info last_url))
                      probes1 probes2)
        | _, _ => Return (mk_info_range None probes1 probes2)
        end
    | _, _ => Return (mk_info_range None probes1 probes2)
    end.

End WithClient.

End Search.

(** ** registry.py: date-partitioned record files *)

Module Registry.
Import Paths.

Definition LF : ascii := "010"%char.
Definition CR : ascii := "013"%char.

(** [str.isspace] for the characters below 256. *)
Definition is_space (c : ascii) : bool :=
  let n := nat_of_ascii c in
  ((9 <=? n) && (n <=? 13) || (28 <=? n) && (n <=? 32) || (n =? 133) || (n =? 160))%nat.

(** Reading in text mode translates [\r\n] and [\r] into [\n]. *)
Fixpoint translate_newlines (prev_cr : bool) (s : string) : string :=
  match s with
  | EmptyString => EmptyString
  | String c s' =>
      if Ascii.eqb c CR then String LF (translate_newlines true s')
      else if Ascii.eqb c LF then
        (if prev_cr then translate_newlines false s'
         else String LF (translate_newlines false s'))
      else String c (translate_newlines false s')
  end.

(** [for line in f]: the lines, each with its line feed. *)
Fixpoint lines_from (cur : string) (s : string) : list string :=
  match s with
  | EmptyString => if String.eqb cur EmptyString then [] else [cur]
  | String c s' =>
      if Ascii.eqb c LF then (cur ++ String LF EmptyString)%string :: lines_from EmptyString s'
      else lines_from (cur ++ String c EmptyString)%string s'
  end.

Definition file_lines (content : string) : list string :=
  lines_from EmptyString (translate_newlines false content).

Fixpoint lstrip (s : string) : string :=
  match s with
  | EmptyString => EmptyString
  | String c s' => if is_space c then lstrip s' else s
  end.

Fixpoint rstrip (s : string) : string :=
  match s with
  | EmptyString => EmptyString
  | String c s' =>
      let r := rstrip s' in
      if String.eqb r EmptyString && is_space c then EmptyString else String c r
  end.

(** [line.strip()] *)
Definition strip (s : string) : string := rstrip (lstrip s).

(** [line.split("|", 1)]: the first part, and the second when there is a
    separator. *)
Fixpoint split_bar (s : string) : string * option string :=
  match s with
  | EmptyString => (EmptyString, None)
  | String c s' =>
      if Ascii.eqb c "|" then (EmptyString, Some s')
      else let '(a, b) := split_bar s' in (String c a, b)
  end.

(** The test [not line or line.startswith("#")]. *)
Definition skipped (line : string) : bool :=
  String.eqb line EmptyString || startswith "#" line.

(** The loop of [read_pairs_file] over the lines. *)
Fixpoint read_lines (lines : list string) (results : list (string * string))
    : list (string * string) :=
  match lines with
  | [] => results
  | line :: lines' =>
      let line := strip line in
      if skipped line then read_lines lines' results
      else
        let parts := split_bar line in
        let first := fst parts in
        let second := default EmptyString (snd parts) in
        read_lines lines' (results ++ [(first, second)])
  end.

(** [read_pairs_file(file_path)]; a missing file is [None]. *)
Definition read_pairs_file (file : option string) : list (string * string) :=
  match file with
  | None => []
  | Some content => read_lines (file_lines content) []
  end.

(** [Registry.read_pairs(file_path)] *)
Definition read_pairs (file : option string) : list (string * string) :=
  read_pairs_file file.

(** The loop of [count_lines]. *)
Fixpoint count_loop (lines : list string) (count : Z) : Z :=
  match lines with
  | [] => count
  | line :: lines' =>
      let line := strip line in
      if negb (String.eqb line EmptyString) && negb (startswith "#" line)
      then count_loop lines' (count + 1)
      else count_loop lines' count
  end.

(** [Registry.count_lines(file_path)] *)
Definition count_lines (file : option string) : Z :=
  match file with
  | None => 0
  | Some content => count_loop (file_lines content) 0
  end.

(** The files of one record kind, by the date in their name. *)
Abbreviation files := (gmap Z string).

(** [Registry.append_line(file_path, line)] *)
Definition append_line (fs : files) (d : Z) (line : string) : files :=
  <[d := (default EmptyString (fs !! d) ++ line ++ String LF EmptyString)%string]> fs.

(** Files in the order of [sorted(dir.glob(..))]: by date. *)
Fixpoint insert_file (f : Z * string) (l : list (Z * string)) : list (Z * string) :=
  match l with
  | [] => [f]
  | g :: l' => if fst f <=? fst g then f :: l else g :: insert_file f l'
  end.

Definition list_files (fs : files) : list (Z * string) :=
  foldr insert_file [] (map_to_list fs).

(** [Registry.read_daily_pairs(files, prefix, start_date, end_date)] *)
Definition date_selected (start_date end_date : option Z) (fdate : Z) : bool :=
  negb (match start_date with Some sd => fdate <? sd | None => false end)
  && negb (match end_date with Some ed => ed <? fdate | None => false end).

Fixpoint read_daily_pairs (fl : list (Z * string)) (start_date end_date : option Z)
    : list (string * string * Z) :=
  match fl with
  | [] => []
  | (fdate, content) :: fl' =>
      if date_selected start_date end_date fdate
      then map (fun p => (fst p, snd p, fdate)) (read_pairs (Some content))
           ++ read_daily_pairs fl' start_date end_date
      else read_daily_pairs fl' start_date end_date
  end.

(** *** [save_urls] *)

(** What [save_urls] does to a file. *)
Inductive fs_event : Type :=
| Touched (d : Z)
| Rewritten (d : Z) (content : string).

(** The dictionary [urls_by_date], in insertion order. *)
Fixpoint group_add (d : Z) (url : string) (g : list (Z * list string))
    : list (Z * list string) :=
  match g with
  | [] => [(d, [url])]
  | (d', l) :: g' =>
      if d' =? d then (d', l ++ [url]) :: g' else (d', l) :: group_add d url g'
  end.

Definition group_by_date (urls : list string) : list (Z * list string) :=
  fold_left
    (fun g url =>
       match extract_sensing_time (basename url) with
       | None => g
       | Some dt => group_add (date dt) url g
       end)
    urls [].

(** [sorted] on strings. *)
Fixpoint insert_string (s : string) (l : list string) : list string :=
  match l with
  | [] => [s]
  | t :: l' => if String.leb s t then s :: l else t :: insert_string s l'
  end.

Definition sorted_strings (l : list string) : list string := foldr insert_string [] l.

(** A dictionary with string keys, in insertion order. *)
Fixpoint dict_set (k v : string) (d : list (string * string)) : list (string * string) :=
  match d with
  | [] => [(k, v)]
  | (k', v') :: d' =>
      if String.eqb k' k then (k', v) :: d' else (k', v') :: dict_set k v d'
  end.

Fixpoint dict_get (k : string) (d : list (string * string)) : option string :=
  match d with
  | [] => None
  | (k', v') :: d' => if String.eqb k' k then Some v' else dict_get k d'
  end.

Definition dict_has (k : string) (d : list (string * string)) : bool :=
  match dict_get k d with Some _ => true | None => false end.

Definition pair_line (p : string * string) : string :=
  if String.eqb (snd p) EmptyString then fst p
  else (fst p ++ "|" ++ snd p)%string.

(** [for line in all_lines: f.write(line + "\n")] *)
Fixpoint write_lines (lines : list string) : string :=
  match lines with
  | [] => EmptyString
  | line :: lines' => (line ++ String LF EmptyString ++ write_lines lines')%string
  end.

Record save_state : Type := mk_save_state {
  sv_files : files;
  sv_new_count : Z;
  sv_files_written : list Z;
  sv_events : list fs_event
}.

(** The test [url_file.exists() and count_lines(url_file) == len(date_urls)]. *)
Definition same_count (url_file : option string) (date_urls : list string) : bool :=
  match url_file with
  | Some _ => count_lines url_file =? Z.of_nat (length date_urls)
  | None => false
  end.

Section WithRegistry.

Context (path_div : string -> string -> string).
(** [self._mission], [self._collection] *)
Context (mission collection : string).

(** The lines [existing_lines[url] = f"{url}|{local_path}"] for the new
    URLs. *)
Fixpoint add_new_lines (data_dir : option string) (new_urls : list string)
    (existing_lines : list (string * string)) : outcome (list (string * string)) :=
  match new_urls with
  | [] => Return existing_lines
  | url :: rest =>
      local_path ←
        match data_dir with
        | Some dir =>
            path ← url_to_local_path path_div url dir mission collection;
            Return (default EmptyString path)
        | None => Return EmptyString
        end;
      add_new_lines data_dir rest
        (dict_set url (url ++ "|" ++ local_path)%string existing_lines)
  end.

(** The body of the loop over [urls_by_date.items()]. *)
Definition save_date (data_dir : option string) (sensing_date : Z)
    (date_urls : list string) (st : save_state) : outcome save_state :=
  let url_file := sv_files st !! sensing_date in
  if same_count url_file date_urls then
    Return (mk_save_state (sv_files st) (sv_new_count st)
              (sv_files_written st ++ [sensing_date])
              (sv_events st ++ [Touched sensing_date]))
  else
    let existing_lines :=
      fold_left (fun d p => dict_set (fst p) (pair_line p) d)
                (read_pairs url_file) [] in
    let new_urls := List.filter (fun u => negb (dict_has u existing_lines)) date_urls in
    match new_urls with
    | [] => Return st
    | _ :: _ =>
        existing_lines ← add_new_lines data_dir new_urls existing_lines;
        let all_lines :=
          omap (fun u => dict_get u existing_lines)
               (sorted_strings (map fst existing_lines)) in
        let content := write_lines all_lines in
        Return (mk_save_state (<[sensing_date := content]> (sv_files st))
                  (sv_new_count st + Z.of_nat (length new_urls))
                  (sv_files_written st ++ [sensing_date])
                  (sv_events st ++ [Rewritten sensing_date content]))
    end.

Fixpoint save_dates (data_dir : option string) (groups : list (Z * list string))
    (st : save_state) : outcome save_state :=
  match groups with
  | [] => Return st
  | (sensing_date, date_urls) :: groups' =>
      st' ← save_date data_dir sensing_date date_urls st;
      save_dates data_dir groups' st'
  end.

(** [Registry.save_urls(urls, data_dir)] on the URL files [fs]; the
    result carries [(new_count, files_written)], the files afterwards
    and what was done to them. *)
Definition save_urls (fs : files) (urls : list string) (data_dir : option string)
    : outcome save_state :=
  save_dates data_dir (group_by_date urls) (mk_save_state fs 0 [] []).

End WithRegistry.

End Registry.

(** ** tracker.py: the state tracker *)

Module Tracker.
Import Paths Registry.

(** The registry directories of one (collection, product, baseline). *)
Record registry_state : Type := mk_registry_state {
  url_files : files;
  dwl_files : files;
  mrk_files : files;
  errors_file : option string
}.

(** [_to_date_range(start, end)] *)
Definition _to_date_range (start end_ : option datetime) : option Z * option Z :=
  (option_map date start, option_map date end_).

(** The keys of [{url: (url, path) for url, path in results}], in
    insertion order, and its lookup. *)
Definition url_to_pair (results : list (string * string)) : list (string * string) :=
  fold_left (fun d p => dict_set (fst p) (snd p) d) results [].

Section WithTracker.

Context (path_div : string -> string -> string).
(** [self._mission], [self._collection], [self._data_dir] *)
Context (mission collection : string) (data_dir : option string).

(** [load_urls_with_paths(start, end)] *)
Definition load_urls_with_paths (st : registry_state)
    (start end_ : option datetime) : list (string * string) :=
  let '(start_date, end_date) := _to_date_range start end_ in
  let pairs := read_daily_pairs (list_files (url_files st)) start_date end_date in
  let results := map (fun t => (fst (fst t), snd (fst t))) pairs in
  let d := url_to_pair results in
  let filtered_urls := filter_by_sensing_time (map fst d) start end_ in
  omap (fun url => option_map (pair url) (dict_get url d)) filtered_urls.

(** [mark_downloaded(url, local_path)]: the returned flag and the
    registry afterwards. *)
Definition mark_downloaded (st : registry_state) (url : string)
    (local_path : option string) : outcome (bool * registry_state) :=
  match extract_sensing_time url with
  | None => Return (false, st)
  | Some dt =>
      let sensing_date := date dt in
      path_str ←
        match local_path with
        | Some p => Return p
        | None =>
            match data_dir with
            | Some dir =>
                computed ← url_to_local_path path_div url dir mission collection;
                Return (default EmptyString computed)
            | None => Return EmptyString
            end
        end;
      Return (true,
              mk_registry_state (url_files st)
                (append_line (dwl_files st) sensing_date (url ++ "|" ++ path_str)%string)
                (mrk_files st) (errors_file st))
  end.

(** [get_downloaded_urls(start, end)] *)
Definition get_downloaded_urls (st : registry_state)
    (start end_ : option datetime) : gset string :=
  let '(start_date, end_date) := _to_date_range start end_ in
  let pairs := read_daily_pairs (list_files (dwl_files st)) start_date end_date in
  let urls := map (fun t => fst (fst t)) pairs in
  list_to_set (filter_by_sensing_time urls start end_).

(** [get_pending_downloads(start, end)] *)
Definition get_pending_downloads (st : registry_state)
    (start end_ : option datetime) : gset string :=
  let all_urls : gset string :=
    list_to_set (map fst (load_urls_with_paths st start end_)) in
  let downloaded := get_downloaded_urls st start end_ in
  all_urls ∖ downloaded.

End WithTracker.

End Tracker.

(** ** catalog_build.py: incremental extension *)

Module CatalogBuild.

Record BaselineInfo : Type := mk_BaselineInfo {
  time_start : option datetime;
  time_end : option datetime;
  frame_start : option string;
  frame_end : option string;
  count : Z;
  updated_at : option string
}.

(** [BaselineInfo.time_range()] *)
Definition time_range (b : BaselineInfo) : option (datetime * datetime) :=
  match time_start b, time_end b with
  | Some s, Some e => Some (s, e)
  | _, _ => None
  end.

(** An entry of [to_fetch]: the window and [updates_start]. *)
Definition fetch : Type := datetime * datetime * option bool.

(** The list [to_fetch] of [build] for one baseline; [None] is the
    [continue] of a range that is already in the catalog. *)
Definition to_fetch (ex_range : option (datetime * datetime))
    (effective_start effective_end : datetime) : option (list fetch) :=
  match ex_range with
  | Some (t0, t1) =>
      let before :=
        if dt_ltb effective_start t0
        then [(effective_start, add_timedelta t0 (- timedelta_seconds 1), Some true)]
        else [] in
      let after :=
        if dt_ltb t1 effective_end
        then [(add_timedelta t1 (timedelta_seconds 1), effective_end, Some false)]
        else [] in
      match before ++ after with
      | [] => None
      | l => Some l
      end
  | None => Some [(effective_start, effective_end, None)]
  end.

Record merge_state : Type := mk_merge_state {
  new_count : Z;
  r_time_start : option datetime;
  r_time_end : option datetime;
  r_frame_start : option string;
  r_frame_end : option string;
  probed : list (datetime * datetime);
  fetched : list (datetime * datetime)
}.

Section WithClient.

(** [self._client.searcher.search_has_any_product] and
    [self._client.get_baseline_info] for the baseline at hand. *)
Context (search_has_any_product : datetime -> datetime -> bool).
Context (get_baseline_info : datetime -> datetime -> option BaselineInfo).

(** The body of the loop over [to_fetch]. *)
Definition fetch_step (m : merge_state) (f : fetch) : merge_state :=
  let '(f_start, f_end, updates_start) := f in
  let m := mk_merge_state (new_count m) (r_time_start m) (r_time_end m)
             (r_frame_start m) (r_frame_end m)
             (probed m ++ [(f_start, f_end)]) (fetched m) in
  if negb (search_has_any_product f_start f_end) then m
  else
    let m := mk_merge_state (new_count m) (r_time_start m) (r_time_end m)
               (r_frame_start m) (r_frame_end m)
               (probed m) (fetched m ++ [(f_start, f_end)]) in
    match get_baseline_info f_start f_end with
    | None => m
    | Some info =>
        let upd_start := match updates_start with Some b => b | None => true end in
        let upd_end := match updates_start with Some b => negb b | None => true end in
        mk_merge_state (new_count m + count info)
          (if upd_start then time_start info else r_time_start m)
          (if upd_end then time_end info else r_time_end m)
          (if upd_start then frame_start info else r_frame_start m)
          (if upd_end then frame_end info else r_frame_end m)
          (probed m) (fetched m)
    end.

(** The body of the loop of [build] over [baselines_to_update], for one
    baseline: the windows probed and fetched, and the entry of the
    baseline afterwards. *)
Definition build_baseline (existing : option BaselineInfo)
    (effective_start effective_end : datetime) (now : string)
    : list (datetime * datetime) * list (datetime * datetime) * option BaselineInfo :=
  let ex_range := existing ≫= time_range in
  match to_fetch ex_range effective_start effective_end with
  | None => ([], [], existing)
  | Some fetches =>
      let m0 := mk_merge_state 0
                  (existing ≫= time_start) (existing ≫= time_end)
                  (existing ≫= frame_start) (existing ≫= frame_end) [] [] in
      let m := fold_left fetch_step fetches m0 in
      if 0 <? new_count m then
        let total := default 0 (count <$> existing) + new_count m in
        (probed m, fetched m,
         Some (mk_BaselineInfo (r_time_start m) (r_time_end m)
                 (r_frame_start m) (r_frame_end m) total (Some now)))
      else (probed m, fetched m, existing)
  end.

End WithClient.

End CatalogBuild.

(** ** registry.py: file names, whole-file writes and loading *)

Module RegistryFiles.
Import Paths Registry.

(** [d.strftime('%Y%m%d')] for a date from the year 1000 on (below it
    the width of [%Y] depends on the platform). *)
Definition strftime_Ymd (d : Z) : string :=
  let '(year, month, day) := ord2ymd d in
  (format_d 4 year ++ format_d 2 month ++ format_d 2 day)%string.

(** The name of the file returned by [url_file_for_date(d)],
    [dwl_file_for_date(d)] and [mrk_file_for_date(d)], with the prefix
    ["url_"], ["dwl_"] and ["mrk_"]:
    [f"{prefix}{d.strftime('%Y%m%d')}.txt"]. *)
Definition file_name_for_date (prefix : string) (d : Z) : string :=
  (prefix ++ strftime_Ymd d ++ ".txt")%string.

(** What [extract_file_date] does: it returns a date, returns [None], or
    lets the [ValueError] of [datetime.strptime] through. *)
Inductive file_date : Type :=
| Date (d : Z)
| No_date
| Raise_ValueError.

(** [Registry.extract_file_date(filename, prefix)]: the pattern is
    [re.escape(prefix)], eight digits, [\.txt] and the end of the text. *)
Definition extract_file_date (filename prefix : string) : file_date :=
  match re_search_then (lit prefix ++ d8 ++ lit ".txt") at_end filename with
  | Some m =>
      match strptime_date (substring (String.length prefix) 8 m) with
      | Some d => Date d
      | None => Raise_ValueError
      end
  | None => No_date
  end.

(** The text written for one pair by [write_pairs] and [append_pair]. *)
Definition pair_text (first second : string) : string :=
  if String.eqb second EmptyString
  then (first ++ String LF EmptyString)%string
  else (first ++ "|" ++ second ++ String LF EmptyString)%string.

(** The loop of [write_pairs] over the pairs. *)
Fixpoint pairs_text (pairs : list (string * string)) : string :=
  match pairs with
  | [] => EmptyString
  | (first, second) :: pairs' => (pair_text first second ++ pairs_text pairs')%string
  end.

(** [Registry.write_pairs(file_path, pairs)]: the file is overwritten. *)
Definition write_pairs (fs : files) (d : Z) (pairs : list (string * string)) : files :=
  <[d := pairs_text pairs]> fs.

(** [Registry.append_pair(file_path, first, second)] *)
Definition append_pair (fs : files) (d : Z) (first second : string) : files :=
  <[d := (default EmptyString (fs !! d) ++ pair_text first second)%string]> fs.

(** The inner loop of [load_urls] over the pairs of one file. *)
Fixpoint load_pairs (pairs : list (string * string))
    (urls : list string) (seen : gset string) : list string * gset string :=
  match pairs with
  | [] => (urls, seen)
  | (url, _) :: pairs' =>
      if decide (url ∈ seen) then load_pairs pairs' urls seen
      else load_pairs pairs' (urls ++ [url]) ({[url]} ∪ seen)
  end.

(** The loop of [load_urls] over the URL files. *)
Fixpoint load_files (fl : list (Z * string)) (start_date end_date : option Z)
    (urls : list string) (seen : gset string) : list string * gset string :=
  match fl with
  | [] => (urls, seen)
  | (fdate, content) :: fl' =>
      if date_selected start_date end_date fdate
      then let '(urls, seen) := load_pairs (read_pairs (Some content)) urls seen in
           load_files fl' start_date end_date urls seen
      else load_files fl' start_date end_date urls seen
  end.

(** [Registry.load_urls(start, end)] on the URL files [fs]. *)
Definition load_urls (fs : files) (start end_ : option datetime) : list string :=
  let start_date := option_map date start in
  let end_date := option_map date end_ in
  let '(urls, _) := load_files (list_files fs) start_date end_date [] ∅ in
  filter_by_sensing_time urls start end_.

End RegistryFiles.

(** ** tracker.py: adding URLs, marks, errors and statistics *)

Module TrackerRecords.
Import Paths Registry Tracker.

(** The dictionary [urls_by_date] of [add_urls], in insertion order. *)
Definition group_by_sensing_date (urls : list string) : list (Z * list string) :=
  fold_left
    (fun g url =>
       match extract_sensing_time url with
       | None => g
       | Some dt => group_add (date dt) url g
       end)
    urls [].

(** [str.replace] of one character by another. *)
Fixpoint replace_char (x y : ascii) (s : string) : string :=
  match s with
  | EmptyString => EmptyString
  | String c s' => String (if Ascii.eqb c x then y else c) (replace_char x y s')
  end.

(** [error.replace("\n", " ").replace("|", ";")[:200]] *)
Definition sanitize (error : string) : string :=
  substring 0 200 (replace_char "|" ";" (replace_char LF " " error)).

(** The result of [get_stats]. *)
Record stats : Type := mk_stats {
  total_urls : nat;
  downloaded : nat;
  marked : nat;
  errors : nat;
  pending_downloads : nat;
  pending_marks : nat
}.

Section WithTracker.

Context (path_div : string -> string -> string).
(** [self._mission], [self._collection], [self._data_dir] *)
Context (mission collection : string) (data_dir : option string).

(** The loop of [add_urls] over the URLs of one date, with the file open
    for appending: the text written, the set [existing] and the count. *)
Fixpoint add_date_urls (date_urls : list string) (existing : gset string)
    (written : string) (new_count : Z) : outcome (string * gset string * Z) :=
  match date_urls with
  | [] => Return (written, existing, new_count)
  | url :: rest =>
      if decide (url ∈ existing) then add_date_urls rest existing written new_count
      else
        local_path ←
          match data_dir with
          | Some dir =>
              path ← url_to_local_path path_div url dir mission collection;
              Return (default EmptyString path)
          | None => Return EmptyString
          end;
        add_date_urls rest ({[url]} ∪ existing)
          (written ++ url ++ "|" ++ local_path ++ String LF EmptyString)%string
          (new_count + 1)
  end.

(** The loop of [add_urls] over [urls_by_date.items()].  Opening a file
    for appending creates it. *)
Fixpoint add_dates (groups : list (Z * list string)) (fs : files) (new_count : Z)
    : outcome (Z * files) :=
  match groups with
  | [] => Return (new_count, fs)
  | (sensing_date, date_urls) :: groups' =>
      let url_file := fs !! sensing_date in
      let existing : gset string := list_to_set (map fst (read_pairs url_file)) in
      '(written, _, new_count) ← add_date_urls date_urls existing EmptyString new_count;
      add_dates groups'
        (<[sensing_date := (default EmptyString url_file ++ written)%string]> fs)
        new_count
  end.

(** [add_urls(urls)]: the count returned and the registry afterwards. *)
Definition add_urls (st : registry_state) (urls : list string)
    : outcome (Z * registry_state) :=
  '(new_count, fs) ← add_dates (group_by_sensing_date urls) (url_files st) 0;
  Return (new_count,
          mk_registry_state fs (dwl_files st) (mrk_files st) (errors_file st)).

(** [mark(path)] *)
Definition mark (st : registry_state) (path : string) : bool * registry_state :=
  match extract_sensing_time path with
  | None => (false, st)
  | Some dt =>
      (true,
       mk_registry_state (url_files st) (dwl_files st)
         (append_line (mrk_files st) (date dt) path) (errors_file st))
  end.

(** [mark_error(url, error)] *)
Definition mark_error (st : registry_state) (url error : string) : registry_state :=
  let error := sanitize error in
  mk_registry_state (url_files st) (dwl_files st) (mrk_files st)
    (Some (default EmptyString (errors_file st)
           ++ (url ++ "|" ++ error) ++ String LF EmptyString)%string).

(** [get_error_urls()] *)
Definition get_error_urls (st : registry_state) : gset string :=
  list_to_set (map fst (read_pairs (errors_file st))).

(** The loop of [get_downloaded_paths] over the download records. *)
Fixpoint downloaded_paths (pairs : list (string * string * Z)) (paths : list string)
    : outcome (list string) :=
  match pairs with
  | [] => Return paths
  | (url, stored_path, _) :: pairs' =>
      local_path ←
        (if String.eqb stored_path EmptyString then
           match data_dir with
           | Some dir =>
               derived ← url_to_local_path path_div url dir mission collection;
               Return (default stored_path derived)
           | None => Return stored_path
           end
         else Return stored_path);
      if String.eqb local_path EmptyString then downloaded_paths pairs' paths
      else downloaded_paths pairs' (paths ++ [local_path])
  end.

(** [get_downloaded_paths(start, end)] *)
Definition get_downloaded_paths (st : registry_state)
    (start end_ : option datetime) : outcome (gset string) :=
  let '(start_date, end_date) := _to_date_range start end_ in
  let pairs := read_daily_pairs (list_files (dwl_files st)) start_date end_date in
  paths ← downloaded_paths pairs [];
  Return (list_to_set (filter_by_sensing_time paths start end_)).

(** [get_marked_paths(start, end)] *)
Definition get_marked_paths (st : registry_state)
    (start end_ : option datetime) : gset string :=
  let '(start_date, end_date) := _to_date_range start end_ in
  let pairs := read_daily_pairs (list_files (mrk_files st)) start_date end_date in
  let paths := map (fun t => fst (fst t)) pairs in
  list_to_set (filter_by_sensing_time paths start end_).

(** [get_pending_mark_paths(start, end)] *)
Definition get_pending_mark_paths (st : registry_state)
    (start end_ : option datetime) : outcome (gset string) :=
  downloaded_paths ← get_downloaded_paths st start end_;
  let marked := get_marked_paths st start end_ in
  Return (downloaded_paths ∖ marked).

(** [get_stats(start, end)] *)
Definition get_stats (st : registry_state) (start end_ : option datetime)
    : outcome stats :=
  let all_url_pairs := load_urls_with_paths st start end_ in
  let all_urls : gset string := list_to_set (map fst all_url_pairs) in
  let downloaded := get_downloaded_urls st start end_ in
  downloaded_paths ← get_downloaded_paths st start end_;
  let marked := get_marked_paths st start end_ in
  let errors := get_error_urls st in
  let pending_downloads := all_urls ∖ downloaded in
  let pending_marks := downloaded_paths ∖ marked in
  Return (mk_stats (size all_urls) (size downloaded) (size marked) (size errors)
            (size pending_downloads) (size pending_marks)).

End WithTracker.

End TrackerRecords.

(** ** Concrete inputs used in the examples below *)

Module Scenarios.

(** [DEFAULT_MISSION_START] and [DEFAULT_MISSION_END] of constants.py. *)
Definition default_mission_start : datetime := utc 2024 5 28 0 0 0.
Definition default_mission_end : datetime := utc 2045 12 31 23 59 59.

(** A reading of the clock, 2026-11-04T09:00:00Z. *)
Definition clock_2026 : datetime := utc 2026 11 4 9 0 0.

(** A request that starts in the future. *)
Definition future_start : datetime := utc 2030 1 1 0 0 0.

(** An existing catalog entry that covers 1 June to 10 June 2024, and a
    build requested for 25 May to 20 June 2024. *)
Definition jun01 : datetime := utc 2024 6 1 0 0 0.
Definition jun10 : datetime := utc 2024 6 10 0 0 0.
Definition may25 : datetime := utc 2024 5 25 0 0 0.
Definition jun20 : datetime := utc 2024 6 20 0 0 0.

(** A synthetic search backend over a list of product URLs: a query
    with a time range matches the URLs whose sensing time lies in the range,
    a query without one matches them all; each match is an item with the
    single asset [enclosure_h5], and at most [max_items] items are
    returned. *)
Definition synthetic_search (catalogue : list string)
    (collection filter : string) (filter_lang : option string)
    (datetime_arg : option (datetime * datetime)) (max_items : Z)
    : Search.item_search :=
  let hits :=
    match datetime_arg with
    | Some (a, b) => Paths.filter_by_sensing_time catalogue (Some a) (Some b)
    | None => catalogue
    end in
  Search.mk_item_search (Some (Z.of_nat (length hits)))
    (map (fun u => Search.mk_item [("enclosure_h5"%string, u)])
         (take (Z.to_nat max_items) hits)).

(** Joining a path with a relative segment, for the examples. *)
Definition join (p segment : string) : string := (p ++ "/" ++ segment)%string.

(** Two EarthCARE products sensed on 8 and 9 September 2025, and an
    Aeolus product sensed on 22 April 2023. *)
Definition url_sep08 : string :=
  "https://catalog.example/EarthCARE/ECA_EXBC_BM__RAD_2B_20250908T232505Z_20250909T010458Z_07282E.h5".
Definition url_sep09 : string :=
  "https://catalog.example/EarthCARE/ECA_EXBC_BM__RAD_2B_20250909T005823Z_20250909T023417Z_07283A.h5".
Definition url_aeolus : string :=
  "https://catalog.example/ALD_U_N_1B/1B16/2023/04/22/AE_OPER_ALD_U_N_1B_20230422T165721033_005543989_027018_0001.DBL".

(** A 30-day range, 1 June to 30 June 2024, and a catalogue with products
    on days 10 to 15 of it only. *)
Definition jun01_start : datetime := utc 2024 6 1 0 0 0.
Definition jun30_end : datetime := utc 2024 6 30 23 59 59.

Definition june_catalogue : list string :=
  [ "https://catalog.example/EarthCARE/ECA_EXBC_BM__RAD_2B_20240612T101500Z_20240612T131500Z_00203C.h5";
    "https://catalog.example/EarthCARE/ECA_EXBC_BM__RAD_2B_20240610T073000Z_20240610T093000Z_00172B.h5";
    "https://catalog.example/EarthCARE/ECA_EXBC_BM__RAD_2B_20240610T041500Z_20240610T061500Z_00170A.h5";
    "https://catalog.example/EarthCARE/ECA_EXBC_BM__RAD_2B_20240611T120000Z_20240611T140000Z_00188D.h5";
    "https://catalog.example/EarthCARE/ECA_EXBC_BM__RAD_2B_20240615T223000Z_20240616T003000Z_00257F.h5";
    "https://catalog.example/EarthCARE/ECA_EXBC_BM__RAD_2B_20240613T000000Z_20240613T020000Z_00212E.h5";
    "https://catalog.example/EarthCARE/ECA_EXBC_BM__RAD_2B_20240614T235959Z_20240615T015959Z_00243G.h5";
    "https://catalog.example/EarthCARE/ECA_EXBC_BM__RAD_2B_20240615T050000Z_20240615T070000Z_00246H.h5" ]%string.

(** A 30-day range, 1 April to 30 April 2023, and an Aeolus catalogue
    with products on each of the days 10 to 15 of it and on no other day;
    the only product of day 10 is sensed at 23:59:59.500. *)
Definition aeolus_mission_start : datetime := utc 2018 8 22 0 0 0.
Definition apr01_start : datetime := utc 2023 4 1 0 0 0.
Definition apr30_end : datetime := utc 2023 4 30 23 59 59.

Definition url_apr10 : string :=
  "https://catalog.example/ALD_U_N_1B/1B16/2023/04/10/AE_OPER_ALD_U_N_1B_20230410T235959500_005543989_026830_0001.DBL".
Definition url_apr11 : string :=
  "https://catalog.example/ALD_U_N_1B/1B16/2023/04/11/AE_OPER_ALD_U_N_1B_20230411T120000000_005543989_026838_0001.DBL".
Definition url_apr12 : string :=
  "https://catalog.example/ALD_U_N_1B/1B16/2023/04/12/AE_OPER_ALD_U_N_1B_20230412T101500250_005543989_026852_0001.DBL".
Definition url_apr13 : string :=
  "https://catalog.example/ALD_U_N_1B/1B16/2023/04/13/AE_OPER_ALD_U_N_1B_20230413T000000000_005543989_026861_0001.DBL".
Definition url_apr14 : string :=
  "https://catalog.example/ALD_U_N_1B/1B16/2023/04/14/AE_OPER_ALD_U_N_1B_20230414T183000125_005543989_026889_0001.DBL".
Definition url_apr15 : string :=
  "https://catalog.example/ALD_U_N_1B/1B16/2023/04/15/AE_OPER_ALD_U_N_1B_20230415T050000000_005543989_026896_0001.DBL".

Definition april_catalogue : list string :=
  [url_apr12; url_apr10; url_apr15; url_apr11; url_apr14; url_apr13].

End Scenarios.

(** ** Orders used in the statements below *)

Module Orders.

(** The instant of the sensing time by which [_sort_urls] orders a URL. *)
Definition key_instant (u : string) : Z :=
  match Search.sort_key u with Some t => utc_instant t | None => 0 end.

End Orders.

(** ** Well-formed registry inputs *)

Module WellFormed.

(** A string that can be a URL of a registry record: it is not empty, has
    no white space (in particular no line break) and no field separator, and
    does not start like a comment line. *)
Definition plain_char (c : ascii) : bool :=
  negb (Registry.is_space c) && negb (Ascii.eqb c "|").

Definition clean_url (u : string) : Prop :=
  u <> EmptyString
  /\ Paths.startswith "#" u = false
  /\ Paths.all_chars plain_char u = true.

(** A text that is empty or ends with a line feed, as every file written
    by [write_pairs], [append_line] or [save_urls] is. *)
Definition ends_with_newline (s : string) : Prop :=
  s = EmptyString \/ exists p, s = (p ++ String Registry.LF EmptyString)%string.

(** The text of a record with the key [k]: the key, alone or followed by
    the separator. *)
Definition record_of (k line : string) : Prop :=
  exists rest, line = (k ++ rest)%string
               /\ (rest = EmptyString \/ exists r, rest = String "|" r).

(** The test of [filter_by_sensing_time(items, start, end)] on one item. *)
Definition in_window (start end_ : option datetime) (u : string) : Prop :=
  match start, end_ with
  | None, None => True
  | _, _ => exists t, Paths.extract_sensing_time u = Some t
                      /\ Paths.in_bounds start end_ t = true
  end.

(** A record with the key [u] in a file of [fs] whose date is selected by
    the window, [u] itself passing the window. *)
Definition recorded (fs : gmap Z string) (start end_ : option datetime) (u : string)
    : Prop :=
  in_window start end_ u
  /\ exists d content,
       fs !! d = Some content
       /\ Registry.date_selected (option_map date start) (option_map date end_) d = true
       /\ In u (map fst (Registry.read_pairs (Some content))).

(** Every URL of a URL file is clean and is filed under its sensing date,
    as [add_urls] and [save_urls] file it. *)
Definition urls_filed_by_sensing_date (fs : gmap Z string) : Prop :=
  forall d content u,
    fs !! d = Some content ->
    In u (map fst (Registry.read_pairs (Some content))) ->
    clean_url u
    /\ exists t, Paths.extract_sensing_time u = Some t /\ date t = d.

(** Every file ends with a line feed, as [append_line] leaves it. *)
Definition complete_lines (fs : gmap Z string) : Prop :=
  forall d content, fs !! d = Some content -> ends_with_newline content.

End WellFormed.

(** ** Marking a batch of URLs *)

Module Batch.

Section WithTracker.

Context (path_div : string -> string -> string).
Context (mission collection : string) (data_dir : option string).

(** [for url in urls: tracker.mark_downloaded(url, local_path(url))] *)
Fixpoint mark_all (local_path : string -> option string)
    (st : Tracker.registry_state) (urls : list string)
    : outcome Tracker.registry_state :=
  match urls with
  | [] => Return st
  | url :: urls' =>
      r ← Tracker.mark_downloaded path_div mission collection data_dir st url
            (local_path url);
      mark_all local_path (snd r) urls'
  end.

End WithTracker.

End Batch.

(** ** A registry with two discovered URLs and no download *)

Module RegistryScenario.

Definition sep08 : Z := 739502.
Definition sep09 : Z := 739503.

Definition discovered : Tracker.registry_state :=
  Tracker.mk_registry_state
    (<[sep08 := (Scenarios.url_sep08 ++ "|" ++ String Registry.LF EmptyString)%string]>
       (<[sep09 := (Scenarios.url_sep09 ++ "|" ++ String Registry.LF EmptyString)%string]>
          ∅))
    ∅ ∅ None.

End RegistryScenario.

(** ** Keys used in the statements on deduplication *)

Module DedupKeys.

(** The key by which [_dedup_urls] groups a URL: its baseline and the
    instant of its sensing time. *)
Definition url_key (u : string) : option string * option Z :=
  (Paths.extract_baseline u, option_map utc_instant (Paths.extract_sensing_time u)).

(** The same for a key of the dictionary [urls_by_key]. *)
Definition key_repr (k : Search.dedup_key) : string * Z :=
  (fst k, utc_instant (snd k)).

(** The instant of the creation time of a URL. *)
Definition creation_instant (u : string) : option Z :=
  option_map utc_instant (Paths.extract_creation_time u).

End DedupKeys.

(** ** Records as the registry writes them *)

Module Records.

Definition no_line_break (c : ascii) : bool :=
  negb (Ascii.eqb c Registry.LF) && negb (Ascii.eqb c Registry.CR).

(** A text for the second field of a record: it has no line break and no
    white space at its end. *)
Definition field_text (s : string) : Prop :=
  Paths.all_chars no_line_break s = true /\ Registry.rstrip s = s.

(** A pair that [write_pairs] and [append_pair] can store. *)
Definition storable (p : string * string) : Prop :=
  WellFormed.clean_url (fst p) /\ field_text (snd p).

(** A record file that is missing, or whose text ends with a line feed. *)
Definition complete_file (file : option string) : Prop :=
  match file with
  | Some content => WellFormed.ends_with_newline content
  | None => True
  end.

End Records.

(** * Properties *)

(** ** Datetime arithmetic *)

Section DatetimeFacts.

Lemma utc_instant_add_timedelta (d : datetime) (us : Z) :
  utc_instant (add_timedelta d us) = utc_instant d + us.
Proof.
  unfold utc_instant, add_timedelta; simpl.
  pose proof (Z.div_mod (dt_time d + us) US_PER_DAY) as H.
  unfold US_PER_DAY, US_PER_SECOND in *. lia.
Qed.

Lemma dt_ltb_lt (a b : datetime) : dt_ltb a b = true <-> utc_instant a < utc_instant b.
Proof. unfold dt_ltb. apply Z.ltb_lt. Qed.

Lemma dt_ltb_ge (a b : datetime) : dt_ltb a b = false <-> utc_instant b <= utc_instant a.
Proof. unfold dt_ltb. rewrite Z.ltb_ge. reflexivity. Qed.

Lemma dt_leb_le (a b : datetime) : dt_leb a b = true <-> utc_instant a <= utc_instant b.
Proof. unfold dt_leb. apply Z.leb_le. Qed.

Lemma utc_instant_dt_max (a b : datetime) :
  utc_instant (dt_max a b) = Z.max (utc_instant a) (utc_instant b).
Proof.
  unfold dt_max. destruct (dt_ltb a b) eqn:E.
  - apply dt_ltb_lt in E. lia.
  - apply dt_ltb_ge in E. lia.
Qed.

Lemma utc_instant_dt_min (a b : datetime) :
  utc_instant (dt_min a b) = Z.min (utc_instant a) (utc_instant b).
Proof.
  unfold dt_min. destruct (dt_ltb b a) eqn:E.
  - apply dt_ltb_lt in E. lia.
  - apply dt_ltb_ge in E. lia.
Qed.

Lemma utc_instant_datetime_utc (day hh mm ss : Z) :
  utc_instant (datetime_utc day hh mm ss)
  = day * US_PER_DAY + (hh * 3600 + mm * 60 + ss) * US_PER_SECOND.
Proof. unfold utc_instant, datetime_utc; simpl. lia. Qed.

End DatetimeFacts.

(** ** [normalize_time_range] *)

Section NormalizeTimeRange.
Import Utils Scenarios.

(** C2, as stated, fails: a start later than [min(now, mission_end)] is
    returned as it is, so that the returned start lies after the returned
    end. *)
Lemma normalize_time_range_order_fails :
  let '(t0, t1) :=
    normalize_time_range clock_2026 (Some future_start) None
      default_mission_start default_mission_end in
  ~ (utc_instant default_mission_start <= utc_instant t0
     /\ utc_instant t0 <= utc_instant t1
     /\ utc_instant t1 <= utc_instant (dt_min clock_2026 default_mission_end)).
Proof. vm_compute. intros (_ & H & _). apply H. reflexivity. Qed.

(** C2, amended: [normalize_time_range] returns, without an error,
    [t0 = max(start or mission_start, mission_start)] and
    [t1 = min(end or end_cap, end_cap)] with
    [end_cap = min(now, mission_end)].  Hence [mission_start <= t0] and
    [t1 <= min(now, mission_end)]; an absent start gives the mission start
    and an absent end gives [min(now, mission_end)]; a start before the
    mission start and an end after the cap are replaced by these bounds.
    The start is not clamped from above and the end not from below:
    [t0 <= t1] holds when the mission start is not after the cap, a given
    start is not after the cap, a given end is not before the mission start
    and a given start is not after a given end. *)
Theorem normalize_time_range_bounds
    (now mission_start mission_end : datetime) (start end_ : option datetime) :
  let end_cap := dt_min now mission_end in
  let t0 := fst (normalize_time_range now start end_ mission_start mission_end) in
  let t1 := snd (normalize_time_range now start end_ mission_start mission_end) in
  utc_instant mission_start <= utc_instant t0
  /\ utc_instant t1 <= utc_instant end_cap
  /\ utc_instant end_cap = Z.min (utc_instant now) (utc_instant mission_end)
  /\ (start = None -> t0 = mission_start)
  /\ (end_ = None -> t1 = end_cap)
  /\ (forall s, start = Some s ->
        utc_instant t0 = Z.max (utc_instant s) (utc_instant mission_start))
  /\ (forall e, end_ = Some e ->
        utc_instant t1 = Z.min (utc_instant e) (utc_instant end_cap))
  /\ (utc_instant mission_start <= utc_instant end_cap ->
      (forall s, start = Some s -> utc_instant s <= utc_instant end_cap) ->
      (forall e, end_ = Some e -> utc_instant mission_start <= utc_instant e) ->
      (forall s e, start = Some s -> end_ = Some e -> utc_instant s <= utc_instant e) ->
      utc_instant t0 <= utc_instant t1).
Proof.
  intros end_cap t0 t1. subst t0 t1. unfold normalize_time_range. simpl.
  fold end_cap.
  repeat split.
  - rewrite utc_instant_dt_max. lia.
  - rewrite utc_instant_dt_min. lia.
  - apply utc_instant_dt_min.
  - intros ->. simpl. unfold dt_max, dt_ltb. rewrite Z.ltb_irrefl. reflexivity.
  - intros ->. simpl. unfold dt_min, dt_ltb. rewrite Z.ltb_irrefl. reflexivity.
  - intros s ->. simpl. apply utc_instant_dt_max.
  - intros e ->. simpl. apply utc_instant_dt_min.
  - intros Hm Hs He Hse. rewrite utc_instant_dt_max, utc_instant_dt_min.
    destruct start as [s|], end_ as [e|]; simpl.
    + specialize (Hs s eq_refl). specialize (He e eq_refl).
      specialize (Hse s e eq_refl eq_refl). lia.
    + specialize (Hs s eq_refl). lia.
    + specialize (He e eq_refl). lia.
    + lia.
Qed.

Lemma normalize_time_range_bounds_witness :
  let start := Some (utc 2024 6 1 0 0 0) in
  let end_ := Some (utc 2024 6 30 0 0 0) in
  let r := normalize_time_range clock_2026 start end_
             default_mission_start default_mission_end in
  utc_instant (fst r) <= utc_instant (snd r).
Proof.
  intros start end_ r.
  apply (normalize_time_range_bounds clock_2026 default_mission_start
           default_mission_end start end_).
  - vm_compute. discriminate.
  - intros s [= <-]. vm_compute. discriminate.
  - intros e [= <-]. vm_compute. discriminate.
  - intros s e [= <-] [= <-]. vm_compute. discriminate.
Defined.

End NormalizeTimeRange.

(** ** The day iterator *)

Section DayIterator.
Import DayRanges.

Local Ltac unfold_instants :=
  unfold utc_instant, datetime_utc, date, is_utc, wf_datetime,
    US_PER_DAY, US_PER_SECOND in *;
  simpl in *.

(** The windows of the days after the first one. *)
Lemma iter_loop_rest (start end_ : datetime) (fuel : nat) (cur : Z) :
  wf_datetime end_ -> is_utc end_ ->
  date start < cur ->
  date end_ - cur + 1 <= Z.of_nat fuel ->
  let b := if (dt_time end_ =? 0) then date end_ - 1 else date end_ in
  iter_loop fuel start end_ (date end_) cur false
  = map (fun d => (if (d =? date start) then start else datetime_utc d 0 0 0,
                   if (d =? date end_) then end_ else datetime_utc d 23 59 59))
        (seqZ cur (b - cur + 1)).
Proof.
  intros Hwf Hutc. revert cur.
  induction fuel as [|fuel IH]; intros cur Hcur Hfuel b.
  - simpl. rewrite seqZ_nil; [reflexivity|]. subst b.
    destruct (dt_time end_ =? 0); lia.
  - cbn [iter_loop]. destruct (Z.leb_spec cur (date end_)) as [Hle|Hgt].
    2:{ rewrite seqZ_nil; [reflexivity|]. subst b. destruct (dt_time end_ =? 0); lia. }
    assert (iter_loop fuel start end_ (date end_) (cur + 1) false
            = map (fun d => (if (d =? date start) then start else datetime_utc d 0 0 0,
                             if (d =? date end_) then end_ else datetime_utc d 23 59 59))
                  (seqZ (cur + 1) (b - (cur + 1) + 1))) as Hrest.
    { apply IH; lia. }
    rewrite Hrest. clear Hrest IH.
    destruct (Z.eqb_spec cur (date end_)) as [->|Hne].
    + (* the last day *)
      destruct (dt_ltb (datetime_utc (date end_) 0 0 0) end_) eqn:E.
      * apply dt_ltb_lt in E.
        assert (b = date end_) as ->.
        { subst b. destruct (Z.eqb_spec (dt_time end_) 0); [|reflexivity].
          unfold_instants. lia. }
        rewrite (seqZ_cons (date end_)) by lia.
        rewrite (seqZ_nil (Z.succ _)) by lia.
        rewrite (seqZ_nil (date end_ + 1)) by lia.
        simpl. rewrite Z.eqb_refl.
        destruct (Z.eqb_spec (date end_) (date start)); [lia|reflexivity].
      * apply dt_ltb_ge in E.
        assert (b = date end_ - 1) as ->.
        { subst b. destruct (Z.eqb_spec (dt_time end_) 0); [reflexivity|].
          unfold_instants. lia. }
        rewrite (seqZ_nil (date end_)) by lia.
        rewrite (seqZ_nil (date end_ + 1)) by lia. reflexivity.
    + (* a day before the last one *)
      assert (dt_ltb (datetime_utc cur 0 0 0) (datetime_utc cur 23 59 59) = true) as ->.
      { apply dt_ltb_lt. unfold_instants. lia. }
      assert (cur <= b) by (subst b; destruct (dt_time end_ =? 0); lia).
      rewrite (seqZ_cons cur) by lia.
      replace (Z.succ cur) with (cur + 1) by lia.
      replace (Z.pred (b - cur + 1)) with (b - (cur + 1) + 1) by lia.
      simpl.
      destruct (Z.eqb_spec cur (date start)); [lia|].
      destruct (Z.eqb_spec cur (date end_)); [lia|]. reflexivity.
Qed.

(** One window per calendar day, from the first day whose window is kept
    to the last. *)
Lemma iter_day_ranges_closed_form (start end_ : datetime) :
  wf_datetime start -> wf_datetime end_ -> is_utc start -> is_utc end_ ->
  utc_instant start < utc_instant end_ ->
  let eod := 86399 * US_PER_SECOND in
  let a := if (date start <? date end_) && negb (dt_time start <? eod)
           then date start + 1 else date start in
  let b := if (date start <? date end_) && (dt_time end_ =? 0)
           then date end_ - 1 else date end_ in
  _iter_day_ranges start end_
  = map (fun d => (if (d =? date start) then start else datetime_utc d 0 0 0,
                   if (d =? date end_) then end_ else datetime_utc d 23 59 59))
        (seqZ a (b - a + 1)).
Proof.
  intros Hws Hwe Hus Hue Hlt eod a b.
  assert (date start <= date end_) as Hd by (unfold_instants; lia).
  unfold _iter_day_ranges.
  destruct (Z.to_nat (date end_ - date start + 1)) as [|fuel] eqn:Hfuel; [lia|].
  cbn [iter_loop]. destruct (Z.leb_spec (date start) (date end_)) as [_|]; [|lia].
  destruct (Z.eqb_spec (date start) (date end_)) as [Heq|Hne].
  - (* a single day *)
    assert (dt_ltb start end_ = true) as -> by now apply dt_ltb_lt.
    assert (fuel = O) as -> by lia. simpl.
    subst a b. rewrite Heq, Z.ltb_irrefl. simpl.
    replace (date end_ - date end_ + 1) with 1 by lia.
    rewrite (seqZ_cons (date end_)) by lia. rewrite seqZ_nil by lia.
    simpl. now rewrite Z.eqb_refl.
  - assert ((date start <? date end_) = true) as Hltb by (apply Z.ltb_lt; lia).
    subst a b. rewrite Hltb. simpl.
    rewrite (iter_loop_rest start end_ fuel (date start + 1)) by (try assumption; lia).
    set (b := if (dt_time end_ =? 0) then date end_ - 1 else date end_).
    assert (date start <= b) by (subst b; destruct (dt_time end_ =? 0); lia).
    destruct (dt_ltb start (datetime_utc (date start) 23 59 59)) eqn:E.
    + apply dt_ltb_lt in E.
      assert ((dt_time start <? eod) = true) as ->.
      { apply Z.ltb_lt. subst eod. unfold_instants. lia. }
      simpl. rewrite (seqZ_cons (date start)) by lia.
      replace (Z.succ (date start)) with (date start + 1) by lia.
      replace (Z.pred (b - date start + 1)) with (b - (date start + 1) + 1) by lia.
      simpl. rewrite Z.eqb_refl.
      destruct (Z.eqb_spec (date start) (date end_)); [lia|reflexivity].
    + apply dt_ltb_ge in E.
      assert ((dt_time start <? eod) = false) as ->.
      { apply Z.ltb_ge. subst eod. unfold_instants. lia. }
      reflexivity.
Qed.

(** C1, as stated, fails: for the range from 2024-06-01T12:00:00Z to
    2024-06-03T00:00:00Z the window of the last day would have start and end
    at the same instant and is not yielded; the last yielded window ends at
    2024-06-02T23:59:59Z, and the instant [end] is in no window. *)
Lemma iter_day_ranges_claim_fails :
  let start := utc 2024 6 1 12 0 0 in
  let end_ := utc 2024 6 3 0 0 0 in
  let ws := _iter_day_ranges start end_ in
  utc_instant start < utc_instant end_
  /\ ~ ((forall t, utc_instant start <= t <= utc_instant end_ ->
           exists w, In w ws /\ utc_instant (fst w) <= t <= utc_instant (snd w))
        /\ (forall i j w1 w2, (i < j)%nat -> ws !! i = Some w1 -> ws !! j = Some w2 ->
              utc_instant (snd w1) < utc_instant (fst w2))
        /\ (exists w, head ws = Some w /\ fst w = start)
        /\ (exists w, last ws = Some w /\ snd w = end_)
        /\ Forall (fun w => utc_instant (fst w) < utc_instant (snd w)) ws).
Proof.
  split; [vm_compute; reflexivity|].
  intros (_ & _ & _ & (w & Hlast & Hend) & _).
  vm_compute in Hlast. injection Hlast as <-. vm_compute in Hend. discriminate.
Qed.

(** With a UTC offset the calendar days are those of the local dates while
    the day bounds are built in UTC: from 2024-06-01T20:00:00-05:00 to
    2024-06-02T20:00:00-05:00 the only window yielded begins at
    2024-06-02T00:00:00Z, one hour before [start]. *)
Lemma iter_day_ranges_offset_example :
  let start := mk_datetime (ymd2ord 2024 6 1) (20 * 3600 * US_PER_SECOND)
                 (- (5 * 3600 * US_PER_SECOND)) in
  let end_ := mk_datetime (ymd2ord 2024 6 2) (20 * 3600 * US_PER_SECOND)
                (- (5 * 3600 * US_PER_SECOND)) in
  _iter_day_ranges start end_ = [(utc 2024 6 2 0 0 0, end_)]
  /\ utc_instant (utc 2024 6 2 0 0 0) + 3600 * US_PER_SECOND = utc_instant start.
Proof. split; vm_compute; reflexivity. Qed.

(** C1, amended: for UTC datetimes [start < end], [_iter_day_ranges]
    yields, in order, one window per calendar day of a run of consecutive
    days: the window of a day begins at [start] on the day of [start] and at
    00:00:00 otherwise, and ends at [end] on the day of [end] and at 23:59:59
    otherwise.  The run goes from the day of [start] to the day of [end],
    except that the day of [start] is left out when [start] is at or after
    23:59:59 of a day before the day of [end], and the day of [end] is left
    out when [end] is 00:00:00 of a day after the day of [start] (the window
    of that day would not have its start before its end).  Every yielded
    window has its start before its end and lies within [start, end]; each
    window begins exactly one second after the previous one ends, so that
    no two overlap; and every instant of [start, end] that is not later
    than 23:59:59 of its day is in a window, except [start] or [end] itself
    when the window of its day is left out. *)
Theorem iter_day_ranges_utc (start end_ : datetime) :
  wf_datetime start -> wf_datetime end_ -> is_utc start -> is_utc end_ ->
  utc_instant start < utc_instant end_ ->
  let ws := _iter_day_ranges start end_ in
  let eod := 86399 * US_PER_SECOND in
  let a := if (date start <? date end_) && negb (dt_time start <? eod)
           then date start + 1 else date start in
  let b := if (date start <? date end_) && (dt_time end_ =? 0)
           then date end_ - 1 else date end_ in
  ws = map (fun d => (if (d =? date start) then start else datetime_utc d 0 0 0,
                      if (d =? date end_) then end_ else datetime_utc d 23 59 59))
           (seqZ a (b - a + 1))
  /\ Forall (fun w => utc_instant start <= utc_instant (fst w)
                      /\ utc_instant (fst w) < utc_instant (snd w)
                      /\ utc_instant (snd w) <= utc_instant end_) ws
  /\ (forall i w1 w2, ws !! i = Some w1 -> ws !! S i = Some w2 ->
        utc_instant (fst w2) = utc_instant (snd w1) + US_PER_SECOND)
  /\ (forall t, utc_instant start <= t <= utc_instant end_ ->
        t mod US_PER_DAY <= eod ->
        (t = utc_instant start -> dt_time start < eod \/ date start = date end_) ->
        (t = utc_instant end_ -> 0 < dt_time end_ \/ date start = date end_) ->
        exists w, In w ws /\ utc_instant (fst w) <= t <= utc_instant (snd w)).
Proof.
  intros Hws Hwe Hus Hue Hlt ws eod a b.
  pose proof (iter_day_ranges_closed_form start end_ Hws Hwe Hus Hue Hlt) as Hcf.
  cbv zeta in Hcf. fold eod a b ws in Hcf.
  assert (date start <= date end_) as Hd by (unfold_instants; lia).
  assert (date start <= a <= date start + 1) as Ha.
  { unfold a. match goal with |- context [if ?c then _ else _] => destruct c end; lia. }
  assert (date end_ - 1 <= b <= date end_) as Hb.
  { unfold b. match goal with |- context [if ?c then _ else _] => destruct c end; lia. }
  assert (a = date start + 1 -> date start < date end_ /\ eod <= dt_time start) as Ha1.
  { unfold a. destruct (Z.ltb_spec (date start) (date end_)); simpl; [|lia].
    destruct (Z.ltb_spec (dt_time start) eod); simpl; lia. }
  assert (a = date start -> date start = date end_ \/ dt_time start < eod) as Ha0.
  { unfold a. destruct (Z.ltb_spec (date start) (date end_)); simpl; [|lia].
    destruct (Z.ltb_spec (dt_time start) eod); simpl; lia. }
  assert (b = date end_ - 1 -> date start < date end_ /\ dt_time end_ = 0) as Hb1.
  { unfold b. destruct (Z.ltb_spec (date start) (date end_)); simpl; [|lia].
    destruct (Z.eqb_spec (dt_time end_) 0); simpl; lia. }
  assert (b = date end_ -> date start = date end_ \/ 0 < dt_time end_) as Hb0.
  { unfold b. destruct (Z.ltb_spec (date start) (date end_)); simpl; [|lia].
    destruct (Z.eqb_spec (dt_time end_) 0); simpl; [lia|].
    destruct Hwe as [Hwe _]. lia. }
  (* the bounds of the window of a day of the run *)
  assert (forall d, a <= d <= b ->
            let w := (if (d =? date start) then start else datetime_utc d 0 0 0,
                      if (d =? date end_) then end_ else datetime_utc d 23 59 59) in
            utc_instant (fst w)
            = (if (d =? date start) then utc_instant start else d * US_PER_DAY)
            /\ utc_instant (snd w)
               = (if (d =? date end_) then utc_instant end_ else d * US_PER_DAY + eod))
    as Hwin.
  { intros d Hdab. simpl.
    destruct (d =? date start), (d =? date end_); split; try reflexivity;
      rewrite utc_instant_datetime_utc; subst eod; unfold US_PER_DAY, US_PER_SECOND; lia. }
  split; [exact Hcf|]. split; [|split].
  - rewrite Hcf. apply List.Forall_forall. intros w Hw.
    apply in_map_iff in Hw. destruct Hw as (d & <- & Hdin).
    apply list_elem_of_In, elem_of_seqZ in Hdin.
    destruct (Hwin d ltac:(lia)) as [-> ->].
    destruct (Z.eqb_spec d (date start)), (Z.eqb_spec d (date end_));
      subst eod; unfold_instants; lia.
  - intros i w1 w2 H1 H2. rewrite Hcf in H1, H2.
    change map with (@fmap list _) in H1, H2.
    rewrite list_lookup_fmap in H1, H2.
    destruct (seqZ a (b - a + 1) !! i) as [d1|] eqn:E1; [|discriminate].
    destruct (seqZ a (b - a + 1) !! S i) as [d2|] eqn:E2; [|discriminate].
    apply lookup_seqZ in E1, E2. simpl in H1, H2.
    injection H1 as <-. injection H2 as <-.
    destruct (Hwin d1 ltac:(lia)) as [_ ->].
    destruct (Hwin d2 ltac:(lia)) as [-> _].
    destruct (Z.eqb_spec d2 (date start)); [lia|].
    destruct (Z.eqb_spec d1 (date end_)); [lia|].
    subst eod. unfold US_PER_DAY, US_PER_SECOND. lia.
  - intros t Ht Hmod Hstart Hend.
    pose proof (Z.div_mod t US_PER_DAY ltac:(unfold US_PER_DAY, US_PER_SECOND; lia)) as Hdm.
    pose proof (Z.mod_pos_bound t US_PER_DAY
                  ltac:(unfold US_PER_DAY, US_PER_SECOND; lia)) as Hmb.
    set (d := t / US_PER_DAY) in *.
    assert (date start <= d <= date end_) as Hdd.
    { subst eod. unfold_instants. lia. }
    assert (a <= d <= b) as Hdab.
    { split.
      - destruct (Z.eq_dec a (date start)) as [|Hn]; [lia|].
        destruct (Ha1 ltac:(lia)) as [? ?].
        destruct (Z.eq_dec t (utc_instant start)) as [Et|Et].
        + destruct (Hstart Et); lia.
        + subst eod. unfold_instants. lia.
      - destruct (Z.eq_dec b (date end_)) as [|Hn]; [lia|].
        destruct (Hb1 ltac:(lia)) as [? ?].
        destruct (Z.eq_dec t (utc_instant end_)) as [Et|Et].
        + destruct (Hend Et); lia.
        + subst eod. unfold_instants. lia. }
    eexists. split.
    + rewrite Hcf. apply in_map_iff. exists d. split; [reflexivity|].
      apply list_elem_of_In, elem_of_seqZ. lia.
    + destruct (Hwin d Hdab) as [-> ->].
      destruct (Z.eqb_spec d (date start)), (Z.eqb_spec d (date end_));
        subst eod; unfold_instants; lia.
Qed.

End DayIterator.

Lemma iter_day_ranges_utc_witness :
  let start := utc 2024 6 1 12 0 0 in
  let end_ := utc 2024 6 3 0 0 0 in
  DayRanges._iter_day_ranges start end_
  = [(start, utc 2024 6 1 23 59 59); (utc 2024 6 2 0 0 0, utc 2024 6 2 23 59 59)].
Proof.
  intros start end_.
  destruct (iter_day_ranges_utc start end_) as (H & _).
  - vm_compute. intuition congruence.
  - vm_compute. intuition congruence.
  - reflexivity.
  - reflexivity.
  - vm_compute. reflexivity.
  - rewrite H. vm_compute. reflexivity.
Defined.

(** ** [filter_by_sensing_time] *)

Section FilterBySensingTime.
Import Paths.

Lemma filter_loop_acc (start end_ : option datetime) (items result : list string) :
  filter_loop start end_ items result
  = result
    ++ List.filter
         (fun item =>
            match extract_sensing_time item with
            | Some t => in_bounds start end_ t
            | None => false
            end)
         items.
Proof.
  revert result. induction items as [|item items IH]; intros result; simpl.
  - now rewrite app_nil_r.
  - destruct (extract_sensing_time item) as [t|]; [|apply IH].
    destruct (in_bounds start end_ t); rewrite IH; [|reflexivity].
    now rewrite <- app_assoc.
Qed.

(** C10: with both bounds absent the input list is returned as it is;
    with a start, or with an end, the result is the input list restricted,
    in its order, to the items whose sensing time can be extracted and lies
    within the given inclusive bounds. *)
Theorem filter_by_sensing_time_spec
    (items : list string) (start end_ : option datetime) :
  filter_by_sensing_time items None None = items
  /\ (forall s,
        filter_by_sensing_time items (Some s) end_
        = List.filter
            (fun item =>
               match extract_sensing_time item with
               | Some t =>
                   dt_leb s t
                   && match end_ with Some e => dt_leb t e | None => true end
               | None => false
               end)
            items)
  /\ (forall e,
        filter_by_sensing_time items start (Some e)
        = List.filter
            (fun item =>
               match extract_sensing_time item with
               | Some t =>
                   match start with Some s => dt_leb s t | None => true end
                   && dt_leb t e
               | None => false
               end)
            items).
Proof.
  split; [reflexivity|]. split.
  - intros s. unfold filter_by_sensing_time. now rewrite filter_loop_acc.
  - intros e. unfold filter_by_sensing_time.
    destruct start; now rewrite filter_loop_acc.
Qed.

(** Every item that survives a bounded filter has a sensing time within
    the bounds, and comes from the input. *)
Lemma filter_by_sensing_time_In
    (items : list string) (start end_ : option datetime) (x : string) :
  is_Some start \/ is_Some end_ ->
  (In x (filter_by_sensing_time items start end_)
   <-> In x items
       /\ exists t, extract_sensing_time x = Some t /\ in_bounds start end_ t = true).
Proof.
  intros Hb.
  assert (filter_by_sensing_time items start end_
          = List.filter
              (fun item =>
                 match extract_sensing_time item with
                 | Some t => in_bounds start end_ t
                 | None => false
                 end) items) as ->.
  { unfold filter_by_sensing_time.
    destruct start, end_; try now rewrite filter_loop_acc.
    destruct Hb as [[? [=]]|[? [=]]]. }
  rewrite filter_In. split.
  - intros [Hin Hk]. split; [exact Hin|].
    destruct (extract_sensing_time x) as [t|]; [|discriminate]. eauto.
  - intros [Hin (t & -> & Hk)]. auto.
Qed.

End FilterBySensingTime.

(** ** The file name of a URL or path *)

Section Basename.
Import Paths.

Lemma basename_plain (s : string) : has_char "/" s = false -> basename s = s.
Proof.
  destruct s as [|c s]; cbn [basename has_char]; [reflexivity|]. intros H.
  apply orb_false_iff in H. destruct H as [Hc Hs]. rewrite Hs.
  rewrite Ascii.eqb_sym, Hc. reflexivity.
Qed.

Lemma basename_no_slash (s : string) : has_char "/" (basename s) = false.
Proof.
  induction s as [|c s IH]; cbn [basename]; [reflexivity|].
  destruct (has_char "/" s) eqn:Hs; [exact IH|].
  destruct (Ascii.eqb c "/") eqn:Hc; [exact Hs|].
  cbn [has_char]. rewrite Ascii.eqb_sym, Hc, Hs. reflexivity.
Qed.

Lemma basename_idempotent (s : string) : basename (basename s) = basename s.
Proof. apply basename_plain, basename_no_slash. Qed.

(** The sensing time of the granule built by [extract_info] is the one
    [extract_sensing_time] reads from the URL. *)
Lemma extract_info_sensing_time (uri : string) :
  sensing_time (extract_info uri) = extract_sensing_time uri.
Proof.
  unfold extract_info. cbn [sensing_time]. unfold extract_sensing_time.
  now rewrite basename_idempotent.
Qed.

End Basename.

(** ** Reading and counting records *)

Section ReadAndCount.
Import Paths Registry.

Lemma read_lines_acc (lines : list string) (results : list (string * string)) :
  read_lines lines results = results ++ read_lines lines [].
Proof.
  revert results. induction lines as [|line lines IH]; intros results; simpl.
  - now rewrite app_nil_r.
  - destruct (skipped (strip line)); [apply IH|].
    rewrite IH. rewrite (IH [_]). now rewrite <- app_assoc.
Qed.

Lemma count_loop_acc (lines : list string) (count : Z) :
  count_loop lines count = count + count_loop lines 0.
Proof.
  revert count. induction lines as [|line lines IH]; intros count; simpl.
  - lia.
  - destruct (negb _ && negb _); [|apply IH].
    rewrite IH. rewrite (IH (0 + 1)). lia.
Qed.

(** The two loops skip the same lines. *)
Lemma same_skip_rule (line : string) :
  negb (String.eqb line EmptyString) && negb (startswith "#" line)
  = negb (skipped line).
Proof. unfold skipped. now rewrite negb_orb. Qed.

Lemma count_loop_read_lines (lines : list string) :
  count_loop lines 0 = Z.of_nat (length (read_lines lines [])).
Proof.
  induction lines as [|line lines IH]; simpl; [reflexivity|].
  rewrite same_skip_rule.
  destruct (skipped (strip line)); simpl; [exact IH|].
  rewrite count_loop_acc, read_lines_acc, IH. simpl length. lia.
Qed.

(** C8: for every file, [count_lines] is the number of records that
    [read_pairs] returns for it; for a missing file they return 0 and the
    empty list. *)
Theorem count_lines_read_pairs (file : option string) :
  count_lines file = Z.of_nat (length (read_pairs file))
  /\ count_lines None = 0
  /\ read_pairs None = [].
Proof.
  split; [|split; reflexivity].
  destruct file as [content|]; [|reflexivity].
  apply count_loop_read_lines.
Qed.

End ReadAndCount.

(** ** Incremental extension of a catalog entry *)

Section CatalogExtension.
Import CatalogBuild Scenarios.

Context (search_has_any_product : datetime -> datetime -> bool).
Context (get_baseline_info : datetime -> datetime -> option BaselineInfo).

Lemma fetch_step_probed (m : merge_state) (f : fetch) :
  probed (fetch_step search_has_any_product get_baseline_info m f)
  = probed m ++ [fst f].
Proof.
  destruct f as [[a b] u]. unfold fetch_step. simpl.
  destruct (search_has_any_product a b); simpl; [|reflexivity].
  destruct (get_baseline_info a b); reflexivity.
Qed.

Lemma fetch_step_fetched (m : merge_state) (f : fetch) :
  fetched (fetch_step search_has_any_product get_baseline_info m f)
  = fetched m ++ (if search_has_any_product (fst (fst f)) (snd (fst f)) then [fst f] else []).
Proof.
  destruct f as [[a b] u]. unfold fetch_step. simpl.
  destruct (search_has_any_product a b); simpl; [|now rewrite app_nil_r].
  destruct (get_baseline_info a b); reflexivity.
Qed.

Lemma fold_fetch_step_probed (fetches : list fetch) (m : merge_state) :
  probed (fold_left (fetch_step search_has_any_product get_baseline_info) fetches m)
  = probed m ++ map fst fetches.
Proof.
  revert m. induction fetches as [|f fs IH]; intros m; simpl.
  - now rewrite app_nil_r.
  - rewrite IH, fetch_step_probed. now rewrite <- app_assoc.
Qed.

Lemma fold_fetch_step_fetched (fetches : list fetch) (m : merge_state) (w : datetime * datetime) :
  In w (fetched (fold_left (fetch_step search_has_any_product get_baseline_info) fetches m)) ->
  In w (fetched m) \/ In w (map fst fetches).
Proof.
  revert m. induction fetches as [|f fs IH]; intros m; simpl; [auto|].
  intros H. apply IH in H. destruct H as [H|H]; [|auto].
  rewrite fetch_step_fetched in H. apply in_app_or in H. destruct H as [H|H]; [auto|].
  destruct (search_has_any_product _ _); simpl in H; [|contradiction].
  destruct H as [<-|[]]. auto.
Qed.

(** The windows that [build] probes and fetches for a baseline whose
    entry has the range [(t0, t1)] are those of [to_fetch]. *)
Lemma build_baseline_windows
    (existing : BaselineInfo) (t0 t1 effective_start effective_end : datetime)
    (now : string) :
  time_range existing = Some (t0, t1) ->
  let r := build_baseline search_has_any_product get_baseline_info
             (Some existing) effective_start effective_end now in
  fst (fst r)
  = map fst (default [] (to_fetch (Some (t0, t1)) effective_start effective_end))
  /\ (forall w, In w (snd (fst r)) -> In w (fst (fst r))).
Proof.
  intros Hr. unfold build_baseline.
  change (Some existing ≫= time_range) with (time_range existing). rewrite Hr.
  destruct (to_fetch (Some (t0, t1)) effective_start effective_end) as [fetches|];
    cbn [fst snd default]; [|split; [reflexivity|intros w []]].
  set (m0 := mk_merge_state _ _ _ _ _ _ _).
  assert (probed (fold_left (fetch_step search_has_any_product get_baseline_info)
                    fetches m0) = map fst fetches) as Hp.
  { rewrite fold_fetch_step_probed. reflexivity. }
  assert (forall w,
             In w (fetched (fold_left (fetch_step search_has_any_product
                                         get_baseline_info) fetches m0)) ->
             In w (map fst fetches)) as Hf.
  { intros w H. apply fold_fetch_step_fetched in H. destruct H as [[]|H]. exact H. }
  destruct (0 <? _); simpl; rewrite Hp; auto.
Qed.

(** C4: for a baseline whose entry records the range [(t0, t1)], [build]
    plans the window [(effective_start, t0 - 1s)] exactly when
    [effective_start < t0] and the window [(t1 + 1s, effective_end)]
    exactly when [effective_end > t1], in this order and no other window;
    these are the windows it probes, and it fetches only probed windows.
    When neither condition holds it probes and fetches nothing and leaves
    the entry as it is.  A planned window ends before [t0] or starts after
    [t1], and when [t0 <= t1] the first ends before the second starts.
    With the entry covering 1 June to 10 June and a request for 25 May to
    20 June the windows are 25 May to 31 May 23:59:59 and 10 June 00:00:01
    to 20 June. *)
Theorem build_fetch_windows
    (existing : BaselineInfo) (t0 t1 effective_start effective_end : datetime)
    (now : string) :
  let before :=
    (effective_start, add_timedelta t0 (- timedelta_seconds 1), Some true) in
  let after :=
    (add_timedelta t1 (timedelta_seconds 1), effective_end, Some false) in
  let r := build_baseline search_has_any_product get_baseline_info
             (Some existing) effective_start effective_end now in
  to_fetch (Some (t0, t1)) effective_start effective_end
  = (if dt_ltb effective_start t0
     then (if dt_ltb t1 effective_end then Some [before; after] else Some [before])
     else (if dt_ltb t1 effective_end then Some [after] else None))
  /\ utc_instant (add_timedelta t0 (- timedelta_seconds 1)) = utc_instant t0 - US_PER_SECOND
  /\ utc_instant (add_timedelta t1 (timedelta_seconds 1)) = utc_instant t1 + US_PER_SECOND
  /\ (time_range existing = Some (t0, t1) ->
      fst (fst r)
      = map fst (default [] (to_fetch (Some (t0, t1)) effective_start effective_end))
      /\ (forall w, In w (snd (fst r)) -> In w (fst (fst r)))
      /\ (dt_ltb effective_start t0 = false -> dt_ltb t1 effective_end = false ->
          r = ([], [], Some existing)))
  /\ (utc_instant t0 <= utc_instant t1 ->
      utc_instant (add_timedelta t0 (- timedelta_seconds 1))
      < utc_instant (add_timedelta t1 (timedelta_seconds 1)))
  /\ to_fetch (Some (jun01, jun10)) may25 jun20
     = Some [(may25, utc 2024 5 31 23 59 59, Some true);
             (utc 2024 6 10 0 0 1, jun20, Some false)].
Proof.
  intros before after r.
  assert (utc_instant (add_timedelta t0 (- timedelta_seconds 1))
          = utc_instant t0 - US_PER_SECOND) as H0.
  { rewrite utc_instant_add_timedelta. unfold timedelta_seconds. lia. }
  assert (utc_instant (add_timedelta t1 (timedelta_seconds 1))
          = utc_instant t1 + US_PER_SECOND) as H1.
  { rewrite utc_instant_add_timedelta. unfold timedelta_seconds. lia. }
  split; [|split; [exact H0|split; [exact H1|split; [|split]]]].
  - unfold to_fetch.
    destruct (dt_ltb effective_start t0), (dt_ltb t1 effective_end); reflexivity.
  - intros Hr.
    destruct (build_baseline_windows existing t0 t1 effective_start effective_end
                now Hr) as [Hp Hf].
    split; [exact Hp|split; [exact Hf|]].
    intros Hb Ha. subst r. unfold build_baseline.
    change (Some existing ≫= time_range) with (time_range existing). rewrite Hr.
    unfold to_fetch. rewrite Hb, Ha. reflexivity.
  - intros Hle. rewrite H0, H1. unfold US_PER_SECOND. lia.
  - vm_compute. reflexivity.
Qed.

End CatalogExtension.

Lemma build_fetch_windows_witness :
  let existing :=
    CatalogBuild.mk_BaselineInfo (Some Scenarios.jun01) (Some Scenarios.jun10)
      None None 42 None in
  let r := CatalogBuild.build_baseline (fun _ _ => true) (fun _ _ => None)
             (Some existing) Scenarios.may25 Scenarios.jun20 "2024-07-01T00:00:00Z" in
  fst (fst r)
  = [(Scenarios.may25, utc 2024 5 31 23 59 59); (utc 2024 6 10 0 0 1, Scenarios.jun20)]
  /\ utc_instant (add_timedelta Scenarios.jun01 (- timedelta_seconds 1))
     < utc_instant (add_timedelta Scenarios.jun10 (timedelta_seconds 1)).
Proof.
  intros existing r.
  pose proof (build_fetch_windows (fun _ _ => true) (fun _ _ => None) existing
                Scenarios.jun01 Scenarios.jun10 Scenarios.may25 Scenarios.jun20
                "2024-07-01T00:00:00Z") as H.
  cbv zeta in H.
  destruct H as (_ & _ & _ & Hw & Hd & _).
  split.
  - destruct (Hw eq_refl) as (Hp & _ & _). subst r.
    etransitivity; [exact Hp|]. vm_compute. reflexivity.
  - apply Hd. vm_compute. discriminate.
Defined.

(** ** The existence check *)

Section ExistenceCheck.
Import Paths Search.

Lemma insert_url_sorted (u : string) (l : list string) :
  (forall v, In v (u :: l) -> is_Some (sort_key v)) ->
  exists r, insert_url u l = Return r /\ Permutation r (u :: l).
Proof.
  induction l as [|v l IH]; intros Hk; simpl.
  - eauto.
  - destruct (Hk u (or_introl eq_refl)) as [ku Hu].
    destruct (Hk v (or_intror (or_introl eq_refl))) as [kv Hv].
    rewrite Hu, Hv. simpl.
    destruct (dt_ltb kv ku).
    + destruct IH as (r & Hr & Hp).
      { intros w [<-|Hw]; apply Hk; simpl; auto. }
      rewrite Hr. simpl. eexists; split; [reflexivity|].
      rewrite Hp. apply perm_swap.
    + eexists; split; [reflexivity|]. reflexivity.
Qed.

(** Sorting URLs that all have a sensing time returns a rearrangement of
    them; it does not raise. *)
Lemma sort_urls_sorted (urls : list string) :
  (forall v, In v urls -> is_Some (sort_key v)) ->
  exists r, _sort_urls urls = Return r /\ Permutation r urls.
Proof.
  induction urls as [|u urls IH]; intros Hk; simpl.
  - eauto.
  - destruct IH as (r & Hr & Hp); [intros v Hv; apply Hk; simpl; auto|].
    rewrite Hr. simpl.
    destruct (insert_url_sorted u r) as (r' & Hr' & Hp').
    { intros v [<-|Hv]; apply Hk; simpl; auto.
      right. apply (Permutation_in _ Hp). exact Hv. }
    exists r'. split; [exact Hr'|]. rewrite Hp'. now constructor.
Qed.

Lemma extract_enclosures_In (search : item_search) (url : string) :
  In url (_extract_enclosures search None)
  <-> exists it, In it (items search)
                 /\ item_url "enclosure_h5" it = Some url /\ url <> EmptyString.
Proof.
  unfold _extract_enclosures. rewrite in_flat_map. split.
  - intros (it & Hit & Hu). exists it. split; [exact Hit|].
    destruct (item_url "enclosure_h5" it) as [h|]; [|destruct Hu].
    destruct (String.eqb_spec h ""); [destruct Hu|].
    destruct Hu as [<-|[]]. auto.
  - intros (it & Hit & Hu & Hne). exists it. split; [exact Hit|].
    rewrite Hu. destruct (String.eqb_spec url ""); [contradiction|]. simpl. auto.
Qed.

(** C5, as stated, fails: with an end and no start the query carries no
    time range, the backend answers with the two products sensed on 8 and 9
    September 2025, and [search_has_any_product] returns [True] although no
    item has a sensing time within the requested range, which ends on
    1 September 2025. *)
Lemma search_has_any_product_end_only :
  search_has_any_product
    (Scenarios.synthetic_search [Scenarios.url_sep08; Scenarios.url_sep09])
    "EarthCAREL2Validated_MAAP" "BM__RAD_2B" "BC" None (Some (utc 2025 9 1 0 0 0))
  = Return true
  /\ filter_by_sensing_time [Scenarios.url_sep08; Scenarios.url_sep09]
       None (Some (utc 2025 9 1 0 0 0))
     = [].
Proof. vm_compute. split; reflexivity. Qed.

(** C5, amended: [search_has_any_product] returns [False] when the matched
    count of the query is absent or zero.  When the count is not zero and a
    start is given, it returns without raising, and it returns [True]
    exactly when some returned item has a non-empty download URL whose
    filename-derived sensing time is not before the start and, if an end is
    given, not after the end.  When the count is not zero and no start is
    given, with or without an end, it returns [True] without looking at
    the sensing times. *)
Theorem search_has_any_product_spec
    (client_search :
       string -> string -> option string -> option (datetime * datetime) -> Z
       -> item_search)
    (collection product_type baseline : string) (start end_ : option datetime) :
  let search :=
    client_search collection
      ("productType = '" ++ product_type ++ "' AND productVersion = '"
       ++ baseline ++ "'")%string
      None
      match start, end_ with Some s, Some e => Some (s, e) | _, _ => None end
      150 in
  let result :=
    search_has_any_product client_search collection product_type baseline
      start end_ in
  (matched search = None \/ matched search = Some 0 -> result = Return false)
  /\ (forall m s, matched search = Some m -> m <> 0 -> start = Some s ->
      exists b, result = Return b
        /\ (b = true
            <-> exists it url t,
                  In it (items search)
                  /\ item_url "enclosure_h5" it = Some url
                  /\ url <> EmptyString
                  /\ extract_sensing_time url = Some t
                  /\ utc_instant s <= utc_instant t
                  /\ (forall e, end_ = Some e -> utc_instant t <= utc_instant e)))
  /\ (forall m, matched search = Some m -> m <> 0 -> start = None ->
      result = Return true).
Proof.
  intros search result. subst result. unfold search_has_any_product.
  fold search. split; [|split].
  - intros [-> | ->]; reflexivity.
  - intros m s Hm Hne ->. rewrite Hm.
    destruct (Z.eqb_spec m 0) as [|_]; [contradiction|].
    unfold _clean_search_results.
    set (urls := filter_by_sensing_time (_extract_enclosures search None) (Some s) end_).
    assert (forall v, In v urls
                      <-> In v (_extract_enclosures search None)
                          /\ exists t, extract_sensing_time v = Some t
                                       /\ in_bounds (Some s) end_ t = true) as Hin.
    { intros v. apply filter_by_sensing_time_In. left. eauto. }
    destruct (sort_urls_sorted urls) as (r & Hr & Hp).
    { intros v Hv. apply Hin in Hv. destruct Hv as (_ & t & Ht & _).
      unfold sort_key. rewrite Ht. eauto. }
    rewrite Hr. simpl. eexists. split; [reflexivity|].
    rewrite (Permutation_length Hp). split.
    + intros Hlen. destruct urls as [|v urls'] eqn:E; [discriminate|].
      destruct (proj1 (Hin v) (or_introl eq_refl)) as (Hv & t & Ht & Hb).
      apply extract_enclosures_In in Hv. destruct Hv as (it & Hit & Hu & Hn).
      exists it, v, t. repeat split; try assumption.
      * unfold in_bounds in Hb. apply andb_true_iff in Hb. now apply dt_leb_le.
      * intros e ->. unfold in_bounds in Hb. apply andb_true_iff in Hb.
        now apply dt_leb_le.
    + intros (it & url & t & Hit & Hu & Hn & Ht & Hs & He).
      assert (In url urls) as Hurl.
      { apply Hin. split; [apply extract_enclosures_In; eauto|].
        exists t. split; [exact Ht|]. unfold in_bounds.
        apply andb_true_iff. split; [now apply dt_leb_le|].
        destruct end_ as [e|]; [|reflexivity]. apply dt_leb_le. now apply He. }
      destruct urls; [destruct Hurl|reflexivity].
  - intros m Hm Hne ->. rewrite Hm.
    destruct (Z.eqb_spec m 0) as [|_]; [contradiction|]. reflexivity.
Qed.

End ExistenceCheck.

Lemma search_has_any_product_spec_witness :
  Search.search_has_any_product
    (Scenarios.synthetic_search [Scenarios.url_sep08; Scenarios.url_sep09])
    "EarthCAREL2Validated_MAAP" "BM__RAD_2B" "BC"
    (Some (utc 2025 9 9 0 0 0)) (Some (utc 2025 9 9 23 59 59))
  = Return true
  /\ Search.search_has_any_product
       (Scenarios.synthetic_search [Scenarios.url_sep08; Scenarios.url_sep09])
       "EarthCAREL2Validated_MAAP" "BM__RAD_2B" "BC"
       (Some (utc 2025 9 10 0 0 0)) (Some (utc 2025 9 10 23 59 59))
     = Return false.
Proof.
  split.
  - destruct (search_has_any_product_spec
                (Scenarios.synthetic_search [Scenarios.url_sep08; Scenarios.url_sep09])
                "EarthCAREL2Validated_MAAP" "BM__RAD_2B" "BC"
                (Some (utc 2025 9 9 0 0 0)) (Some (utc 2025 9 9 23 59 59)))
      as (_ & H & _).
    destruct (H 1 (utc 2025 9 9 0 0 0)) as (b & Hb & Hiff);
      [vm_compute; reflexivity|discriminate|reflexivity|].
    rewrite Hb. f_equal. apply Hiff.
    exists (Search.mk_item [("enclosure_h5"%string, Scenarios.url_sep09)]),
      Scenarios.url_sep09, (mk_datetime 739503 3503000000 0).
    vm_compute. repeat split; try discriminate; auto.
    intros e [= <-]. discriminate.
  - apply (search_has_any_product_spec
             (Scenarios.synthetic_search [Scenarios.url_sep08; Scenarios.url_sep09])
             "EarthCAREL2Validated_MAAP" "BM__RAD_2B" "BC"
             (Some (utc 2025 9 10 0 0 0)) (Some (utc 2025 9 10 23 59 59))).
    right. vm_compute. reflexivity.
Defined.

(** ** [mark_downloaded] *)

Section MarkDownloaded.
Import Paths Registry Tracker.

Context (path_div : string -> string -> string).
Context (mission collection : string).

(** A URL without a sensing time: [False], and the registry is as before. *)
Lemma mark_downloaded_unparsable
    (data_dir : option string) (st : registry_state) (url : string)
    (local_path : option string) :
  extract_sensing_time url = None ->
  mark_downloaded path_div mission collection data_dir st url local_path
  = Return (false, st).
Proof. intros H. unfold mark_downloaded. now rewrite H. Qed.

(** A URL with a sensing time and a given local path, or a tracker without
    a data directory: one line is appended to the download file of the
    sensing date, nothing else changes, and the call returns [True]. *)
Lemma mark_downloaded_appends
    (data_dir : option string) (st : registry_state) (url : string)
    (local_path : option string) (dt : datetime) :
  extract_sensing_time url = Some dt ->
  is_Some local_path \/ data_dir = None ->
  mark_downloaded path_div mission collection data_dir st url local_path
  = Return (true,
            mk_registry_state (url_files st)
              (<[date dt :=
                   (default EmptyString (dwl_files st !! date dt)
                    ++ (url ++ "|" ++ default EmptyString local_path)
                    ++ String LF EmptyString)%string]> (dwl_files st))
              (mrk_files st) (errors_file st)).
Proof.
  intros H Hp. unfold mark_downloaded. rewrite H.
  destruct local_path as [p|]; [reflexivity|].
  destruct Hp as [[? [=]]| ->]. reflexivity.
Qed.

(** C9 fails on the code: for a tracker with a data directory and no local
    path given, [mark_downloaded] on the Aeolus product URL, whose sensing
    time 2023-04-22T16:57:21.033Z is extracted, raises [TypeError] instead
    of appending a record and returning [True]: [extract_info] looks for the
    baseline in the file name only, finds none for an Aeolus name, and
    [generate_data_path] joins the path with [None]. *)
Theorem mark_downloaded_raises_on_aeolus_url (st : registry_state) :
  extract_sensing_time Scenarios.url_aeolus
  = Some (mk_datetime (ymd2ord 2023 4 22) 61041033000 0)
  /\ baseline (extract_info Scenarios.url_aeolus) = None
  /\ mark_downloaded path_div mission collection (Some "/data"%string) st
       Scenarios.url_aeolus None
     = Raise_TypeError.
Proof. repeat split; vm_compute; reflexivity. Qed.

End MarkDownloaded.

(** ** Boundary discovery *)

Section BoundaryDiscovery.
Import Paths Utils Search Scenarios Orders.

(** *** Sorting by sensing time *)

Lemma insert_url_strongly_sorted (u : string) (l r : list string) :
  (forall v, In v (u :: l) -> is_Some (sort_key v)) ->
  StronglySorted (fun a b => key_instant a <= key_instant b) l ->
  insert_url u l = Return r ->
  StronglySorted (fun a b => key_instant a <= key_instant b) r.
Proof.
  revert r. induction l as [|v l IH]; intros r Hk Hs Hr; simpl in Hr.
  - injection Hr as <-. repeat constructor.
  - destruct (Hk u (or_introl eq_refl)) as [ku Hu].
    destruct (Hk v (or_intror (or_introl eq_refl))) as [kv Hv].
    rewrite Hu, Hv in Hr. simpl in Hr.
    apply StronglySorted_inv in Hs. destruct Hs as [Hs Hall].
    destruct (dt_ltb kv ku) eqn:E.
    + destruct (insert_url_sorted u l) as (r' & Hr' & Hp).
      { intros w [<-|Hw]; apply Hk; simpl; auto. }
      rewrite Hr' in Hr. simpl in Hr. injection Hr as <-.
      constructor.
      * apply (IH r'); [|exact Hs|exact Hr'].
        intros w [<-|Hw]; apply Hk; simpl; auto.
      * apply List.Forall_forall. intros w Hw.
        apply (Permutation_in _ Hp) in Hw. destruct Hw as [<-|Hw].
        -- apply dt_ltb_lt in E. unfold key_instant. rewrite Hu, Hv. lia.
        -- rewrite List.Forall_forall in Hall. now apply Hall.
    + injection Hr as <-. apply dt_ltb_ge in E.
      assert (key_instant u <= key_instant v) as Huv.
      { unfold key_instant. now rewrite Hu, Hv. }
      constructor; [constructor; assumption|].
      constructor; [exact Huv|].
      rewrite List.Forall_forall in Hall. apply List.Forall_forall.
      intros w Hw. specialize (Hall w Hw). lia.
Qed.

Lemma sort_urls_strongly_sorted (urls r : list string) :
  (forall v, In v urls -> is_Some (sort_key v)) ->
  _sort_urls urls = Return r ->
  StronglySorted (fun a b => key_instant a <= key_instant b) r.
Proof.
  revert r. induction urls as [|u urls IH]; intros r Hk Hr; simpl in Hr.
  - injection Hr as <-. constructor.
  - destruct (sort_urls_sorted urls) as (r0 & Hr0 & Hp0);
      [intros v Hv; apply Hk; simpl; auto|].
    rewrite Hr0 in Hr. simpl in Hr.
    apply (insert_url_strongly_sorted u r0 r); [|apply IH; auto|exact Hr].
    + intros v [<-|Hv]; apply Hk; simpl; auto.
      right. now apply (Permutation_in _ Hp0).
    + intros v Hv. apply Hk. simpl. auto.
Qed.

Lemma strongly_sorted_head (r : list string) (x : string) :
  StronglySorted (fun a b => key_instant a <= key_instant b) r ->
  head r = Some x ->
  forall y, In y r -> key_instant x <= key_instant y.
Proof.
  intros Hs Hh y Hy. destruct r as [|x' r]; [discriminate|].
  injection Hh as ->. apply StronglySorted_inv in Hs. destruct Hs as [_ Hall].
  destruct Hy as [<-|Hy]; [lia|].
  rewrite List.Forall_forall in Hall. now apply Hall.
Qed.

Lemma strongly_sorted_last (r : list string) (x : string) :
  StronglySorted (fun a b => key_instant a <= key_instant b) r ->
  last r = Some x ->
  forall y, In y r -> key_instant y <= key_instant x.
Proof.
  induction r as [|z r IH]; intros Hs Hl y Hy; [destruct Hy|].
  apply StronglySorted_inv in Hs. destruct Hs as [Hs Hall].
  destruct r as [|z' r'].
  - simpl in Hl. injection Hl as ->. destruct Hy as [<-|[]]. lia.
  - change (last (z :: z' :: r')) with (last (z' :: r')) in Hl.
    destruct Hy as [<-|Hy].
    + rewrite List.Forall_forall in Hall. apply Hall.
      apply list_elem_of_In. apply last_Some_elem_of. exact Hl.
    + now apply IH.
Qed.

(** *** The synthetic backend *)

Lemma sensing_time_nonempty (u : string) :
  is_Some (extract_sensing_time u) -> u <> EmptyString.
Proof. intros [t Ht] ->. vm_compute in Ht. discriminate. Qed.

Lemma extract_enclosures_synthetic (m : option Z) (l : list string) :
  (forall u, In u l -> u <> EmptyString) ->
  _extract_enclosures
    (mk_item_search m (map (fun u => mk_item [("enclosure_h5"%string, u)]) l)) None
  = l.
Proof.
  unfold _extract_enclosures. simpl.
  induction l as [|u l IH]; intros Hne; [reflexivity|].
  simpl. unfold item_url at 1. simpl.
  destruct (String.eqb_spec u "") as [e|_];
    [exfalso; apply (Hne u); [now left|exact e]|].
  simpl. f_equal. apply IH. intros v Hv. apply Hne. now right.
Qed.

Lemma In_take {A : Type} (n : nat) (l : list A) (x : A) :
  In x (take n l) -> In x l.
Proof.
  intros H. apply list_elem_of_In. apply list_elem_of_In in H.
  now apply (subseteq_take n l).
Qed.

Lemma list_filter_idempotent {A : Type} (f : A -> bool) (l : list A) :
  List.filter f (List.filter f l) = List.filter f l.
Proof.
  induction l as [|x l IH]; simpl; [reflexivity|].
  destruct (f x) eqn:E; simpl; [rewrite E; now f_equal|exact IH].
Qed.

Lemma list_filter_length {A : Type} (f : A -> bool) (l : list A) :
  (length (List.filter f l) <= length l)%nat.
Proof. induction l as [|x l IH]; simpl; [lia|]. destruct (f x); simpl; lia. Qed.

Lemma filter_by_sensing_time_filter (items : list string) (a b : datetime) :
  filter_by_sensing_time items (Some a) (Some b)
  = List.filter
      (fun item =>
         match extract_sensing_time item with
         | Some t => in_bounds (Some a) (Some b) t
         | None => false
         end) items.
Proof. unfold filter_by_sensing_time. now rewrite filter_loop_acc. Qed.

Lemma filter_by_sensing_time_idempotent (items : list string) (a b : datetime) :
  filter_by_sensing_time (filter_by_sensing_time items (Some a) (Some b)) (Some a) (Some b)
  = filter_by_sensing_time items (Some a) (Some b).
Proof. rewrite !filter_by_sensing_time_filter. apply list_filter_idempotent. Qed.

Lemma filter_by_sensing_time_take (items : list string) (a b : datetime) (n : nat) :
  filter_by_sensing_time (take n (filter_by_sensing_time items (Some a) (Some b)))
    (Some a) (Some b)
  = take n (filter_by_sensing_time items (Some a) (Some b)).
Proof.
  rewrite (filter_by_sensing_time_filter items).
  rewrite (filter_by_sensing_time_filter (take _ _)).
  set (f := fun item => match extract_sensing_time item with
                        | Some t => in_bounds (Some a) (Some b) t
                        | None => false
                        end).
  assert (forall l, (forall x, In x l -> f x = true) -> List.filter f l = l) as Hid.
  { induction l as [|x l IH]; intros Hx; simpl; [reflexivity|].
    rewrite (Hx x (or_introl eq_refl)). f_equal. apply IH. intros; apply Hx. now right. }
  apply Hid. intros x Hx.
  apply In_take in Hx. apply filter_In in Hx. tauto.
Qed.

(** The existence check against the synthetic backend says whether the
    catalogue has a product sensed within the window. *)
Lemma has_any_product_synthetic
    (catalogue : list string) (collection product_type baseline : string)
    (a b : datetime) :
  search_has_any_product (synthetic_search catalogue) collection product_type
    baseline (Some a) (Some b)
  = Return (match filter_by_sensing_time catalogue (Some a) (Some b) with
            | [] => false
            | _ :: _ => true
            end).
Proof.
  unfold search_has_any_product, synthetic_search.
  cbn [matched items].
  set (hits := filter_by_sensing_time catalogue (Some a) (Some b)).
  destruct hits as [|h hits'] eqn:Eh; [reflexivity|].
  rewrite <- Eh.
  assert ((Z.of_nat (length hits) =? 0) = false) as ->.
  { apply Z.eqb_neq. rewrite Eh. simpl. lia. }
  unfold _clean_search_results.
  assert (forall u, In u hits -> is_Some (extract_sensing_time u)) as Hs.
  { intros u Hu. subst hits. apply filter_by_sensing_time_In in Hu; [|left; eauto].
    destruct Hu as (_ & t & -> & _). eauto. }
  rewrite extract_enclosures_synthetic.
  2:{ intros u Hu. apply sensing_time_nonempty, Hs. now apply In_take in Hu. }
  subst hits. rewrite filter_by_sensing_time_take.
  destruct (sort_urls_sorted
              (take (Z.to_nat 150) (filter_by_sensing_time catalogue (Some a) (Some b))))
    as (r & Hr & Hp).
  { intros v Hv. apply Hs. now apply In_take in Hv. }
  rewrite Hr. simpl. rewrite (Permutation_length Hp). rewrite Eh. reflexivity.
Qed.

(** *** A range within the mission bounds and the past is kept *)

Lemma normalize_time_range_inside
    (now mission_start mission_end s e : datetime) :
  utc_instant mission_start <= utc_instant s ->
  utc_instant e <= utc_instant mission_end ->
  utc_instant e <= utc_instant now ->
  normalize_time_range now (Some s) (Some e) mission_start mission_end = (s, e).
Proof.
  intros Hs He Hn. unfold normalize_time_range. simpl.
  assert (dt_max s mission_start = s) as ->.
  { unfold dt_max. destruct (dt_ltb s mission_start) eqn:E; [|reflexivity].
    apply dt_ltb_lt in E. lia. }
  assert (dt_min e (dt_min now mission_end) = e) as ->; [|reflexivity].
  unfold dt_min at 1. destruct (dt_ltb (dt_min now mission_end) e) eqn:E; [|reflexivity].
  apply dt_ltb_lt in E. rewrite utc_instant_dt_min in E. lia.
Qed.

(** *** The search of one calendar day *)

Lemma search_urls_one_day
    (catalogue : list string) (mission_start mission_end now : datetime)
    (collection product_type baseline : string) (d : Z) :
  utc_instant mission_start <= utc_instant (datetime_utc d 0 0 0) ->
  utc_instant (datetime_utc d 23 59 59) <= utc_instant mission_end ->
  utc_instant (datetime_utc d 23 59 59) <= utc_instant now ->
  product_type <> "AUX_MET_1D"%string ->
  Z.of_nat (length catalogue) <= 50000 ->
  (forall u, In u catalogue -> is_Some (extract_sensing_time u)) ->
  exists r,
    search_urls (synthetic_search catalogue) mission_start mission_end now
      collection product_type (Some baseline)
      (Some (datetime_utc d 0 0 0)) (Some (datetime_utc d 23 59 59)) 50000 None
    = Return r
    /\ Permutation r
         (filter_by_sensing_time catalogue
            (Some (datetime_utc d 0 0 0)) (Some (datetime_utc d 23 59 59)))
    /\ StronglySorted (fun a b => key_instant a <= key_instant b) r.
Proof.
  intros Hms Hme Hnow Hp Hlen Hall.
  unfold search_urls, _resolve_time_range.
  rewrite normalize_time_range_inside by assumption.
  assert (dt_sub (datetime_utc d 23 59 59) (datetime_utc d 0 0 0) / US_PER_DAY = 0) as ->.
  { unfold dt_sub. rewrite !utc_instant_datetime_utc.
    apply Z.div_small. unfold US_PER_DAY, US_PER_SECOND. lia. }
  simpl (0 <=? 10).  cbv iota.
  unfold synthetic_search, _clean_search_results.
  set (hits := filter_by_sensing_time catalogue
                 (Some (datetime_utc d 0 0 0)) (Some (datetime_utc d 23 59 59))).
  assert (take (Z.to_nat 50000) hits = hits) as ->.
  { apply take_ge. subst hits. rewrite filter_by_sensing_time_filter.
    pose proof (list_filter_length
                  (fun item => match extract_sensing_time item with
                               | Some t => in_bounds (Some (datetime_utc d 0 0 0))
                                             (Some (datetime_utc d 23 59 59)) t
                               | None => false
                               end) catalogue).
    lia. }
  assert (forall u, In u hits -> In u catalogue) as Hsub.
  { intros u Hu. subst hits. apply filter_by_sensing_time_In in Hu; [tauto|left; eauto]. }
  rewrite extract_enclosures_synthetic
    by (intros u Hu; apply sensing_time_nonempty, Hall, Hsub, Hu).
  subst hits. rewrite filter_by_sensing_time_idempotent.
  set (hits := filter_by_sensing_time catalogue
                 (Some (datetime_utc d 0 0 0)) (Some (datetime_utc d 23 59 59))) in *.
  destruct (sort_urls_sorted hits) as (r & Hr & Hperm);
    [intros v Hv; apply Hall, Hsub, Hv|].
  rewrite Hr. simpl.
  assert (String.eqb product_type "AUX_MET_1D" = false) as ->
    by now apply String.eqb_neq.
  simpl. exists r. split; [reflexivity|]. split; [exact Hperm|].
  apply (sort_urls_strongly_sorted hits r); [|exact Hr].
  intros v Hv. apply Hall, Hsub, Hv.
Qed.

(** *** One iteration of each binary search *)

Section Loops.

Context (client_search :
           string -> string -> option string -> option (datetime * datetime)
           -> Z -> item_search).
Context (collection product_type baseline : string).

Lemma first_day_loop_exit (fuel : nat) (t0 lo hi : datetime)
    (first_day : option Z) (probes : list DayRanges.window) :
  date hi < date lo ->
  first_day_loop client_search fuel collection product_type baseline t0 lo hi
    first_day probes
  = Return (first_day, probes).
Proof.
  intros H. destruct fuel; simpl;
    (destruct (Z.leb_spec (date lo) (date hi)); [lia|reflexivity]).
Qed.

Lemma first_day_loop_step (fuel : nat) (t0 lo hi : datetime)
    (first_day : option Z) (probes : list DayRanges.window) (mid : Z) (found : bool) :
  date lo <= date hi ->
  date (add_timedelta lo (divide_and_round (dt_sub hi lo) 2)) = mid ->
  search_has_any_product client_search collection product_type baseline
    (Some t0) (Some (datetime_utc mid 23 59 59)) = Return found ->
  first_day_loop client_search (S fuel) collection product_type baseline t0 lo hi
    first_day probes
  = if found then
      first_day_loop client_search fuel collection product_type baseline t0 lo
        (add_timedelta (datetime_utc mid 0 0 0) (- timedelta_days 1))
        (Some mid) (probes ++ [(t0, datetime_utc mid 23 59 59)])
    else
      first_day_loop client_search fuel collection product_type baseline t0
        (add_timedelta (datetime_utc mid 0 0 0) (timedelta_days 1)) hi
        first_day (probes ++ [(t0, datetime_utc mid 23 59 59)]).
Proof.
  intros Hle Hmid Hp. cbn [first_day_loop].
  destruct (Z.leb_spec (date lo) (date hi)); [|lia].
  rewrite Hmid, Hp. reflexivity.
Qed.

Lemma last_day_loop_exit (fuel : nat) (t1 lo hi : datetime)
    (last_day : option Z) (probes : list DayRanges.window) :
  date hi < date lo ->
  last_day_loop client_search fuel collection product_type baseline t1 lo hi
    last_day probes
  = Return (last_day, probes).
Proof.
  intros H. destruct fuel; simpl;
    (destruct (Z.leb_spec (date lo) (date hi)); [lia|reflexivity]).
Qed.

Lemma last_day_loop_step (fuel : nat) (t1 lo hi : datetime)
    (last_day : option Z) (probes : list DayRanges.window) (mid : Z) (found : bool) :
  date lo <= date hi ->
  date (add_timedelta lo (divide_and_round (dt_sub hi lo) 2)) = mid ->
  search_has_any_product client_search collection product_type baseline
    (Some (datetime_utc mid 0 0 0)) (Some t1) = Return found ->
  last_day_loop client_search (S fuel) collection product_type baseline t1 lo hi
    last_day probes
  = if found then
      last_day_loop client_search fuel collection product_type baseline t1
        (add_timedelta (datetime_utc mid 0 0 0) (timedelta_days 1)) hi
        (Some mid) (probes ++ [(datetime_utc mid 0 0 0, t1)])
    else
      last_day_loop client_search fuel collection product_type baseline t1 lo
        (add_timedelta (datetime_utc mid 0 0 0) (- timedelta_days 1))
        last_day (probes ++ [(datetime_utc mid 0 0 0, t1)]).
Proof.
  intros Hle Hmid Hp. cbn [last_day_loop].
  destruct (Z.leb_spec (date lo) (date hi)); [|lia].
  rewrite Hmid, Hp. reflexivity.
Qed.

End Loops.

(** *** The day probed by a binary search *)

Lemma divide_and_round_half (z : Z) :
  z - 1 <= 2 * divide_and_round z 2 <= z + 1
  /\ (z mod 2 = 0 -> 2 * divide_and_round z 2 = z).
Proof.
  unfold divide_and_round. change (0 <? 2) with true. cbv iota zeta.
  destruct (2 <? 2 * (z mod 2)) eqn:E1; cbn [orb].
  - apply Z.ltb_lt in E1. Z.to_euclidean_division_equations. lia.
  - destruct ((2 * (z mod 2) =? 2) && (z / 2 mod 2 =? 1)) eqn:E2.
    + apply andb_true_iff in E2. destruct E2 as [E2 _]. apply Z.eqb_eq in E2.
      Z.to_euclidean_division_equations. lia.
    + Z.to_euclidean_division_equations. lia.
Qed.

(** The day probed lies in the middle of the days still to search. *)
Lemma mid_day_bounds (lo hi : datetime) :
  wf_datetime lo -> wf_datetime hi -> is_utc lo -> is_utc hi ->
  let mid := date (add_timedelta lo (divide_and_round (dt_sub hi lo) 2)) in
  (date lo + date hi) / 2 <= mid <= (date lo + date hi + 1) / 2.
Proof.
  intros [Hl _] [Hh _] Hul Huh. cbv zeta.
  unfold add_timedelta, date, dt_sub, utc_instant in *. cbn [dt_date].
  unfold is_utc in *. rewrite Hul, Huh.
  set (z := dt_date hi * US_PER_DAY + dt_time hi - 0
            - (dt_date lo * US_PER_DAY + dt_time lo - 0)).
  destruct (divide_and_round_half z) as [Hus Heven].
  set (us := divide_and_round z 2) in *.
  assert (dt_time lo + dt_time hi = 0 -> 2 * us = z) as Hexact.
  { intros H0. apply Heven. subst z. unfold US_PER_DAY, US_PER_SECOND in *.
    Z.to_euclidean_division_equations. lia. }
  subst z. unfold US_PER_DAY, US_PER_SECOND in *.
  Z.to_euclidean_division_equations. lia.
Qed.

Lemma add_days_midnight (day k : Z) :
  add_timedelta (datetime_utc day 0 0 0) (timedelta_days k)
  = datetime_utc (day + k) 0 0 0.
Proof.
  unfold add_timedelta, datetime_utc, timedelta_days. cbn [dt_date dt_time dt_utcoffset].
  change ((0 * 3600 + 0 * 60 + 0) * US_PER_SECOND) with 0.
  rewrite Z.add_0_l, Z.div_mul, Z.mod_mul by (unfold US_PER_DAY, US_PER_SECOND; lia).
  reflexivity.
Qed.

Lemma midnight_wf_utc (day : Z) :
  wf_datetime (datetime_utc day 0 0 0) /\ is_utc (datetime_utc day 0 0 0).
Proof.
  unfold wf_datetime, is_utc, datetime_utc, US_PER_DAY, US_PER_SECOND.
  cbn [dt_time dt_utcoffset]. lia.
Qed.


(** *** Products from a first day to a last day of a range *)

Local Ltac day_instants :=
  rewrite ?utc_instant_datetime_utc in *;
  unfold US_PER_DAY, US_PER_SECOND in *.

Section FirstAndLastDay.

Context (catalogue : list string).
Context (collection product_type baseline : string).
Context (t0 t1 : datetime) (a b : Z).

Hypothesis range_covers_first :
  utc_instant t0 <= utc_instant (datetime_utc a 0 0 0).
Hypothesis range_covers_last :
  utc_instant (datetime_utc b 23 59 59) <= utc_instant t1.
Hypothesis only_days_a_to_b :
  forall u, In u catalogue ->
    exists t, extract_sensing_time u = Some t
              /\ utc_instant (datetime_utc a 0 0 0) <= utc_instant t
                 <= utc_instant (datetime_utc b 23 59 59).
Hypothesis on_first_day :
  exists u t, In u catalogue /\ extract_sensing_time u = Some t
              /\ utc_instant (datetime_utc a 0 0 0) <= utc_instant t
                 <= utc_instant (datetime_utc a 23 59 59).
Hypothesis on_last_day :
  exists u t, In u catalogue /\ extract_sensing_time u = Some t
              /\ utc_instant (datetime_utc b 0 0 0) <= utc_instant t
                 <= utc_instant (datetime_utc b 23 59 59).

(** A probe of the first search finds data from day [a] on. *)
Lemma first_probe_outcome (mid : Z) :
  search_has_any_product (synthetic_search catalogue) collection product_type
    baseline (Some t0) (Some (datetime_utc mid 23 59 59))
  = Return (a <=? mid).
Proof.
  rewrite has_any_product_synthetic.
  destruct (Z.leb_spec a mid) as [Hm|Hm].
  - destruct on_first_day as (u & t & Hin & Ht & Hr).
    assert (In u (filter_by_sensing_time catalogue (Some t0)
                    (Some (datetime_utc mid 23 59 59)))) as Hu.
    { apply filter_by_sensing_time_In; [left; eauto|].
      split; [exact Hin|]. exists t. split; [exact Ht|].
      unfold in_bounds. apply andb_true_iff. rewrite !dt_leb_le.
      day_instants. lia. }
    destruct (filter_by_sensing_time _ _ _); [destruct Hu|reflexivity].
  - destruct (filter_by_sensing_time catalogue (Some t0)
                (Some (datetime_utc mid 23 59 59))) as [|h hs] eqn:E; [reflexivity|].
    assert (In h (filter_by_sensing_time catalogue (Some t0)
                    (Some (datetime_utc mid 23 59 59)))) as Hh
      by (rewrite E; now left).
    apply filter_by_sensing_time_In in Hh; [|left; eauto].
    destruct Hh as (Hin & t & Ht & Hb).
    destruct (only_days_a_to_b h Hin) as (t' & Ht' & Hr).
    rewrite Ht in Ht'. injection Ht' as <-.
    unfold in_bounds in Hb. apply andb_true_iff in Hb. rewrite !dt_leb_le in Hb.
    day_instants. lia.
Qed.

(** A probe of the second search finds data up to day [b]. *)
Lemma last_probe_outcome (mid : Z) :
  search_has_any_product (synthetic_search catalogue) collection product_type
    baseline (Some (datetime_utc mid 0 0 0)) (Some t1)
  = Return (mid <=? b).
Proof.
  rewrite has_any_product_synthetic.
  destruct (Z.leb_spec mid b) as [Hm|Hm].
  - destruct on_last_day as (u & t & Hin & Ht & Hr).
    assert (In u (filter_by_sensing_time catalogue (Some (datetime_utc mid 0 0 0))
                    (Some t1))) as Hu.
    { apply filter_by_sensing_time_In; [left; eauto|].
      split; [exact Hin|]. exists t. split; [exact Ht|].
      unfold in_bounds. apply andb_true_iff. rewrite !dt_leb_le.
      day_instants. lia. }
    destruct (filter_by_sensing_time _ _ _); [destruct Hu|reflexivity].
  - destruct (filter_by_sensing_time catalogue (Some (datetime_utc mid 0 0 0))
                (Some t1)) as [|h hs] eqn:E; [reflexivity|].
    assert (In h (filter_by_sensing_time catalogue (Some (datetime_utc mid 0 0 0))
                    (Some t1))) as Hh
      by (rewrite E; now left).
    apply filter_by_sensing_time_In in Hh; [|left; eauto].
    destruct Hh as (Hin & t & Ht & Hb).
    destruct (only_days_a_to_b h Hin) as (t' & Ht' & Hr).
    rewrite Ht in Ht'. injection Ht' as <-.
    unfold in_bounds in Hb. apply andb_true_iff in Hb. rewrite !dt_leb_le in Hb.
    day_instants. lia.
Qed.

(** The first binary search keeps day [a] between [lo] and the day after
    [hi], and has recorded it once [hi] is the day before it: with fewer
    than [2 ^ k] days left it finds day [a] with at most [k] probes. *)
Lemma first_day_loop_finds (k : nat) :
  forall (fuel : nat) (lo hi : datetime) (first_day : option Z)
         (probes : list DayRanges.window),
    wf_datetime lo /\ is_utc lo -> wf_datetime hi /\ is_utc hi ->
    date hi - date lo + 1 < 2 ^ Z.of_nat k -> (k <= fuel)%nat ->
    date lo <= a <= date hi + 1 ->
    (a = date hi + 1 -> first_day = Some a) ->
    exists more,
      first_day_loop (synthetic_search catalogue) fuel collection product_type
        baseline t0 lo hi first_day probes
      = Return (Some a, probes ++ more)
      /\ (length more <= k)%nat
      /\ (forall w, In w more ->
            fst w = t0
            /\ exists d, date lo <= d <= date hi /\ snd w = datetime_utc d 23 59 59).
Proof.
  induction k as [|k IH]; intros fuel lo hi first_day probes Hlo Hhi Hn Hf Ha Hfd.
  - exists []. rewrite app_nil_r. split; [|split; [cbn; lia|intros w []]].
    rewrite first_day_loop_exit by (cbn in Hn; lia).
    rewrite Hfd by (cbn in Hn; lia). reflexivity.
  - destruct (Z.lt_ge_cases (date hi) (date lo)) as [Hlt|Hge].
    { exists []. rewrite app_nil_r. split; [|split; [cbn; lia|intros w []]].
      rewrite first_day_loop_exit by exact Hlt.
      rewrite Hfd by lia. reflexivity. }
    destruct fuel as [|fuel]; [lia|].
    destruct Hlo as [Hwl Hul], Hhi as [Hwh Huh].
    pose proof (mid_day_bounds lo hi Hwl Hwh Hul Huh) as Hmid. cbv zeta in Hmid.
    set (mid := date (add_timedelta lo (divide_and_round (dt_sub hi lo) 2))) in *.
    rewrite (first_day_loop_step (synthetic_search catalogue) collection product_type
               baseline fuel t0 lo hi first_day probes mid (a <=? mid) Hge eq_refl
               (first_probe_outcome mid)).
    rewrite Nat2Z.inj_succ, Z.pow_succ_r in Hn by lia.
    assert (date lo <= mid <= date hi) as Hin
      by (Z.to_euclidean_division_equations; lia).
    change (- timedelta_days 1) with (timedelta_days (-1)).
    rewrite !add_days_midnight.
    destruct (Z.leb_spec a mid) as [Hle|Hgt].
    + destruct (IH fuel lo (datetime_utc (mid + -1) 0 0 0) (Some mid)
                  (probes ++ [(t0, datetime_utc mid 23 59 59)]))
        as (more & Hr & Hlen & Hw).
      { auto. } { apply midnight_wf_utc. }
      { change (date (datetime_utc (mid + -1) 0 0 0)) with (mid + -1).
        Z.to_euclidean_division_equations. lia. }
      { lia. }
      { change (date (datetime_utc (mid + -1) 0 0 0)) with (mid + -1). lia. }
      { change (date (datetime_utc (mid + -1) 0 0 0)) with (mid + -1).
        intros E. f_equal. lia. }
      exists ((t0, datetime_utc mid 23 59 59) :: more).
      rewrite Hr, <- app_assoc. split; [reflexivity|]. split; [cbn; lia|].
      intros w [<-|Hw']; [cbn [fst snd]; eauto|].
      destruct (Hw w Hw') as (H1 & d & Hd & H2). split; [exact H1|].
      exists d. split; [|exact H2].
      change (date (datetime_utc (mid + -1) 0 0 0)) with (mid + -1) in Hd. lia.
    + destruct (IH fuel (datetime_utc (mid + 1) 0 0 0) hi first_day
                  (probes ++ [(t0, datetime_utc mid 23 59 59)]))
        as (more & Hr & Hlen & Hw).
      { apply midnight_wf_utc. } { auto. }
      { change (date (datetime_utc (mid + 1) 0 0 0)) with (mid + 1).
        Z.to_euclidean_division_equations. lia. }
      { lia. }
      { change (date (datetime_utc (mid + 1) 0 0 0)) with (mid + 1). lia. }
      { exact Hfd. }
      exists ((t0, datetime_utc mid 23 59 59) :: more).
      rewrite Hr, <- app_assoc. split; [reflexivity|]. split; [cbn; lia|].
      intros w [<-|Hw']; [cbn [fst snd]; eauto|].
      destruct (Hw w Hw') as (H1 & d & Hd & H2). split; [exact H1|].
      exists d. split; [|exact H2].
      change (date (datetime_utc (mid + 1) 0 0 0)) with (mid + 1) in Hd. lia.
Qed.

(** The second binary search keeps day [b] between the day before [lo]
    and [hi], and finds it in the same way. *)
Lemma last_day_loop_finds (k : nat) :
  forall (fuel : nat) (lo hi : datetime) (last_day : option Z)
         (probes : list DayRanges.window),
    wf_datetime lo /\ is_utc lo -> wf_datetime hi /\ is_utc hi ->
    date hi - date lo + 1 < 2 ^ Z.of_nat k -> (k <= fuel)%nat ->
    date lo - 1 <= b <= date hi ->
    (b = date lo - 1 -> last_day = Some b) ->
    exists more,
      last_day_loop (synthetic_search catalogue) fuel collection product_type
        baseline t1 lo hi last_day probes
      = Return (Some b, probes ++ more)
      /\ (length more <= k)%nat
      /\ (forall w, In w more ->
            snd w = t1
            /\ exists d, date lo <= d <= date hi /\ fst w = datetime_utc d 0 0 0).
Proof.
  induction k as [|k IH]; intros fuel lo hi last_day probes Hlo Hhi Hn Hf Hb Hld.
  - exists []. rewrite app_nil_r. split; [|split; [cbn; lia|intros w []]].
    rewrite last_day_loop_exit by (cbn in Hn; lia).
    rewrite Hld by (cbn in Hn; lia). reflexivity.
  - destruct (Z.lt_ge_cases (date hi) (date lo)) as [Hlt|Hge].
    { exists []. rewrite app_nil_r. split; [|split; [cbn; lia|intros w []]].
      rewrite last_day_loop_exit by exact Hlt.
      rewrite Hld by lia. reflexivity. }
    destruct fuel as [|fuel]; [lia|].
    destruct Hlo as [Hwl Hul], Hhi as [Hwh Huh].
    pose proof (mid_day_bounds lo hi Hwl Hwh Hul Huh) as Hmid. cbv zeta in Hmid.
    set (mid := date (add_timedelta lo (divide_and_round (dt_sub hi lo) 2))) in *.
    rewrite (last_day_loop_step (synthetic_search catalogue) collection product_type
               baseline fuel t1 lo hi last_day probes mid (mid <=? b) Hge eq_refl
               (last_probe_outcome mid)).
    rewrite Nat2Z.inj_succ, Z.pow_succ_r in Hn by lia.
    assert (date lo <= mid <= date hi) as Hin
      by (Z.to_euclidean_division_equations; lia).
    change (- timedelta_days 1) with (timedelta_days (-1)).
    rewrite !add_days_midnight.
    destruct (Z.leb_spec mid b) as [Hle|Hgt].
    + destruct (IH fuel (datetime_utc (mid + 1) 0 0 0) hi (Some mid)
                  (probes ++ [(datetime_utc mid 0 0 0, t1)]))
        as (more & Hr & Hlen & Hw).
      { apply midnight_wf_utc. } { auto. }
      { change (date (datetime_utc (mid + 1) 0 0 0)) with (mid + 1).
        Z.to_euclidean_division_equations. lia. }
      { lia. }
      { change (date (datetime_utc (mid + 1) 0 0 0)) with (mid + 1). lia. }
      { change (date (datetime_utc (mid + 1) 0 0 0)) with (mid + 1).
        intros E. f_equal. lia. }
      exists ((datetime_utc mid 0 0 0, t1) :: more).
      rewrite Hr, <- app_assoc. split; [reflexivity|]. split; [cbn; lia|].
      intros w [<-|Hw']; [cbn [fst snd]; eauto|].
      destruct (Hw w Hw') as (H1 & d & Hd & H2). split; [exact H1|].
      exists d. split; [|exact H2].
      change (date (datetime_utc (mid + 1) 0 0 0)) with (mid + 1) in Hd. lia.
    + destruct (IH fuel lo (datetime_utc (mid + -1) 0 0 0) last_day
                  (probes ++ [(datetime_utc mid 0 0 0, t1)]))
        as (more & Hr & Hlen & Hw).
      { auto. } { apply midnight_wf_utc. }
      { change (date (datetime_utc (mid + -1) 0 0 0)) with (mid + -1).
        Z.to_euclidean_division_equations. lia. }
      { lia. }
      { change (date (datetime_utc (mid + -1) 0 0 0)) with (mid + -1). lia. }
      { exact Hld. }
      exists ((datetime_utc mid 0 0 0, t1) :: more).
      rewrite Hr, <- app_assoc. split; [reflexivity|]. split; [cbn; lia|].
      intros w [<-|Hw']; [cbn [fst snd]; eauto|].
      destruct (Hw w Hw') as (H1 & d & Hd & H2). split; [exact H1|].
      exists d. split; [|exact H2].
      change (date (datetime_utc (mid + -1) 0 0 0)) with (mid + -1) in Hd. lia.
Qed.

End FirstAndLastDay.

(** Against a backend whose products are all sensed from 00:00:00 of a
    day [a] to 23:59:59 of a day [b] of the range, with a product within
    these bounds on day [a] and one on day [b], the two binary searches find
    [a] and [b], and the granules returned are the earliest and the latest
    product. *)
Lemma info_range_first_last_day
    (catalogue : list string) (mission_start mission_end now : datetime)
    (collection product_type baseline : string) (t0 t1 : datetime) (a b : Z)
    (k fuel : nat) :
  wf_datetime t0 /\ is_utc t0 -> wf_datetime t1 /\ is_utc t1 ->
  utc_instant mission_start <= utc_instant t0 ->
  utc_instant t1 <= utc_instant mission_end ->
  utc_instant t1 <= utc_instant now ->
  utc_instant t0 <= utc_instant (datetime_utc a 0 0 0) ->
  utc_instant (datetime_utc b 23 59 59) <= utc_instant t1 ->
  product_type <> "AUX_MET_1D"%string ->
  Z.of_nat (length catalogue) <= 50000 ->
  (forall u, In u catalogue ->
     exists t, extract_sensing_time u = Some t
               /\ utc_instant (datetime_utc a 0 0 0) <= utc_instant t
                  <= utc_instant (datetime_utc b 23 59 59)) ->
  (exists u t, In u catalogue /\ extract_sensing_time u = Some t
               /\ utc_instant (datetime_utc a 0 0 0) <= utc_instant t
                  <= utc_instant (datetime_utc a 23 59 59)) ->
  (exists u t, In u catalogue /\ extract_sensing_time u = Some t
               /\ utc_instant (datetime_utc b 0 0 0) <= utc_instant t
                  <= utc_instant (datetime_utc b 23 59 59)) ->
  date t1 - date t0 + 1 < 2 ^ Z.of_nat k -> (k <= fuel)%nat ->
  exists first_url last_url first_time last_time r,
    search_product_info_range (synthetic_search catalogue) mission_start
      mission_end now fuel collection product_type baseline (Some t0) (Some t1)
    = Return r
    /\ granules r = Some (extract_info first_url, extract_info last_url)
    /\ sensing_time (extract_info first_url) = Some first_time
    /\ sensing_time (extract_info last_url) = Some last_time
    /\ In first_url catalogue
    /\ extract_sensing_time first_url = Some first_time
    /\ utc_instant (datetime_utc a 0 0 0) <= utc_instant first_time
       <= utc_instant (datetime_utc a 23 59 59)
    /\ In last_url catalogue
    /\ extract_sensing_time last_url = Some last_time
    /\ utc_instant (datetime_utc b 0 0 0) <= utc_instant last_time
       <= utc_instant (datetime_utc b 23 59 59)
    /\ (forall u t, In u catalogue -> extract_sensing_time u = Some t ->
          utc_instant first_time <= utc_instant t <= utc_instant last_time)
    /\ (length (first_probes r) <= k)%nat
    /\ (length (last_probes r) <= k)%nat
    /\ (forall w, In w (first_probes r) ->
          fst w = t0
          /\ exists d, date t0 <= d <= date t1 /\ snd w = datetime_utc d 23 59 59)
    /\ (forall w, In w (last_probes r) ->
          snd w = t1
          /\ exists d, date t0 <= d <= date t1 /\ fst w = datetime_utc d 0 0 0).
Proof.
  intros Ht0 Ht1 Hms Hme Hnow Ha0 Hb1 Hprod Hlen Honly Hfirst Hlast Hk Hfuel.
  assert (forall u, In u catalogue -> is_Some (extract_sensing_time u)) as Hall.
  { intros u Hu. destruct (Honly u Hu) as (t & -> & _). eauto. }
  assert (date t0 <= a /\ a <= b /\ b <= date t1) as (Hda & Hab & Hdb).
  { destruct Ht0 as [[Hw0 _] Hu0], Ht1 as [[Hw1 _] Hu1].
    destruct Hfirst as (u & t & Hin & Ht & Hr).
    destruct (Honly u Hin) as (t' & Ht' & Hr').
    rewrite Ht in Ht'. injection Ht' as <-.
    unfold utc_instant at 1 in Ha0. unfold utc_instant at 2 in Hb1.
    unfold is_utc in Hu0, Hu1. unfold date. rewrite Hu0 in Ha0. rewrite Hu1 in Hb1.
    day_instants. lia. }
  unfold search_product_info_range, _resolve_time_range.
  rewrite normalize_time_range_inside by assumption.
  (* some data in the range *)
  rewrite has_any_product_synthetic.
  destruct (filter_by_sensing_time catalogue (Some t0) (Some t1)) as [|h0 hs0] eqn:E0.
  { exfalso. destruct Hfirst as (u & t & Hin & Ht & Hr).
    assert (In u (filter_by_sensing_time catalogue (Some t0) (Some t1)))
      as Hu; [|rewrite E0 in Hu; destruct Hu].
    apply filter_by_sensing_time_In; [left; eauto|].
    split; [exact Hin|]. exists t. split; [exact Ht|].
    unfold in_bounds. apply andb_true_iff. rewrite !dt_leb_le.
    day_instants. lia. }
  cbn [mbind outcome_bind bind negb].
  destruct (first_day_loop_finds catalogue collection product_type baseline t0 t1
              a b Ha0 Hb1 Honly Hfirst Hlast k fuel t0 t1 None [])
    as (probes1 & -> & Hlen1 & Hw1); try assumption; [lia|intros E; lia|].
  cbn [mbind outcome_bind bind app].
  destruct (last_day_loop_finds catalogue collection product_type baseline t0 t1
              a b Ha0 Hb1 Honly Hfirst Hlast k fuel t0 t1 None [])
    as (probes2 & -> & Hlen2 & Hw2); try assumption; [lia|intros E; lia|].
  cbn [mbind outcome_bind bind app].
  (* the two boundary days *)
  destruct (search_urls_one_day catalogue mission_start mission_end now collection
              product_type baseline a)
    as (ra & Hra & Hpa & Hsa); try assumption;
    [day_instants; lia|day_instants; lia|day_instants; lia|].
  destruct (search_urls_one_day catalogue mission_start mission_end now collection
              product_type baseline b)
    as (rb & Hrb & Hpb & Hsb); try assumption;
    [day_instants; lia|day_instants; lia|day_instants; lia|].
  rewrite Hra. cbn [mbind outcome_bind bind]. rewrite Hrb. cbn [mbind outcome_bind bind].
  (* membership in the lists of the two days *)
  assert (forall d u, In u (filter_by_sensing_time catalogue
                              (Some (datetime_utc d 0 0 0))
                              (Some (datetime_utc d 23 59 59)))
                      <-> In u catalogue
                          /\ exists t, extract_sensing_time u = Some t
                                       /\ utc_instant (datetime_utc d 0 0 0)
                                          <= utc_instant t
                                          <= utc_instant (datetime_utc d 23 59 59))
    as Hday.
  { intros d u. rewrite filter_by_sensing_time_In by (left; eauto).
    unfold in_bounds. setoid_rewrite andb_true_iff. setoid_rewrite dt_leb_le.
    reflexivity. }
  destruct ra as [|f ra'] eqn:Ea.
  { exfalso. destruct Hfirst as (u & t & Hin & Ht & Hr).
    assert (In u []) as []. apply (Permutation_in _ (Permutation_sym Hpa)).
    apply Hday. split; [exact Hin|]. exists t. split; [exact Ht|exact Hr]. }
  destruct (last rb) as [l|] eqn:Eb.
  2:{ exfalso. destruct Hlast as (u & t & Hin & Ht & Hr).
      assert (In u rb) as Hu.
      { apply (Permutation_in _ (Permutation_sym Hpb)).
        apply Hday. split; [exact Hin|]. exists t. split; [exact Ht|exact Hr]. }
      destruct rb; [destruct Hu|]. apply last_None in Eb. discriminate. }
  rewrite <- Ea in *.
  assert (In f ra) as Hf by (rewrite Ea; now left).
  assert (In l rb) as Hl by (apply list_elem_of_In, last_Some_elem_of, Eb).
  pose proof (Permutation_in _ Hpa Hf) as Hf'. apply Hday in Hf'.
  destruct Hf' as (Hfin & tf & Htf & Hrf).
  pose proof (Permutation_in _ Hpb Hl) as Hl'. apply Hday in Hl'.
  destruct Hl' as (Hlin & tl & Htl & Hrl).
  exists f, l, tf, tl. eexists. rewrite Ea. cbn [head].
  split; [reflexivity|]. cbn [granules first_probes last_probes].
  split; [reflexivity|].
  split; [now rewrite extract_info_sensing_time|].
  split; [now rewrite extract_info_sensing_time|].
  split; [exact Hfin|]. split; [exact Htf|]. split; [exact Hrf|].
  split; [exact Hlin|]. split; [exact Htl|]. split; [exact Hrl|].
  split; [|split; [exact Hlen1|split; [exact Hlen2|split; [exact Hw1|exact Hw2]]]].
  intros u t Hu Ht.
  destruct (Honly u Hu) as (t' & Ht' & Hr'). rewrite Ht in Ht'. injection Ht' as <-.
  split.
  - (* the first URL of day [a] is the earliest of the catalogue *)
    destruct (Z_le_gt_dec (utc_instant t) (utc_instant (datetime_utc a 23 59 59)))
      as [Hle|Hgt]; [|lia].
    assert (In u ra) as Hua.
    { apply (Permutation_in _ (Permutation_sym Hpa)). apply Hday.
      split; [exact Hu|]. exists t. split; [exact Ht|]. split; [tauto|exact Hle]. }
    pose proof (strongly_sorted_head ra f Hsa ltac:(rewrite Ea; reflexivity) u Hua)
      as Hkey.
    unfold key_instant, sort_key in Hkey. now rewrite Htf, Ht in Hkey.
  - destruct (Z_le_gt_dec (utc_instant (datetime_utc b 0 0 0)) (utc_instant t))
      as [Hge|Hlt]; [|lia].
    assert (In u rb) as Hub.
    { apply (Permutation_in _ (Permutation_sym Hpb)). apply Hday.
      split; [exact Hu|]. exists t. split; [exact Ht|]. split; [exact Hge|tauto]. }
    pose proof (strongly_sorted_last rb l Hsb Eb u Hub) as Hkey.
    unfold key_instant, sort_key in Hkey. now rewrite Htl, Ht in Hkey.
Qed.

(** *** Products on days 10 to 15 of a 30-day range *)



End BoundaryDiscovery.



(** ** Reading back a written record *)

Section ReadBack.
Import Paths Registry WellFormed.
Local Open Scope string_scope.
Local Arguments String.append !_ _ / : simpl nomatch.

Local Notation "[LF]" := (String LF EmptyString).

Lemma string_app_assoc (a b c : string) : (a ++ b) ++ c = a ++ (b ++ c).
Proof. induction a as [|x a IH]; simpl; [reflexivity|now rewrite IH]. Qed.

Lemma string_app_nil_r (a : string) : a ++ "" = a.
Proof. induction a as [|x a IH]; simpl; [reflexivity|now rewrite IH]. Qed.

(** Translation of line ends restarts after a line feed. *)
Lemma translate_newlines_split (p m : string) (b : bool) :
  translate_newlines b ((p ++ [LF]) ++ m)
  = translate_newlines b (p ++ [LF]) ++ translate_newlines false m.
Proof.
  revert b. induction p as [|c p IH]; intros b; simpl.
  - destruct b; reflexivity.
  - destruct (Ascii.eqb c CR); [simpl; now rewrite IH|].
    destruct (Ascii.eqb c LF); [|simpl; now rewrite IH].
    destruct b; simpl; now rewrite IH.
Qed.

Lemma translate_newlines_ends (p : string) (b : bool) :
  b = false \/ p <> "" ->
  exists t, translate_newlines b (p ++ [LF]) = t ++ [LF].
Proof.
  revert b. induction p as [|c p IH]; intros b Hb; simpl.
  - destruct Hb as [->|Hb]; [|contradiction]. exists "". reflexivity.
  - destruct (Ascii.eqb c CR).
    + destruct p as [|c' p'].
      * exists "". reflexivity.
      * destruct (IH true) as [t Ht]; [right; discriminate|].
        rewrite Ht. exists (String LF t). reflexivity.
    + destruct (IH false) as [t Ht]; [now left|]. rewrite Ht.
      destruct (Ascii.eqb c LF).
      * destruct b; [exists t|exists (String LF t)]; reflexivity.
      * exists (String c t). reflexivity.
Qed.

Lemma lines_from_split (t x cur : string) :
  lines_from cur ((t ++ [LF]) ++ x)
  = List.app (lines_from cur (t ++ [LF])) (lines_from "" x).
Proof.
  revert cur. induction t as [|c t IH]; intros cur; simpl.
  - reflexivity.
  - destruct (Ascii.eqb c LF); [simpl; now rewrite IH|apply IH].
Qed.

(** The lines of a text that follows a complete line are read on their
    own. *)
Lemma file_lines_app (p m : string) :
  ends_with_newline p ->
  file_lines (p ++ m) = List.app (file_lines p) (file_lines m).
Proof.
  intros [->|[p' ->]]; [reflexivity|]. unfold file_lines.
  rewrite translate_newlines_split.
  destruct (translate_newlines_ends p' false) as [t Ht]; [now left|].
  rewrite Ht. apply lines_from_split.
Qed.

Lemma lines_from_head (t cur : string) :
  exists x rest, lines_from cur (t ++ [LF]) = cons (cur ++ x ++ [LF]) rest.
Proof.
  revert cur. induction t as [|c t IH]; intros cur; simpl.
  - exists "", []. reflexivity.
  - destruct (Ascii.eqb c LF).
    + exists "". eexists. reflexivity.
    + destruct (IH (cur ++ String c "")) as (x & rest & H). rewrite H.
      exists (String c x), rest. now rewrite string_app_assoc.
Qed.

Lemma plain_char_inv (c : ascii) :
  plain_char c = true ->
  is_space c = false /\ Ascii.eqb c "|" = false
  /\ Ascii.eqb c CR = false /\ Ascii.eqb c LF = false.
Proof.
  unfold plain_char. intros H. apply andb_true_iff in H. destruct H as [Hs Hb].
  apply negb_true_iff in Hs, Hb. repeat split; try assumption.
  - destruct (Ascii.eqb_spec c CR) as [->|]; [discriminate|reflexivity].
  - destruct (Ascii.eqb_spec c LF) as [->|]; [discriminate|reflexivity].
Qed.

Lemma translate_newlines_plain (u s : string) :
  all_chars plain_char u = true ->
  translate_newlines false (u ++ s) = u ++ translate_newlines false s.
Proof.
  induction u as [|c u IH]; intros Hu; simpl in *; [reflexivity|].
  apply andb_true_iff in Hu. destruct Hu as [Hc Hu].
  destruct (plain_char_inv c Hc) as (_ & _ & -> & ->). now rewrite IH.
Qed.

Lemma lines_from_plain (u s cur : string) :
  all_chars plain_char u = true ->
  lines_from cur (u ++ s) = lines_from (cur ++ u) s.
Proof.
  revert cur. induction u as [|c u IH]; intros cur Hu; simpl in *.
  - now rewrite string_app_nil_r.
  - apply andb_true_iff in Hu. destruct Hu as [Hc Hu].
    destruct (plain_char_inv c Hc) as (_ & _ & _ & ->).
    rewrite IH by assumption. now rewrite string_app_assoc.
Qed.

(** The first line read from a record [u], or [u|..], written at the
    start of a line. *)
Lemma file_lines_record (u rest q : string) :
  all_chars plain_char u = true ->
  rest = "" \/ (exists r, rest = String "|" r) ->
  exists y more,
    file_lines (u ++ rest ++ [LF] ++ q) = cons (u ++ y ++ [LF]) more
    /\ (y = "" \/ exists x, y = String "|" x).
Proof.
  intros Hu Hrest. unfold file_lines.
  rewrite translate_newlines_plain by assumption.
  rewrite lines_from_plain by assumption. simpl ("" ++ u).
  destruct Hrest as [->|[r ->]].
  - simpl. exists "". eexists. split; [reflexivity|now left].
  - simpl.
    replace (r ++ String LF q) with ((r ++ [LF]) ++ q)
      by (rewrite string_app_assoc; reflexivity).
    rewrite translate_newlines_split.
    destruct (translate_newlines_ends r false) as [t Ht]; [now left|]. rewrite Ht.
    rewrite lines_from_split.
    destruct (lines_from_head t (u ++ String "|" "")) as (x & more & H).
    rewrite H. exists (String "|" x). eexists. split; [|right; eauto].
    simpl. f_equal. now rewrite string_app_assoc.
Qed.

Lemma rstrip_plain (a w : string) :
  all_chars (fun c => negb (is_space c)) a = true ->
  rstrip (a ++ w) = a ++ rstrip w.
Proof.
  induction a as [|c a IH]; intros Ha; simpl in *; [reflexivity|].
  apply andb_true_iff in Ha. destruct Ha as [Hc Ha].
  apply negb_true_iff in Hc. rewrite Hc, andb_false_r. now rewrite IH.
Qed.

Lemma all_chars_weaken (f g : ascii -> bool) (s : string) :
  (forall c, f c = true -> g c = true) ->
  all_chars f s = true -> all_chars g s = true.
Proof.
  intros Hfg. induction s as [|c s IH]; simpl; [reflexivity|].
  intros H. apply andb_true_iff in H. destruct H as [Hc Hs].
  apply andb_true_iff. auto.
Qed.

Lemma split_bar_plain (u z : string) :
  all_chars plain_char u = true ->
  split_bar (u ++ String "|" z) = (u, Some z) /\ split_bar u = (u, None).
Proof.
  induction u as [|c u IH]; intros Hu; simpl in *; [split; reflexivity|].
  apply andb_true_iff in Hu. destruct Hu as [Hc Hu].
  destruct (plain_char_inv c Hc) as (_ & -> & _ & _).
  destruct (IH Hu) as [-> ->]. split; reflexivity.
Qed.

Lemma clean_url_lstrip (u s : string) :
  clean_url u -> lstrip (u ++ s) = u ++ s.
Proof.
  intros (Hne & _ & Hu). destruct u as [|c u']; [contradiction|].
  simpl in *. apply andb_true_iff in Hu. destruct Hu as [Hc _].
  destruct (plain_char_inv c Hc) as (-> & _). reflexivity.
Qed.

Lemma startswith_hash (c : ascii) (s : string) :
  startswith "#" (String c s) = if ascii_dec "#" c then true else false.
Proof.
  unfold startswith.
  change (String.prefix "#" (String c s))
    with (if ascii_dec "#" c then String.prefix "" s else false).
  destruct (ascii_dec "#" c); [destruct s|]; reflexivity.
Qed.

Lemma clean_url_not_skipped (u s : string) :
  clean_url u -> skipped (u ++ s) = false.
Proof.
  intros (Hne & Hhash & _). destruct u as [|c u']; [contradiction|].
  unfold skipped. change (String c u' ++ s) with (String c (u' ++ s)).
  rewrite startswith_hash in *.
  destruct (ascii_dec "#" c); [discriminate|reflexivity].
Qed.

Lemma clean_url_no_space (u : string) :
  clean_url u -> all_chars (fun c => negb (is_space c)) u = true.
Proof.
  intros (_ & _ & Hu). apply (all_chars_weaken plain_char); [|exact Hu].
  intros c Hc. destruct (plain_char_inv c Hc) as (-> & _). reflexivity.
Qed.

(** Such a line yields a record whose key is [u]. *)
Lemma read_lines_record (u y : string) (more : list string) :
  clean_url u ->
  y = "" \/ (exists x, y = String "|" x) ->
  exists second,
    read_lines (cons (u ++ y ++ [LF]) more) []
    = cons (u, second) (read_lines more []).
Proof.
  intros Hclean Hy.
  pose proof (clean_url_no_space u Hclean) as Hns.
  assert (all_chars plain_char u = true) as Hu by apply Hclean.
  cbn [read_lines]. unfold strip. rewrite clean_url_lstrip by assumption.
  destruct Hy as [->|[x ->]].
  - simpl ("" ++ [LF]). rewrite rstrip_plain by assumption.
    change (rstrip [LF]) with "". rewrite string_app_nil_r.
    pose proof (clean_url_not_skipped u "" Hclean) as Hskip.
    rewrite string_app_nil_r in Hskip. rewrite Hskip.
    destruct (split_bar_plain u "" Hu) as [_ ->]. simpl.
    exists "". rewrite (read_lines_acc more). reflexivity.
  - replace (u ++ String "|" x ++ [LF]) with ((u ++ String "|" "") ++ x ++ [LF])
      by (rewrite string_app_assoc; reflexivity).
    rewrite rstrip_plain.
    2:{ clear -Hns. induction u as [|c u IH]; simpl in *; [reflexivity|].
        apply andb_true_iff in Hns. destruct Hns as [-> Hns]. simpl. now apply IH. }
    rewrite string_app_assoc. simpl ((String "|" "") ++ _).
    rewrite clean_url_not_skipped by assumption.
    destruct (split_bar_plain u (rstrip (x ++ [LF])) Hu) as [-> _]. simpl.
    eexists. rewrite (read_lines_acc more). reflexivity.
Qed.

Lemma read_lines_app (a b : list string) :
  read_lines (List.app a b) [] = List.app (read_lines a []) (read_lines b []).
Proof.
  induction a as [|line a IH]; simpl; [reflexivity|].
  destruct (skipped (strip line)); [exact IH|].
  rewrite (read_lines_acc (List.app a b)), (read_lines_acc a), IH.
  now rewrite <- app_assoc.
Qed.

(** A record [u] or [u|..] written on a line of its own is read back with
    the key [u], whatever precedes and follows it. *)
Lemma read_back_key (p q u rest : string) :
  ends_with_newline p ->
  clean_url u ->
  rest = "" \/ (exists r, rest = String "|" r) ->
  In u (map fst (read_pairs (Some (p ++ u ++ rest ++ [LF] ++ q)))).
Proof.
  intros Hp Hu Hrest. unfold read_pairs, read_pairs_file.
  rewrite file_lines_app by assumption.
  destruct (file_lines_record u rest q) as (y & more & Hl & Hy);
    [apply Hu|exact Hrest|].
  rewrite Hl, read_lines_app.
  destruct (read_lines_record u y more Hu Hy) as (second & ->).
  rewrite map_app. apply in_or_app. right. simpl. now left.
Qed.

End ReadBack.

(** ** Saving the same URLs twice *)

Section SaveUrlsTwice.
Import Paths Registry WellFormed.
Local Arguments String.append !_ _ / : simpl nomatch.

(** *** Dictionaries in insertion order *)

Lemma dict_get_set (k k' v : string) (d : list (string * string)) :
  dict_get k' (dict_set k v d) = if String.eqb k k' then Some v else dict_get k' d.
Proof.
  induction d as [|[k0 v0] d IH]; simpl.
  - reflexivity.
  - destruct (String.eqb_spec k0 k) as [->|Hne]; simpl.
    + destruct (String.eqb k k'); reflexivity.
    + rewrite IH. destruct (String.eqb_spec k0 k') as [->|]; [|reflexivity].
      destruct (String.eqb_spec k k'); [congruence|reflexivity].
Qed.

Lemma dict_has_In (k : string) (d : list (string * string)) :
  dict_has k d = true <-> In k (map fst d).
Proof.
  unfold dict_has. induction d as [|[k0 v0] d IH]; simpl.
  - split; [discriminate|tauto].
  - destruct (String.eqb_spec k0 k) as [->|Hne]; [tauto|].
    rewrite IH. split; [tauto|]. intros [?|?]; [contradiction|assumption].
Qed.

Lemma dict_set_keys (k v k' : string) (d : list (string * string)) :
  In k' (map fst (dict_set k v d)) <-> k' = k \/ In k' (map fst d).
Proof.
  rewrite <- !dict_has_In. unfold dict_has. rewrite dict_get_set.
  destruct (String.eqb_spec k k') as [->|Hne]; [tauto|].
  split; [tauto|]. intros [->|H]; [contradiction|exact H].
Qed.

Lemma pair_line_record_of (k second : string) : record_of k (pair_line (k, second)).
Proof.
  unfold pair_line. simpl. destruct (String.eqb second "").
  - exists EmptyString. split; [|now left].
    induction k as [|c k IH]; simpl; [reflexivity|now rewrite <- IH].
  - exists (String "|" second). split; [reflexivity|right; eauto].
Qed.

Lemma existing_lines_spec (pairs : list (string * string)) (acc : list (string * string)) :
  (forall k line, dict_get k acc = Some line -> record_of k line) ->
  let d := fold_left (fun d p => dict_set (fst p) (pair_line p) d) pairs acc in
  (forall k line, dict_get k d = Some line -> record_of k line)
  /\ (forall k, In k (map fst d) <-> In k (map fst acc) \/ In k (map fst pairs)).
Proof.
  revert acc. induction pairs as [|[k0 s0] pairs IH]; intros acc Hacc; simpl.
  - split; [exact Hacc|]. intros k. tauto.
  - destruct (IH (dict_set k0 (pair_line (k0, s0)) acc)) as [H1 H2].
    { intros k line. rewrite dict_get_set.
      destruct (String.eqb_spec k0 k) as [->|]; [|apply Hacc].
      intros [= <-]. apply pair_line_record_of. }
    split; [exact H1|]. intros k. rewrite H2, dict_set_keys. simpl. intuition (subst; auto).
Qed.

Context (path_div : string -> string -> string).
Context (mission collection : string).

Lemma add_new_lines_spec (data_dir : option string) (new_urls : list string)
    (d0 d : list (string * string)) :
  add_new_lines path_div mission collection data_dir new_urls d0 = Return d ->
  (forall k line, dict_get k d0 = Some line -> record_of k line) ->
  (forall k line, dict_get k d = Some line -> record_of k line)
  /\ (forall k, In k (map fst d) <-> In k (map fst d0) \/ In k new_urls).
Proof.
  revert d0. induction new_urls as [|url rest IH]; intros d0 Hr H0; simpl in Hr.
  - injection Hr as <-. split; [exact H0|]. intros k. simpl. tauto.
  - destruct (match data_dir with
              | Some dir =>
                  path ← url_to_local_path path_div url dir mission collection;
                  Return (default EmptyString path)
              | None => Return EmptyString
              end) as [local_path| |] eqn:Elp; try discriminate.
    cbn [mbind outcome_bind bind] in Hr.
    destruct (IH _ Hr) as [H1 H2].
    { intros k line. rewrite dict_get_set.
      destruct (String.eqb_spec url k) as [->|]; [|apply H0].
      intros [= <-]. exists (String "|" local_path). split; [reflexivity|right; eauto]. }
    split; [exact H1|]. intros k. rewrite H2, dict_set_keys. simpl.
    split; [intros [[->|?]|?]; auto|intros [?|[->|?]]; auto].
Qed.

(** *** Sorting and writing the lines *)

Lemma insert_string_In (s x : string) (l : list string) :
  In x (insert_string s l) <-> x = s \/ In x l.
Proof.
  induction l as [|t l IH]; simpl; [intuition|].
  destruct (String.leb s t); simpl; [intuition|]. rewrite IH. intuition.
Qed.

Lemma sorted_strings_In (x : string) (l : list string) :
  In x (sorted_strings l) <-> In x l.
Proof.
  unfold sorted_strings. induction l as [|s l IH]; simpl; [tauto|].
  rewrite insert_string_In, IH. intuition.
Qed.

Lemma write_lines_ends (lines : list string) : ends_with_newline (write_lines lines).
Proof.
  induction lines as [|line lines IH]; simpl; [now left|]. right.
  destruct IH as [->|[p ->]].
  - exists line. reflexivity.
  - exists (line ++ String LF p)%string. now rewrite string_app_assoc.
Qed.

Lemma write_lines_split (line : string) (lines : list string) :
  In line lines ->
  exists p q,
    write_lines lines = (p ++ line ++ String LF EmptyString ++ q)%string
    /\ ends_with_newline p.
Proof.
  induction lines as [|l lines IH]; intros Hin; [destruct Hin|].
  destruct Hin as [->|Hin].
  - exists EmptyString, (write_lines lines). split; [reflexivity|now left].
  - destruct (IH Hin) as (p & q & Hw & Hp).
    exists (l ++ String LF p)%string, q. split.
    + simpl. rewrite Hw. now rewrite string_app_assoc.
    + right. destruct Hp as [->|[p' ->]].
      * exists l. reflexivity.
      * exists (l ++ String LF p')%string. now rewrite string_app_assoc.
Qed.

(** Every clean URL that is a key of the dictionary is read back from the
    file written from it. *)
Lemma written_keys_read_back (d : list (string * string)) (u : string) :
  clean_url u ->
  In u (map fst d) ->
  (forall k line, dict_get k d = Some line -> record_of k line) ->
  In u (map fst
          (read_pairs
             (Some (write_lines
                      (omap (fun k => dict_get k d) (sorted_strings (map fst d))))))).
Proof.
  intros Hclean Hin Hrec.
  destruct (dict_get u d) as [line|] eqn:Eg.
  2:{ apply dict_has_In in Hin. unfold dict_has in Hin. rewrite Eg in Hin. discriminate. }
  destruct (Hrec u line Eg) as (rest & -> & Hrest).
  destruct (write_lines_split (u ++ rest)%string
              (omap (fun k => dict_get k d) (sorted_strings (map fst d))))
    as (p & q & Hw & Hp).
  { apply list_elem_of_In. apply list_elem_of_omap. exists u. split; [|exact Eg].
    apply list_elem_of_In. now apply sorted_strings_In. }
  rewrite Hw. rewrite string_app_assoc. now apply read_back_key.
Qed.

(** *** One date *)

Lemma list_filter_none {A : Type} (f : A -> bool) (l : list A) :
  (forall x, In x l -> f x = false) -> List.filter f l = [].
Proof.
  induction l as [|x l IH]; intros H; simpl; [reflexivity|].
  rewrite (H x (or_introl eq_refl)). apply IH. intros y Hy. apply H. now right.
Qed.

Lemma save_date_known (data_dir : option string) (d : Z) (l : list string)
    (st : save_state) :
  (forall u, In u l -> In u (map fst (read_pairs (sv_files st !! d)))) ->
  save_date path_div mission collection data_dir d l st
  = Return (if same_count (sv_files st !! d) l
            then mk_save_state (sv_files st) (sv_new_count st)
                   (sv_files_written st ++ [d]) (sv_events st ++ [Touched d])
            else st).
Proof.
  intros Hall. unfold save_date.
  destruct (same_count (sv_files st !! d) l); [reflexivity|].
  rewrite list_filter_none; [reflexivity|].
  intros u Hu. apply negb_false_iff. apply dict_has_In.
  apply (existing_lines_spec (read_pairs (sv_files st !! d)) []); [discriminate|].
  right. now apply Hall.
Qed.

Lemma save_date_files_other (data_dir : option string) (d d' : Z) (l : list string)
    (st st' : save_state) :
  save_date path_div mission collection data_dir d l st = Return st' ->
  d' <> d ->
  sv_files st' !! d' = sv_files st !! d'.
Proof.
  unfold save_date. intros H Hne.
  destruct (same_count (sv_files st !! d) l); [injection H as <-; reflexivity|].
  destruct (List.filter _ l) as [|x xs]; [injection H as <-; reflexivity|].
  destruct (add_new_lines _ _ _ _ _ _) as [e| |]; try discriminate.
  cbn [mbind outcome_bind bind] in H. injection H as <-. simpl.
  now rewrite lookup_insert_ne.
Qed.

(** After [save_date] for a date and its URLs, every one of these URLs is
    a key of the file of the date, unless the file was left as it was
    because of its record count. *)
Lemma save_date_recorded (data_dir : option string) (d : Z) (l : list string)
    (st st' : save_state) :
  (forall u, In u l -> clean_url u) ->
  save_date path_div mission collection data_dir d l st = Return st' ->
  (same_count (sv_files st !! d) l = true /\ sv_files st' !! d = sv_files st !! d)
  \/ (forall u, In u l -> In u (map fst (read_pairs (sv_files st' !! d)))).
Proof.
  intros Hclean. unfold save_date.
  destruct (same_count (sv_files st !! d) l) eqn:Esc.
  { intros [= <-]. left. split; reflexivity. }
  intros H. right.
  set (e0 := fold_left (fun d p => dict_set (fst p) (pair_line p) d)
               (read_pairs (sv_files st !! d)) []) in *.
  destruct (existing_lines_spec (read_pairs (sv_files st !! d)) [])
    as [Hrec0 Hkeys0]; [discriminate|]. fold e0 in Hrec0, Hkeys0.
  destruct (List.filter (fun u => negb (dict_has u e0)) l) as [|x xs] eqn:Enew.
  - injection H as <-. intros u Hu.
    destruct (dict_has u e0) eqn:Eh.
    + apply dict_has_In, Hkeys0 in Eh. destruct Eh as [[]|Eh]. exact Eh.
    + assert (In u (List.filter (fun u => negb (dict_has u e0)) l)) as Hin
        by (apply filter_In; split; [exact Hu|now rewrite Eh]).
      rewrite Enew in Hin. destruct Hin.
  - rewrite <- Enew in *.
    destruct (add_new_lines path_div mission collection data_dir
                (List.filter (fun u => negb (dict_has u e0)) l) e0)
      as [e| |] eqn:Eadd; try discriminate.
    cbn [mbind outcome_bind bind] in H. injection H as <-. simpl.
    rewrite lookup_insert_eq.
    destruct (add_new_lines_spec _ _ _ _ Eadd Hrec0) as [Hrec Hkeys].
    intros u Hu. apply written_keys_read_back; [now apply Hclean| |exact Hrec].
    apply Hkeys. destruct (dict_has u e0) eqn:Eh.
    + left. now apply dict_has_In.
    + right. apply filter_In. split; [exact Hu|now rewrite Eh].
Qed.

(** The second call for a date. *)
Lemma save_date_again (data_dir : option string) (d : Z) (l : list string)
    (st st' st2 : save_state) :
  (forall u, In u l -> clean_url u) ->
  save_date path_div mission collection data_dir d l st = Return st' ->
  sv_files st2 !! d = sv_files st' !! d ->
  save_date path_div mission collection data_dir d l st2
  = Return (if same_count (sv_files st2 !! d) l
            then mk_save_state (sv_files st2) (sv_new_count st2)
                   (sv_files_written st2 ++ [d]) (sv_events st2 ++ [Touched d])
            else st2).
Proof.
  intros Hclean H1 Hsame.
  destruct (save_date_recorded data_dir d l st st' Hclean H1) as [[Hsc Hf]|Hrec].
  - unfold save_date. rewrite Hsame, Hf, Hsc. reflexivity.
  - apply save_date_known. rewrite Hsame. exact Hrec.
Qed.

(** *** All dates *)

Lemma save_dates_files_other (data_dir : option string)
    (groups : list (Z * list string)) (st st' : save_state) (d' : Z) :
  save_dates path_div mission collection data_dir groups st = Return st' ->
  ~ In d' (map fst groups) ->
  sv_files st' !! d' = sv_files st !! d'.
Proof.
  revert st. induction groups as [|[d l] groups IH]; intros st H Hn; simpl in H.
  - now injection H as <-.
  - destruct (save_date path_div mission collection data_dir d l st) as [s| |] eqn:E;
      try discriminate.
    cbn [mbind outcome_bind bind] in H.
    rewrite (IH s H) by (intros Hin; apply Hn; now right).
    apply (save_date_files_other data_dir d d' l st s E).
    intros ->. apply Hn. now left.
Qed.

Lemma save_dates_again (data_dir : option string) (groups : list (Z * list string)) :
  List.NoDup (map fst groups) ->
  (forall g u, In g groups -> In u (snd g) -> clean_url u) ->
  forall st st1 st2,
    save_dates path_div mission collection data_dir groups st = Return st1 ->
    (forall d, In d (map fst groups) -> sv_files st2 !! d = sv_files st1 !! d) ->
    save_dates path_div mission collection data_dir groups st2
    = Return
        (mk_save_state (sv_files st2) (sv_new_count st2)
           (sv_files_written st2
            ++ flat_map (fun g => if same_count (sv_files st2 !! fst g) (snd g)
                                  then [fst g] else []) groups)
           (sv_events st2
            ++ flat_map (fun g => if same_count (sv_files st2 !! fst g) (snd g)
                                  then [Touched (fst g)] else []) groups)).
Proof.
  induction groups as [|[d l] groups IH]; intros Hnd Hclean st st1 st2 H1 Hsame.
  - simpl. rewrite !app_nil_r. destruct st2; reflexivity.
  - simpl in H1.
    destruct (save_date path_div mission collection data_dir d l st) as [s| |] eqn:E;
      try discriminate.
    cbn [mbind outcome_bind bind] in H1.
    apply List.NoDup_cons_iff in Hnd. destruct Hnd as [Hd Hnd].
    assert (sv_files st2 !! d = sv_files s !! d) as Hd2.
    { rewrite (Hsame d) by now left.
      apply (save_dates_files_other data_dir groups s st1 d H1 Hd). }
    cbn [save_dates].
    rewrite (save_date_again data_dir d l st s st2); [|intros u Hu|exact E|exact Hd2].
    2:{ apply (Hclean (d, l)); [now left|exact Hu]. }
    cbn [mbind outcome_bind bind flat_map fst snd].
    destruct (same_count (sv_files st2 !! d) l).
    + erewrite IH; [|exact Hnd| |exact H1|].
      * simpl. now rewrite <- !app_assoc.
      * intros g u Hg Hu. apply (Hclean g u); [now right|exact Hu].
      * intros d' Hd'. simpl. apply Hsame. now right.
    + erewrite IH; [|exact Hnd| |exact H1|].
      * reflexivity.
      * intros g u Hg Hu. apply (Hclean g u); [now right|exact Hu].
      * intros d' Hd'. apply Hsame. now right.
Qed.

(** *** The groups of [urls_by_date] *)

Lemma group_add_spec (d : Z) (url : string) (g : list (Z * list string)) :
  (forall d', In d' (map fst (group_add d url g)) <-> d' = d \/ In d' (map fst g))
  /\ (List.NoDup (map fst g) -> List.NoDup (map fst (group_add d url g)))
  /\ (forall g' u, In g' (group_add d url g) -> In u (snd g') ->
        u = url \/ exists g0, In g0 g /\ In u (snd g0)).
Proof.
  induction g as [|[d0 l0] g IH]; simpl.
  - split; [intros d'; intuition|]. split; [intros _; repeat constructor; intros []|].
    intros g' u [<-|[]] [<-|[]]. now left.
  - destruct IH as (IH1 & IH2 & IH3).
    destruct (Z.eqb_spec d0 d) as [->|Hne]; simpl.
    + split; [intros d'; intuition|]. split; [auto|].
      intros g' u [<-|Hg] Hu; simpl in Hu.
      * apply in_app_or in Hu. destruct Hu as [Hu|[<-|[]]]; [|now left].
        right. exists (d, l0). split; [now left|exact Hu].
      * right. exists g'. split; [now right|exact Hu].
    + split; [intros d'; rewrite IH1; intuition|]. split.
      * intros Hnd. apply List.NoDup_cons_iff in Hnd. destruct Hnd as [Hn Hnd].
        apply List.NoDup_cons_iff. split; [|auto].
        rewrite IH1. intros [?|?]; [congruence|contradiction].
      * intros g' u [<-|Hg] Hu.
        -- right. exists (d0, l0). split; [now left|exact Hu].
        -- destruct (IH3 g' u Hg Hu) as [->|(g0 & Hg0 & Hu0)]; [now left|].
           right. exists g0. split; [now right|exact Hu0].
Qed.

Lemma group_by_date_spec (urls : list string) :
  List.NoDup (map fst (group_by_date urls))
  /\ (forall g u, In g (group_by_date urls) -> In u (snd g) -> In u urls).
Proof.
  unfold group_by_date.
  assert (forall acc,
            List.NoDup (map fst acc) ->
            let r := fold_left
                       (fun g url =>
                          match extract_sensing_time (basename url) with
                          | None => g
                          | Some dt => group_add (date dt) url g
                          end) urls acc in
            List.NoDup (map fst r)
            /\ (forall g u, In g r -> In u (snd g) ->
                  In u urls \/ exists g0, In g0 acc /\ In u (snd g0))) as H.
  { induction urls as [|url urls IH]; intros acc Hnd; simpl.
    - split; [exact Hnd|]. intros g u Hg Hu. right. eauto.
    - destruct (extract_sensing_time (basename url)) as [dt|].
      + destruct (group_add_spec (date dt) url acc) as (_ & Hn & Hm).
        destruct (IH (group_add (date dt) url acc) (Hn Hnd)) as [H1 H2].
        split; [exact H1|]. intros g u Hg Hu.
        destruct (H2 g u Hg Hu) as [?|(g0 & Hg0 & Hu0)]; [auto|].
        destruct (Hm g0 u Hg0 Hu0) as [->|?]; auto.
      + destruct (IH acc Hnd) as [H1 H2]. split; [exact H1|].
        intros g u Hg Hu. destruct (H2 g u Hg Hu) as [?|?]; auto. }
  destruct (H [] (List.NoDup_nil _)) as [H1 H2]. split; [exact H1|].
  intros g u Hg Hu. destruct (H2 g u Hg Hu) as [?|(g0 & [] & _)]. assumption.
Qed.


End SaveUrlsTwice.


(** ** Pending downloads *)

Section PendingDownloads.
Import Paths Registry Tracker WellFormed Batch.
Local Arguments String.append !_ _ / : simpl nomatch.

(** *** Membership in what the tracker reads *)

Lemma insert_file_In (f x : Z * string) (l : list (Z * string)) :
  In x (insert_file f l) <-> x = f \/ In x l.
Proof.
  induction l as [|g l IH]; simpl; [intuition|].
  destruct (fst f <=? fst g); simpl; [intuition|]. rewrite IH. intuition.
Qed.

Lemma list_files_In (fs : files) (d : Z) (content : string) :
  In (d, content) (list_files fs) <-> fs !! d = Some content.
Proof.
  unfold list_files. rewrite <- elem_of_map_to_list, list_elem_of_In.
  generalize (map_to_list fs). intros l.
  induction l as [|f l IH]; simpl; [tauto|].
  rewrite insert_file_In, IH. intuition.
Qed.

Lemma omap_keys {A : Type} (f : string -> option A) (l : list string) :
  (forall x, In x l -> is_Some (f x)) ->
  map fst (omap (fun x => option_map (pair x) (f x)) l) = l.
Proof.
  induction l as [|x l IH]; intros H; simpl; [reflexivity|].
  destruct (H x (or_introl eq_refl)) as [v ->]. simpl. f_equal.
  apply IH. intros y Hy. apply H. now right.
Qed.

Lemma read_daily_pairs_In (fl : list (Z * string)) (sd ed : option Z) (k : string) :
  In k (map (fun t => fst (fst t)) (read_daily_pairs fl sd ed))
  <-> exists d content,
        In (d, content) fl /\ date_selected sd ed d = true
        /\ In k (map fst (read_pairs (Some content))).
Proof.
  induction fl as [|[d c] fl IH]; simpl.
  - split; [tauto|]. intros (? & ? & [] & _).
  - destruct (date_selected sd ed d) eqn:E.
    + rewrite map_app, in_app_iff, IH, map_map. simpl. split.
      * intros [H|(d' & c' & Hin & Hs & Hk)].
        -- exists d, c. auto.
        -- exists d', c'. auto.
      * intros (d' & c' & [[= <- <-]|Hin] & Hs & Hk); [now left|].
        right. exists d', c'. auto.
    + rewrite IH. split.
      * intros (d' & c' & Hin & Hs & Hk). exists d', c'. auto.
      * intros (d' & c' & [[= <- <-]|Hin] & Hs & Hk); [congruence|].
        exists d', c'. auto.
Qed.

Lemma filter_by_sensing_time_window
    (items : list string) (start end_ : option datetime) (u : string) :
  In u (filter_by_sensing_time items start end_)
  <-> In u items /\ in_window start end_ u.
Proof.
  destruct start as [s|], end_ as [e|].
  - apply filter_by_sensing_time_In. left. eauto.
  - apply filter_by_sensing_time_In. left. eauto.
  - apply filter_by_sensing_time_In. right. eauto.
  - unfold filter_by_sensing_time, in_window. tauto.
Qed.

Lemma url_to_pair_spec (results : list (string * string)) (acc : list (string * string)) :
  forall k,
    In k (map fst (fold_left (fun d p => dict_set (fst p) (snd p) d) results acc))
    <-> In k (map fst acc) \/ In k (map fst results).
Proof.
  revert acc. induction results as [|[k0 v0] results IH]; intros acc k; simpl.
  - tauto.
  - rewrite IH, dict_set_keys. intuition (subst; auto).
Qed.

(** The URLs that [load_urls_with_paths] returns. *)
Lemma load_urls_with_paths_In (st : registry_state) (start end_ : option datetime)
    (u : string) :
  In u (map fst (load_urls_with_paths st start end_))
  <-> recorded (url_files st) start end_ u.
Proof.
  unfold load_urls_with_paths, _to_date_range, recorded.
  set (pairs := read_daily_pairs (list_files (url_files st))
                  (option_map date start) (option_map date end_)).
  set (d := url_to_pair (map (fun t => (fst (fst t), snd (fst t))) pairs)).
  assert (forall k, In k (map fst d) <-> In k (map (fun t => fst (fst t)) pairs)) as Hkeys.
  { intros k. unfold d, url_to_pair. rewrite url_to_pair_spec, map_map. simpl. tauto. }
  rewrite omap_keys.
  2:{ intros x Hx. apply filter_by_sensing_time_window in Hx. destruct Hx as [Hx _].
      apply dict_has_In in Hx. unfold dict_has in Hx.
      destruct (dict_get x d); [eauto|discriminate]. }
  rewrite filter_by_sensing_time_window, Hkeys. unfold pairs.
  rewrite read_daily_pairs_In. split.
  - intros [(dd & c & Hin & Hs & Hk) Hw]. split; [exact Hw|].
    exists dd, c. split; [now apply list_files_In|auto].
  - intros [Hw (dd & c & Hf & Hs & Hk)]. split; [|exact Hw].
    exists dd, c. split; [now apply list_files_In|auto].
Qed.

(** The URLs that [get_downloaded_urls] returns. *)
Lemma get_downloaded_urls_elem (st : registry_state) (start end_ : option datetime)
    (u : string) :
  u ∈ get_downloaded_urls st start end_ <-> recorded (dwl_files st) start end_ u.
Proof.
  unfold get_downloaded_urls, _to_date_range, recorded.
  rewrite elem_of_list_to_set, list_elem_of_In, filter_by_sensing_time_window.
  rewrite read_daily_pairs_In. split.
  - intros [(dd & c & Hin & Hs & Hk) Hw]. split; [exact Hw|].
    exists dd, c. split; [now apply list_files_In|auto].
  - intros [Hw (dd & c & Hf & Hs & Hk)]. split; [|exact Hw].
    exists dd, c. split; [now apply list_files_In|auto].
Qed.

Lemma get_pending_downloads_elem (st : registry_state) (start end_ : option datetime)
    (u : string) :
  u ∈ get_pending_downloads st start end_
  <-> recorded (url_files st) start end_ u /\ ~ recorded (dwl_files st) start end_ u.
Proof.
  unfold get_pending_downloads.
  rewrite elem_of_difference, elem_of_list_to_set, list_elem_of_In.
  now rewrite load_urls_with_paths_In, get_downloaded_urls_elem.
Qed.

(** *** Marking *)

Context (path_div : string -> string -> string).
Context (mission collection : string) (data_dir : option string).

Lemma append_line_complete (fs : files) (d : Z) (line : string) :
  complete_lines fs -> complete_lines (append_line fs d line).
Proof.
  intros H d' c'. unfold append_line. rewrite lookup_insert.
  destruct (decide (d = d')) as [->|Hne]; [|apply H].
  intros [= <-]. right. exists (default EmptyString (fs !! d') ++ line)%string.
  now rewrite string_app_assoc.
Qed.

Lemma append_line_keeps (fs : files) (d d' : Z) (line k : string) (c : string) :
  complete_lines fs ->
  fs !! d' = Some c ->
  In k (map fst (read_pairs (Some c))) ->
  exists c', append_line fs d line !! d' = Some c'
             /\ In k (map fst (read_pairs (Some c'))).
Proof.
  intros Hc Hf Hk. unfold append_line. rewrite lookup_insert.
  destruct (decide (d = d')) as [->|Hne]; [|eauto].
  eexists. split; [reflexivity|]. rewrite Hf. simpl default.
  unfold read_pairs, read_pairs_file in *.
  rewrite file_lines_app by (apply (Hc d' c Hf)).
  rewrite read_lines_app, map_app. apply in_or_app. now left.
Qed.

Lemma append_line_records (fs : files) (d : Z) (u path_str : string) :
  complete_lines fs ->
  clean_url u ->
  exists c', append_line fs d (u ++ "|" ++ path_str)%string !! d = Some c'
             /\ In u (map fst (read_pairs (Some c'))).
Proof.
  intros Hc Hu. unfold append_line. rewrite lookup_insert_eq.
  eexists. split; [reflexivity|].
  replace (default EmptyString (fs !! d) ++ (u ++ "|" ++ path_str) ++ String LF EmptyString)%string
    with (default EmptyString (fs !! d) ++ u ++ String "|" path_str
          ++ String LF EmptyString ++ EmptyString)%string.
  2:{ f_equal. rewrite !string_app_assoc. reflexivity. }
  apply read_back_key; [|exact Hu|right; eauto].
  destruct (fs !! d) as [c|] eqn:E; [apply (Hc d c E)|now left].
Qed.

Lemma mark_all_spec (local_path : string -> option string) (urls : list string) :
  forall st st',
    mark_all path_div mission collection data_dir local_path st urls = Return st' ->
    complete_lines (dwl_files st) ->
    url_files st' = url_files st
    /\ complete_lines (dwl_files st')
    /\ (forall d c k, dwl_files st !! d = Some c ->
          In k (map fst (read_pairs (Some c))) ->
          exists c', dwl_files st' !! d = Some c'
                     /\ In k (map fst (read_pairs (Some c'))))
    /\ (forall u t, In u urls -> extract_sensing_time u = Some t -> clean_url u ->
          exists c', dwl_files st' !! date t = Some c'
                     /\ In u (map fst (read_pairs (Some c')))).
Proof.
  induction urls as [|url urls IH]; intros st st' H Hc; simpl in H.
  - injection H as <-. split; [reflexivity|]. split; [exact Hc|].
    split; [eauto|]. intros u t [].
  - destruct (mark_downloaded path_div mission collection data_dir st url
                (local_path url)) as [[b s]| |] eqn:E; try discriminate.
    cbn [mbind outcome_bind bind snd] in H.
    unfold mark_downloaded in E.
    destruct (extract_sensing_time url) as [dt|] eqn:Es.
    + destruct (match local_path url with
                | Some p => Return p
                | None =>
                    match data_dir with
                    | Some dir =>
                        computed ← url_to_local_path path_div url dir mission collection;
                        Return (default EmptyString computed)
                    | None => Return EmptyString
                    end
                end) as [path_str| |] eqn:Ep; try discriminate.
      cbn [mbind outcome_bind bind] in E. injection E as <- <-.
      destruct (IH _ _ H) as (Hu & Hc' & Hkeep & Hnew).
      { simpl. now apply append_line_complete. }
      simpl in Hu, Hkeep.
      split; [exact Hu|]. split; [exact Hc'|]. split.
      * intros d c k Hf Hk.
        destruct (append_line_keeps (dwl_files st) (date dt)
                    d (url ++ "|" ++ path_str)%string k c Hc Hf Hk) as (c1 & Hf1 & Hk1).
        eauto.
      * intros u t [<-|Hin] Ht Hclean; [|eauto].
        rewrite Es in Ht. injection Ht as <-.
        destruct (append_line_records (dwl_files st) (date dt) url path_str Hc Hclean)
          as (c1 & Hf1 & Hk1).
        eauto.
    + injection E as <- <-.
      destruct (IH _ _ H Hc) as (Hu & Hc' & Hkeep & Hnew).
      split; [exact Hu|]. split; [exact Hc'|]. split; [exact Hkeep|].
      intros u t [<-|Hin] Ht Hclean; [congruence|eauto].
Qed.

(** C6: the pending downloads of a window are the URLs recorded in the URL
    files, within the window, that are not recorded in the download files,
    within the window; both are read from the record files.  In a registry
    whose URL files hold clean URLs filed under their sensing date and whose
    download files end with a line feed, once [mark_downloaded] has been
    called, and has returned, for every URL recorded in the window, no
    download is pending in the window. *)
Theorem pending_downloads_spec
    (st : registry_state) (start end_ : option datetime) :
  (forall u, u ∈ get_pending_downloads st start end_
             <-> recorded (url_files st) start end_ u
                 /\ ~ recorded (dwl_files st) start end_ u)
  /\ (forall local_path urls st',
        urls_filed_by_sensing_date (url_files st) ->
        complete_lines (dwl_files st) ->
        (forall u, recorded (url_files st) start end_ u -> In u urls) ->
        mark_all path_div mission collection data_dir local_path st urls = Return st' ->
        get_pending_downloads st' start end_ = ∅).
Proof.
  split; [intros u; apply get_pending_downloads_elem|].
  intros local_path urls st' Hfiled Hc Hall Hmark.
  destruct (mark_all_spec local_path urls st st' Hmark Hc) as (Hu & _ & _ & Hnew).
  apply elem_of_equiv_empty_L. intros u Hp.
  apply get_pending_downloads_elem in Hp. destruct Hp as [Hrec Hnot].
  apply Hnot. rewrite Hu in Hrec.
  pose proof (Hall u Hrec) as Hin.
  destruct Hrec as (Hw & d & c & Hf & Hs & Hk).
  destruct (Hfiled d c u Hf Hk) as (Hclean & t & Ht & Hd).
  destruct (Hnew u t Hin Ht Hclean) as (c' & Hf' & Hk').
  split; [exact Hw|]. exists d, c'. rewrite <- Hd. rewrite Hd at 2. auto.
Qed.

End PendingDownloads.

Lemma pending_downloads_spec_witness :
  let start := Some (utc 2025 9 8 0 0 0) in
  let end_ := Some (utc 2025 9 9 23 59 59) in
  exists st',
    Batch.mark_all Scenarios.join "EarthCARE" "EarthCAREL2Validated_MAAP" None
      (fun _ => None) RegistryScenario.discovered
      [Scenarios.url_sep08; Scenarios.url_sep09]
    = Return st'
    /\ Tracker.get_pending_downloads st' start end_ = ∅.
Proof.
  intros start end_.
  assert (forall d content u,
            Tracker.url_files RegistryScenario.discovered !! d = Some content ->
            In u (map fst (Registry.read_pairs (Some content))) ->
            (d = RegistryScenario.sep08 /\ u = Scenarios.url_sep08)
            \/ (d = RegistryScenario.sep09 /\ u = Scenarios.url_sep09)) as Hfiles.
  { intros d content u Hf Hu. unfold RegistryScenario.discovered in Hf. simpl in Hf.
    rewrite lookup_insert in Hf. destruct (decide (RegistryScenario.sep08 = d)) as [<-|_].
    - injection Hf as <-. vm_compute in Hu. destruct Hu as [<-|[]]. now left.
    - rewrite lookup_insert in Hf.
      destruct (decide (RegistryScenario.sep09 = d)) as [<-|_].
      + injection Hf as <-. vm_compute in Hu. destruct Hu as [<-|[]]. now right.
      + rewrite lookup_empty in Hf. discriminate. }
  destruct (Batch.mark_all Scenarios.join "EarthCARE" "EarthCAREL2Validated_MAAP" None
              (fun _ => None) RegistryScenario.discovered
              [Scenarios.url_sep08; Scenarios.url_sep09]) as [st'| |] eqn:E.
  - exists st'. split; [reflexivity|].
    apply (proj2 (pending_downloads_spec Scenarios.join "EarthCARE"
                    "EarthCAREL2Validated_MAAP" None RegistryScenario.discovered
                    start end_)
             (fun _ => None) [Scenarios.url_sep08; Scenarios.url_sep09] st').
    + intros d content u Hf Hu.
      destruct (Hfiles d content u Hf Hu) as [[-> ->]|[-> ->]].
      * split; [split; [discriminate|split; vm_compute; reflexivity]|].
        eexists. split; vm_compute; reflexivity.
      * split; [split; [discriminate|split; vm_compute; reflexivity]|].
        eexists. split; vm_compute; reflexivity.
    + intros d content Hf. simpl in Hf. rewrite lookup_empty in Hf. discriminate.
    + intros u (_ & d & content & Hf & _ & Hu).
      destruct (Hfiles d content u Hf Hu) as [[_ ->]|[_ ->]]; simpl; auto.
    + exact E.
  - vm_compute in E. discriminate.
  - vm_compute in E. discriminate.
Defined.

(** * Further properties of the code *)

(** ** File names *)

Section FileNames.
Import Paths.
Local Arguments String.append !_ _ / : simpl nomatch.

Lemma has_char_app (x : ascii) (a b : string) :
  has_char x (a ++ b)%string = has_char x a || has_char x b.
Proof.
  induction a as [|c a IH]; cbn [String.append has_char]; [reflexivity|].
  rewrite IH. now rewrite orb_assoc.
Qed.

Lemma basename_dir (dir name : string) :
  has_char "/" name = false ->
  basename (dir ++ "/" ++ name)%string = name.
Proof.
  intros Hn. induction dir as [|c dir IH]; cbn [String.append basename].
  - rewrite Hn. reflexivity.
  - rewrite has_char_app. cbn [has_char]. rewrite Ascii.eqb_refl.
    rewrite orb_true_r. exact IH.
Qed.

Lemma startswith_inv (p s : string) :
  startswith p s = true -> exists r, s = (p ++ r)%string.
Proof.
  unfold startswith. revert s. induction p as [|a p IH]; intros s H.
  - exists s. reflexivity.
  - destruct s as [|b s]; [discriminate|].
    change (String.prefix (String a p) (String b s))
      with (if ascii_dec a b then String.prefix p s else false) in H.
    destruct (ascii_dec a b) as [->|]; [|discriminate].
    destruct (IH s H) as [r ->]. exists r. reflexivity.
Qed.

(** A pattern that begins with a literal character finds nothing in a
    text without that character. *)
Lemma re_search_needs_char (c : ascii) (p : pattern) (s : string) :
  has_char c s = false -> re_search [is_char c :: p] s = None.
Proof.
  induction s as [|a s IH]; intros H; [reflexivity|].
  cbn [has_char] in H. apply orb_false_iff in H. destruct H as [Ha Hs].
  cbn [re_search match_first match_here]. unfold is_char at 1. rewrite Ha.
  apply IH, Hs.
Qed.

(** [extract_info] reads the file name only. *)
Lemma extract_info_basename (uri : string) :
  extract_info uri = extract_info (basename uri).
Proof. unfold extract_info. now rewrite basename_idempotent. Qed.

(** X1: The directory of a URL or path is ignored: for a name without a
    slash, every extractor gives on [dir/name] what it gives on [name],
    [extract_baseline] excepted, and [extract_info] gives the same record
    for both. *)
Theorem extractors_ignore_directory (dir name : string) :
  has_char "/" name = false ->
  let uri := (dir ++ "/" ++ name)%string in
  extract_sensing_time uri = extract_sensing_time name
  /\ extract_creation_time uri = extract_creation_time name
  /\ extract_product uri = extract_product name
  /\ extract_orbit_frame uri = extract_orbit_frame name
  /\ extract_agency uri = extract_agency name
  /\ extract_mission uri = extract_mission name
  /\ extract_info uri = extract_info name.
Proof.
  intros Hn uri.
  pose proof (basename_dir dir name Hn) as Hb. fold uri in Hb.
  pose proof (basename_plain name Hn) as Hp.
  unfold extract_sensing_time, extract_creation_time, extract_product,
    extract_orbit_frame, extract_agency, extract_mission, extract_info.
  rewrite Hb, Hp. repeat split; reflexivity.
Qed.

Section WithPathlib.

Context (path_div : string -> string -> string).

(** X2: The outcomes of [url_to_local_path]: it returns [None] exactly for a
    URL without sensing time; it raises [TypeError] exactly for a URL with
    a sensing time whose file name gives no product type or no baseline;
    otherwise it returns
    [data_dir/mission/collection/product/baseline/YYYY/MM/DD/filename]. *)
Theorem url_to_local_path_outcome (url data_dir mission collection : string) :
  let r := url_to_local_path path_div url data_dir mission collection in
  (r = Return None <-> extract_sensing_time url = None)
  /\ (r = Raise_TypeError
      <-> is_Some (extract_sensing_time url)
          /\ (extract_product url = None
              \/ extract_baseline (basename url) = None))
  /\ (forall dt product_type baseline,
        extract_sensing_time url = Some dt ->
        extract_product url = Some product_type ->
        extract_baseline (basename url) = Some baseline ->
        r = Return (Some
              (path_div
                 (path_div
                    (path_div
                       (path_div
                          (path_div
                             (path_div
                                (path_div (path_div data_dir mission) collection)
                                product_type)
                             baseline)
                          (format_d 4 (fst (fst (ord2ymd (date dt))))))
                       (format_d 2 (snd (fst (ord2ymd (date dt))))))
                    (format_d 2 (snd (ord2ymd (date dt)))))
                 (basename url))))
  /\ r <> Out_of_fuel.
Proof.
  intros r. subst r. unfold url_to_local_path, extract_info.
  cbn [sensing_time product_type baseline filename].
  assert (extract_sensing_time (basename url) = extract_sensing_time url) as Es.
  { unfold extract_sensing_time. now rewrite basename_idempotent. }
  assert (extract_product (basename url) = extract_product url) as Ep.
  { unfold extract_product. now rewrite basename_idempotent. }
  rewrite Es, Ep. unfold generate_data_path.
  destruct (extract_sensing_time url) as [dt|].
  2:{ split; [tauto|]. split; [split; [discriminate|intros [[? [=]] _]]|].
      split; [intros ? ? ? [=]|discriminate]. }
  destruct (ord2ymd (date dt)) as [[y m] d] eqn:Eo. cbn [fst snd].
  unfold div.
  destruct (extract_product url) as [p|], (extract_baseline (basename url)) as [b|];
    cbn [mbind mret outcome_bind outcome_ret bind].
  - split; [split; discriminate|].
    split; [split; [discriminate|intros [_ [H|H]]; discriminate]|].
    split; [|discriminate].
    intros dt' p' b' [= <-] [= <-] [= <-]. rewrite Eo. reflexivity.
  - split; [split; discriminate|].
    split; [split; [eauto|reflexivity]|].
    split; [intros ? ? ? _ _ [=]|discriminate].
  - split; [split; discriminate|].
    split; [split; [eauto|reflexivity]|].
    split; [intros ? ? ? _ [=]|discriminate].
  - split; [split; discriminate|].
    split; [split; [eauto|reflexivity]|].
    split; [intros ? ? ? _ [=]|discriminate].
Qed.

(** A file name that starts with [AE_] gives no baseline: the Aeolus
    pattern of [extract_baseline] needs the directories of the URL, and
    [extract_info] hands it the bare file name. *)
Lemma extract_info_aeolus (uri : string) :
  startswith "AE_" (basename uri) = true ->
  Paths.baseline (extract_info uri) = None
  /\ Paths.mission (extract_info uri) = Some "AE"%string
  /\ Paths.agency (extract_info uri) = Some "EX"%string.
Proof.
  intros H. unfold extract_info.
  cbn [Paths.baseline Paths.mission Paths.agency].
  unfold extract_baseline, extract_mission, extract_agency.
  rewrite !basename_idempotent. rewrite H.
  pose proof (basename_no_slash uri) as Hs.
  destruct (startswith_inv _ _ H) as [r Hr]. rewrite Hr in *.
  split; [|split].
  - change (match_here _ _) with (@None string). cbv iota.
    assert (re_search [pat_aeolus_path] ("AE_" ++ r) = None) as ->; [|reflexivity].
    exact (re_search_needs_char "/"
             (lit_ci "ALD" ++ lit "_"
              ++ [fun c => is_char_ci "U" c || is_char_ci "C" c] ++ lit "_"
              ++ lit_ci "N" ++ lit "_" ++ [is_digit]
              ++ [fun c => is_char_ci "A" c || is_char_ci "B" c]
              ++ lit "/" ++ rep 4 is_alnum ++ lit "/" ++ rep 4 is_digit ++ lit "/")
             _ Hs).
  - reflexivity.
  - reflexivity.
Qed.

(** X3: For every URL whose file name starts with [AE_], [extract_info]
    reports the mission [AE], the agency [EX] and no baseline; when the
    name carries a sensing time, [url_to_local_path] raises [TypeError],
    and so does [mark_downloaded] with a data directory and without a
    local path. *)
Theorem aeolus_url_has_no_local_path
    (uri data_dir mission_name collection : string) (st : Tracker.registry_state) :
  startswith "AE_" (basename uri) = true ->
  Paths.baseline (extract_info uri) = None
  /\ Paths.mission (extract_info uri) = Some "AE"%string
  /\ Paths.agency (extract_info uri) = Some "EX"%string
  /\ (is_Some (extract_sensing_time uri) ->
      url_to_local_path path_div uri data_dir mission_name collection
      = Raise_TypeError
      /\ Tracker.mark_downloaded path_div mission_name collection (Some data_dir)
           st uri None
         = Raise_TypeError).
Proof.
  intros H. destruct (extract_info_aeolus uri H) as (Hb & Hm & Ha).
  split; [exact Hb|]. split; [exact Hm|]. split; [exact Ha|].
  intros [dt Hdt].
  assert (url_to_local_path path_div uri data_dir mission_name collection
          = Raise_TypeError) as Hraise.
  { unfold url_to_local_path. rewrite Hb.
    assert (sensing_time (extract_info uri) = Some dt) as ->.
    { unfold extract_info. cbn [sensing_time].
      unfold extract_sensing_time in *. now rewrite basename_idempotent. }
    unfold generate_data_path. destruct (ord2ymd (date dt)) as [[y m] d].
    unfold div. destruct (Paths.product_type (extract_info uri)); reflexivity. }
  split; [exact Hraise|].
  unfold Tracker.mark_downloaded. rewrite Hdt, Hraise. reflexivity.
Qed.

End WithPathlib.

End FileNames.

Lemma extractors_ignore_directory_witness :
  let name := "ECA_EXBC_BM__RAD_2B_20250908T232505Z_20250909T010458Z_07282E.h5"%string in
  Paths.has_char "/" name = false
  /\ Paths.extract_info Scenarios.url_sep08 = Paths.extract_info name.
Proof.
  split; [reflexivity|].
  apply (extractors_ignore_directory "https://catalog.example/EarthCARE"
           "ECA_EXBC_BM__RAD_2B_20250908T232505Z_20250909T010458Z_07282E.h5").
  reflexivity.
Defined.

Lemma aeolus_url_has_no_local_path_witness :
  Paths.startswith "AE_" (Paths.basename Scenarios.url_aeolus) = true
  /\ Paths.extract_baseline Scenarios.url_aeolus = Some "1B16"%string
  /\ Paths.baseline (Paths.extract_info Scenarios.url_aeolus) = None
  /\ Paths.url_to_local_path Scenarios.join Scenarios.url_aeolus "/data" "Aeolus"
       "AeolusL1BProducts"
     = Raise_TypeError.
Proof.
  split; [vm_compute; reflexivity|]. split; [vm_compute; reflexivity|].
  destruct (aeolus_url_has_no_local_path Scenarios.join Scenarios.url_aeolus "/data"
              "Aeolus" "AeolusL1BProducts" RegistryScenario.discovered)
    as (Hb & _ & _ & Hr); [vm_compute; reflexivity|].
  split; [exact Hb|]. apply Hr. vm_compute. eauto.
Defined.

(** ** Sensing times read from file names *)

Section SensingTimes.
Import Paths.

(** What a fixed-width pattern matched is matched by it as a whole. *)
Lemma match_here_self (p : pattern) (s m : string) :
  match_here p s = Some m -> match_here p m = Some m.
Proof.
  revert s m. induction p as [|cls p IH]; intros s m H; cbn [match_here] in *.
  - injection H as <-. reflexivity.
  - destruct s as [|c s]; [discriminate|].
    destruct (cls c) eqn:Hc; [|discriminate].
    destruct (match_here p s) as [m'|] eqn:Hm; [|discriminate].
    injection H as <-. rewrite Hc. now rewrite (IH s m' Hm).
Qed.

Lemma match_first_In (ps : list pattern) (s m : string) :
  match_first ps s = Some m -> exists p, In p ps /\ match_here p m = Some m.
Proof.
  induction ps as [|p ps IH]; cbn [match_first]; [discriminate|].
  destruct (match_here p s) as [m'|] eqn:Hm.
  - intros [= <-]. exists p. split; [now left|]. eapply match_here_self, Hm.
  - intros H. destruct (IH H) as (q & Hq & Hmq). exists q. split; [now right|exact Hmq].
Qed.

Lemma re_search_In (ps : list pattern) (s m : string) :
  re_search ps s = Some m -> exists p, In p ps /\ match_here p m = Some m.
Proof.
  induction s as [|c s IH]; cbn [re_search].
  - destruct (match_first ps "") as [m'|] eqn:Hm; [|discriminate].
    intros [= <-]. eapply match_first_In, Hm.
  - destruct (match_first ps (String c s)) as [m'|] eqn:Hm.
    + intros [= <-]. eapply match_first_In, Hm.
    + exact IH.
Qed.

Lemma match_here_cons_inv (cls : ascii -> bool) (p : pattern) (m : string) :
  match_here (cls :: p) m = Some m ->
  exists c m', m = String c m' /\ cls c = true /\ match_here p m' = Some m'.
Proof.
  cbn [match_here]. destruct m as [|c m]; [discriminate|].
  destruct (cls c) eqn:Hc; [|discriminate].
  destruct (match_here p m) as [m'|] eqn:Hm; [|discriminate].
  intros [= <-]. eauto.
Qed.

Lemma match_here_nil_inv (m : string) : match_here [] m = Some m -> m = EmptyString.
Proof. cbn [match_here]. now intros [= <-]. Qed.

Lemma is_digit_val (c : ascii) : is_digit c = true -> 0 <= digit_val c <= 9.
Proof.
  unfold is_digit, char_between, digit_val. intros H.
  apply andb_true_iff in H. destruct H as [H1 H2].
  apply Nat.leb_le in H1, H2.
  change (nat_of_ascii "0") with 48%nat in H1.
  change (nat_of_ascii "9") with 57%nat in H2. lia.
Qed.

Lemma is_leap_mod4 (y : Z) : is_leap y = true -> y mod 4 = 0.
Proof.
  unfold is_leap. intros H. apply andb_true_iff in H. destruct H as [H _].
  now apply Z.eqb_eq in H.
Qed.

(** A valid calendar date lies between 0001-01-01 and 9999-12-31. *)
Lemma valid_ymd_range (y m d : Z) :
  valid_ymd y m d = true -> ymd2ord 1 1 1 <= ymd2ord y m d <= ymd2ord 9999 12 31.
Proof.
  unfold valid_ymd. intros H.
  repeat (apply andb_true_iff in H; destruct H as [H ?]).
  repeat match goal with
         | H : (_ <=? _) = true |- _ => apply Z.leb_le in H
         end.
  change (ymd2ord 1 1 1) with 1. change (ymd2ord 9999 12 31) with 3652059.
  unfold ymd2ord, days_before_year, days_before_month.
  assert (m = 1 \/ m = 2 \/ m = 3 \/ m = 4 \/ m = 5 \/ m = 6 \/ m = 7 \/ m = 8
          \/ m = 9 \/ m = 10 \/ m = 11 \/ m = 12) as Hm by lia.
  assert (is_leap y = true -> y <= 9996) as Hleap.
  { intros Hl. apply is_leap_mod4 in Hl.
    Z.to_euclidean_division_equations. lia. }
  repeat (destruct Hm as [->|Hm]); [..|subst m];
    match goal with
    | |- context [Z.to_nat ?e] =>
        let v := eval vm_compute in (Z.to_nat e) in change (Z.to_nat e) with v
    end;
    cbn [days_before_month_nat];
    repeat match goal with
           | |- context [Z.of_nat ?k] =>
               let v := eval vm_compute in (Z.of_nat k) in change (Z.of_nat k) with v
           end;
    unfold days_in_month in *;
    cbn [Z.eqb Pos.eqb orb] in *;
    destruct (is_leap y); try specialize (Hleap eq_refl);
    Z.to_euclidean_division_equations; lia.
Qed.

Lemma strptime_date_range (s : string) (d : Z) :
  strptime_date s = Some d -> ymd2ord 1 1 1 <= d <= ymd2ord 9999 12 31.
Proof.
  unfold strptime_date.
  destruct (valid_ymd _ _ _) eqn:E; [|discriminate].
  intros [= <-]. now apply valid_ymd_range.
Qed.

Local Ltac bool_to_prop :=
  repeat match goal with
         | H : _ || _ = true |- _ => apply orb_true_iff in H
         | H : _ || _ = false |- _ => apply orb_false_iff in H; destruct H
         | H : _ && _ = true |- _ => apply andb_true_iff in H; destruct H
         | H : _ && _ = false |- _ => apply andb_false_iff in H
         | H : (_ <=? _) = true |- _ => apply Z.leb_le in H
         | H : (_ <=? _) = false |- _ => apply Z.leb_gt in H
         | H : (_ =? _) = true |- _ => apply Z.eqb_eq in H
         | H : (_ =? _) = false |- _ => apply Z.eqb_neq in H
         end.

Lemma strptime_hms_range (c1 c2 c3 c4 c5 c6 : ascii) (t : Z) :
  is_digit c1 = true -> is_digit c2 = true -> is_digit c3 = true ->
  is_digit c4 = true -> is_digit c5 = true -> is_digit c6 = true ->
  strptime_hms
    (String c1 (String c2 (String c3 (String c4 (String c5 (String c6 ""))))))
  = Some t ->
  0 <= t < US_PER_DAY.
Proof.
  intros H1 H2 H3 H4 H5 H6.
  apply is_digit_val in H1, H2, H3, H4, H5, H6.
  unfold strptime_hms, int_of, digits, num.
  cbn [substring list_ascii_of_string map fold_left].
  destruct (_ && _) eqn:E; [|discriminate]. intros [= <-].
  bool_to_prop. unfold US_PER_DAY, US_PER_SECOND. lia.
Qed.

Lemma strptime_hmsf_range (c1 c2 c3 c4 c5 c6 c7 c8 c9 : ascii) (t : Z) :
  is_digit c1 = true -> is_digit c2 = true -> is_digit c3 = true ->
  is_digit c4 = true -> is_digit c5 = true -> is_digit c6 = true ->
  is_digit c7 = true -> is_digit c8 = true -> is_digit c9 = true ->
  strptime_hmsf
    (String c1 (String c2 (String c3 (String c4 (String c5 (String c6
       (String c7 (String c8 (String c9 "")))))))))
  = Some t ->
  0 <= t < US_PER_DAY.
Proof.
  intros H1 H2 H3 H4 H5 H6 H7 H8 H9.
  apply is_digit_val in H1, H2, H3, H4, H5, H6, H7, H8, H9.
  unfold strptime_hmsf, digits. cbn [list_ascii_of_string map].
  cbn [take_field].
  destruct ((digit_val c1 <=? 1) || (digit_val c1 =? 2) && (digit_val c2 <=? 3))
    eqn:E1; cbn [take_field];
    match goal with
    | |- context [if ?c then (_, _) else _] => destruct c eqn:E2
    end; cbn [take_field];
    match goal with
    | |- context [if ?c then (_, _) else _] => destruct c eqn:E3
    end;
    unfold num; cbn [length Nat.sub replicate app fold_left];
    (destruct (_ <=? 59) eqn:E4; [|discriminate]); intros [= <-];
    bool_to_prop; unfold US_PER_DAY, US_PER_SECOND; lia.
Qed.

Local Ltac invert_match H :=
  repeat (apply match_here_cons_inv in H; destruct H as (? & ? & -> & ? & H));
  apply match_here_nil_inv in H; subst.

Local Ltac unfold_pattern H :=
  cbv [pat_sensing_ms pat_sensing_s pat_stamp d8 lit rep replicate
       list_ascii_of_string map app] in H.

Lemma mk_utc_valid (day time : option Z) (t : datetime) :
  mk_utc day time = Some t ->
  (forall d, day = Some d -> ymd2ord 1 1 1 <= d <= ymd2ord 9999 12 31) ->
  (forall x, time = Some x -> 0 <= x < US_PER_DAY) ->
  is_utc t /\ wf_datetime t /\ ymd2ord 1 1 1 <= date t <= ymd2ord 9999 12 31.
Proof.
  destruct day as [d|], time as [x|]; try discriminate.
  intros [= <-] Hd Hx. specialize (Hd d eq_refl). specialize (Hx x eq_refl).
  unfold is_utc, wf_datetime, date. cbn [dt_utcoffset dt_time dt_date].
  unfold US_PER_DAY, US_PER_SECOND in *. lia.
Qed.

Lemma sensing_ms_valid (f : string) (t : datetime) :
  match re_search [pat_sensing_ms] f with
  | Some m =>
      mk_utc (strptime_date (substring 0 8 (substring 1 18 m)))
             (strptime_hmsf (substring 9 9 (substring 1 18 m)))
  | None => None
  end = Some t ->
  is_utc t /\ wf_datetime t /\ ymd2ord 1 1 1 <= date t <= ymd2ord 9999 12 31.
Proof.
  destruct (re_search [pat_sensing_ms] f) as [m|] eqn:E; [|discriminate].
  apply re_search_In in E. destruct E as (p & [<-|[]] & Hm).
  unfold_pattern Hm. invert_match Hm.
  cbn [substring]. intros Hutc. apply (mk_utc_valid _ _ _ Hutc).
  - intros ?. apply strptime_date_range.
  - intros ?. apply strptime_hmsf_range; assumption.
Qed.

Lemma sensing_s_valid (f : string) (t : datetime) :
  match re_search pat_sensing_s f with
  | Some m =>
      mk_utc (strptime_date (substring 0 8 (substring 1 15 m)))
             (strptime_hms (substring 9 6 (substring 1 15 m)))
  | None => None
  end = Some t ->
  is_utc t /\ wf_datetime t /\ ymd2ord 1 1 1 <= date t <= ymd2ord 9999 12 31.
Proof.
  destruct (re_search pat_sensing_s f) as [m|] eqn:E; [|discriminate].
  apply re_search_In in E. destruct E as (p & Hp & Hm).
  unfold pat_sensing_s in Hp. destruct Hp as [<-|[<-|[]]];
    unfold_pattern Hm; invert_match Hm;
    cbn [substring]; intros Hutc; apply (mk_utc_valid _ _ _ Hutc);
    try (intros ?; apply strptime_date_range);
    intros ?; apply strptime_hms_range; assumption.
Qed.


End SensingTimes.


(** ** Sorting search results *)

Section SortUrls.
Import Paths Search Orders.

Lemma sort_urls_without_keys (urls : list string) :
  (forall v, In v urls -> sort_key v = None) -> _sort_urls urls = Return urls.
Proof.
  induction urls as [|u urls IH]; intros Hk; [reflexivity|].
  cbn [_sort_urls]. rewrite IH by (intros v Hv; apply Hk; now right).
  cbn [mbind outcome_bind bind].
  destruct urls as [|v urls']; [reflexivity|].
  cbn [insert_url].
  rewrite (Hk u (or_introl eq_refl)), (Hk v (or_intror (or_introl eq_refl))).
  reflexivity.
Qed.

Lemma keys_all_or_one_missing (urls : list string) :
  (forall v, In v urls -> is_Some (sort_key v))
  \/ (exists w, In w urls /\ sort_key w = None).
Proof.
  induction urls as [|u urls [IH|(w & Hw & Hn)]].
  - left. intros v [].
  - destruct (sort_key u) as [k|] eqn:Hu.
    + left. intros v [<-|Hv]; [rewrite Hu; eauto|now apply IH].
    + right. exists u. split; [now left|exact Hu].
  - right. exists w. split; [now right|exact Hn].
Qed.

Lemma keys_none_or_one_present (urls : list string) :
  (forall v, In v urls -> sort_key v = None)
  \/ (exists w, In w urls /\ is_Some (sort_key w)).
Proof.
  induction urls as [|u urls [IH|(w & Hw & Hn)]].
  - left. intros v [].
  - destruct (sort_key u) as [k|] eqn:Hu.
    + right. exists u. split; [now left|rewrite Hu; eauto].
    + left. intros v [<-|Hv]; [exact Hu|now apply IH].
  - right. exists w. split; [now right|exact Hn].
Qed.

(** A URL without sensing time next to one with a sensing time makes the
    sort compare [datetime.min] with a datetime that has a time zone. *)
Lemma sort_urls_mixed (urls : list string) (u v : string) :
  In u urls -> In v urls -> sort_key u = None -> is_Some (sort_key v) ->
  _sort_urls urls = Raise_TypeError.
Proof.
  revert u v. induction urls as [|a rest IH]; intros u v Hu Hv Hnone Hsome;
    [destruct Hu|].
  cbn [_sort_urls].
  destruct (keys_all_or_one_missing rest) as [Hall|(w & Hw & Hwn)];
    destruct (keys_none_or_one_present rest) as [Hno|(w' & Hw' & Hws)].
  - destruct rest as [|b rest']; [|destruct (Hall b (or_introl eq_refl)) as [? E];
                                    rewrite (Hno b (or_introl eq_refl)) in E;
                                    discriminate].
    destruct Hu as [<-|[]], Hv as [<-|[]]. rewrite Hnone in Hsome.
    destruct Hsome as [? [=]].
  - destruct (sort_urls_sorted rest Hall) as (r & Hr & Hp). rewrite Hr.
    cbn [mbind outcome_bind bind].
    destruct (sort_key a) as [ka|] eqn:Ha.
    + exfalso. destruct Hu as [<-|Hu]; [rewrite Ha in Hnone; discriminate|].
      destruct (Hall u Hu) as [? E]. rewrite Hnone in E. discriminate.
    + destruct r as [|h r'].
      { apply Permutation_nil in Hp. subst. destruct Hw'. }
      cbn [insert_url]. rewrite Ha.
      destruct (Hall h) as [kh Hh]; [apply (Permutation_in _ Hp); now left|].
      rewrite Hh. reflexivity.
  - rewrite (sort_urls_without_keys rest Hno).
    cbn [mbind outcome_bind bind].
    destruct (sort_key a) as [ka|] eqn:Ha.
    + destruct rest as [|h r']; [destruct Hw|].
      cbn [insert_url]. rewrite Ha, (Hno h (or_introl eq_refl)). reflexivity.
    + exfalso. destruct Hv as [<-|Hv]; [rewrite Ha in Hsome; destruct Hsome as [? [=]]|].
      rewrite (Hno v Hv) in Hsome. destruct Hsome as [? [=]].
  - rewrite (IH w w' Hw Hw' Hwn Hws). reflexivity.
Qed.

(** X5: [_sort_urls] returns the URLs in the order of their sensing times
    when every URL has one, returns the list as it is when none has one,
    and raises [TypeError] when the list has a URL with a sensing time and
    one without. *)
Theorem sort_urls_outcome (urls : list string) :
  ((forall v, In v urls -> is_Some (sort_key v)) ->
   exists r, _sort_urls urls = Return r
             /\ Permutation r urls
             /\ StronglySorted (fun a b => key_instant a <= key_instant b) r)
  /\ ((forall v, In v urls -> sort_key v = None) -> _sort_urls urls = Return urls)
  /\ (forall u v, In u urls -> In v urls ->
        sort_key u = None -> is_Some (sort_key v) ->
        _sort_urls urls = Raise_TypeError).
Proof.
  split; [|split].
  - intros Hk. destruct (sort_urls_sorted urls Hk) as (r & Hr & Hp).
    exists r. split; [exact Hr|]. split; [exact Hp|].
    now apply (sort_urls_strongly_sorted urls r).
  - apply sort_urls_without_keys.
  - apply sort_urls_mixed.
Qed.

End SortUrls.

(** ** Deduplication *)

Section Dedup.
Import Paths Search DedupKeys.

Local Abbreviation entry := (dedup_key * (string * datetime))%type.
Local Abbreviation entry_key := (fun e : entry => key_repr (fst e)).

Lemma dedup_key_eqb_repr (k key : dedup_key) :
  dedup_key_eqb k key = true <-> key_repr k = key_repr key.
Proof.
  unfold dedup_key_eqb, key_repr, dt_eqb. rewrite andb_true_iff, String.eqb_eq, Z.eqb_eq.
  split; [intros [-> ->]; reflexivity|intros [= -> ->]; auto].
Qed.

Lemma dedup_put_In (key : dedup_key) (url : string) (ct : datetime) (d : list entry)
    (k : dedup_key) (u : string) (c : datetime) :
  In (k, (u, c)) (dedup_put key url ct d) ->
  In (k, (u, c)) d \/ (u = url /\ c = ct /\ key_repr k = key_repr key).
Proof.
  induction d as [|[k0 [u0 c0]] d IH]; cbn [dedup_put].
  - intros [[= <- <- <-]|[]]. right. auto.
  - destruct (dedup_key_eqb k0 key) eqn:E.
    + apply dedup_key_eqb_repr in E.
      destruct (dt_ltb ct c0).
      * intros [[= <- <- <-]|H]; [right; auto|left; now right].
      * intros [H|H]; left; [now left|now right].
    + intros [H|H]; [left; now left|].
      destruct (IH H) as [H'|H']; [left; now right|right; exact H'].
Qed.

Lemma dedup_put_keys (key : dedup_key) (url : string) (ct : datetime) (d : list entry) :
  map entry_key (dedup_put key url ct d)
  = if existsb (fun e : entry => dedup_key_eqb (fst e) key) d
    then map entry_key d
    else map entry_key d ++ [key_repr key].
Proof.
  induction d as [|[k0 [u0 c0]] d IH]; cbn [dedup_put existsb map fst]; [reflexivity|].
  destruct (dedup_key_eqb k0 key) eqn:E; cbn [orb].
  - destruct (dt_ltb ct c0); reflexivity.
  - cbn [map fst]. rewrite IH. destruct (existsb _ d); reflexivity.
Qed.

Lemma dedup_put_NoDup (key : dedup_key) (url : string) (ct : datetime) (d : list entry) :
  List.NoDup (map entry_key d) ->
  List.NoDup (map entry_key (dedup_put key url ct d)).
Proof.
  intros Hnd. rewrite dedup_put_keys.
  destruct (existsb _ d) eqn:E; [exact Hnd|].
  apply NoDup_ListNoDup. apply NoDup_app. split; [now apply NoDup_ListNoDup|].
  split; [|apply NoDup_singleton].
  intros x Hx Hx'. apply list_elem_of_singleton in Hx'. subst x.
  apply list_elem_of_In, in_map_iff in Hx. destruct Hx as (e & He & Hin).
  assert (existsb (fun e : entry => dedup_key_eqb (fst e) key) d = true) as E'.
  { apply existsb_exists. exists e. split; [exact Hin|].
    now apply dedup_key_eqb_repr. }
  congruence.
Qed.

Lemma dedup_put_keeps (key : dedup_key) (url : string) (ct : datetime) (d : list entry)
    (k : dedup_key) (u : string) (c : datetime) :
  In (k, (u, c)) d ->
  exists u' c', In (k, (u', c')) (dedup_put key url ct d)
                /\ utc_instant c' <= utc_instant c.
Proof.
  induction d as [|[k0 [u0 c0]] d IH]; intros Hin; [destruct Hin|].
  cbn [dedup_put]. destruct Hin as [[= -> -> ->]|Hin].
  - destruct (dedup_key_eqb k key).
    + destruct (dt_ltb ct c) eqn:E.
      * apply dt_ltb_lt in E. exists url, ct. split; [now left|lia].
      * exists u, c. split; [now left|lia].
    + exists u, c. split; [now left|lia].
  - destruct (dedup_key_eqb k0 key).
    + exists u, c. split; [|lia].
      destruct (dt_ltb ct c0); now right.
    + destruct (IH Hin) as (u' & c' & H' & Hle). exists u', c'.
      split; [now right|exact Hle].
Qed.

Lemma dedup_put_adds (key : dedup_key) (url : string) (ct : datetime) (d : list entry) :
  exists k u' c', In (k, (u', c')) (dedup_put key url ct d)
                  /\ key_repr k = key_repr key
                  /\ utc_instant c' <= utc_instant ct.
Proof.
  induction d as [|[k0 [u0 c0]] d IH]; cbn [dedup_put].
  - exists key, url, ct. split; [now left|]. split; [reflexivity|lia].
  - destruct (dedup_key_eqb k0 key) eqn:E.
    + apply dedup_key_eqb_repr in E. destruct (dt_ltb ct c0) eqn:E'.
      * exists k0, url, ct. split; [now left|]. split; [exact E|lia].
      * apply dt_ltb_ge in E'. exists k0, u0, c0. split; [now left|]. auto.
    + destruct IH as (k & u' & c' & H' & Hk & Hle). exists k, u', c'.
      split; [now right|]. auto.
Qed.

(** What the dictionary [urls_by_key] holds once the URLs [seen] have
    gone through the loop of [_dedup_urls]. *)
Lemma dedup_loop_invariant (urls seen : list string) (d : list entry) :
  (forall k u c, In (k, (u, c)) d ->
     In u seen /\ url_key u = (Some (fst k), Some (utc_instant (snd k)))
     /\ fst k <> EmptyString /\ extract_creation_time u = Some c) ->
  List.NoDup (map entry_key d) ->
  (forall u b s c, In u seen ->
     extract_baseline u = Some b -> b <> EmptyString ->
     extract_sensing_time u = Some s -> extract_creation_time u = Some c ->
     exists k u' c', In (k, (u', c')) d /\ key_repr k = (b, utc_instant s)
                     /\ utc_instant c' <= utc_instant c) ->
  let d' :=
    fold_left
      (fun d url =>
         match extract_baseline url, extract_sensing_time url,
               extract_creation_time url with
         | Some baseline, Some sensing_time, Some creation_time =>
             if String.eqb baseline "" then d
             else dedup_put (baseline, sensing_time) url creation_time d
         | _, _, _ => d
         end)
      urls d in
  (forall k u c, In (k, (u, c)) d' ->
     In u (seen ++ urls) /\ url_key u = (Some (fst k), Some (utc_instant (snd k)))
     /\ fst k <> EmptyString /\ extract_creation_time u = Some c)
  /\ List.NoDup (map entry_key d')
  /\ (forall u b s c, In u (seen ++ urls) ->
        extract_baseline u = Some b -> b <> EmptyString ->
        extract_sensing_time u = Some s -> extract_creation_time u = Some c ->
        exists k u' c', In (k, (u', c')) d' /\ key_repr k = (b, utc_instant s)
                        /\ utc_instant c' <= utc_instant c).
Proof.
  revert seen d. induction urls as [|url urls IH]; intros seen d Hs Hn Hc.
  - cbn [fold_left]. rewrite app_nil_r. auto.
  - cbn [fold_left].
    replace (seen ++ url :: urls) with ((seen ++ [url]) ++ urls)
      by (rewrite <- app_assoc; reflexivity).
    apply IH.
    + intros k u c Hin.
      destruct (extract_baseline url) as [b|] eqn:Eb;
        [destruct (extract_sensing_time url) as [s|] eqn:Es;
         [destruct (extract_creation_time url) as [ct|] eqn:Ec;
          [destruct (String.eqb_spec b "") as [->|Hb]|]|]|].
      2:{ apply dedup_put_In in Hin. destruct Hin as [Hin|(-> & -> & Hk)].
          - destruct (Hs k u c Hin) as (H1 & H2). split; [|exact H2].
            apply in_or_app. now left.
          - split; [apply in_or_app; right; now left|].
            unfold key_repr in Hk. cbn [fst snd] in Hk. injection Hk as Hk1 Hk2.
            unfold url_key. rewrite Eb, Es. cbn [option_map].
            rewrite Hk1, Hk2. repeat split; [congruence|exact Ec]. }
      all: destruct (Hs k u c Hin) as (H1 & H2); split; [|exact H2];
        apply in_or_app; now left.
    + destruct (extract_baseline url) as [b|];
        [destruct (extract_sensing_time url) as [s|];
         [destruct (extract_creation_time url) as [ct|];
          [destruct (String.eqb b "")|]|]|]; try exact Hn.
      now apply dedup_put_NoDup.
    + intros u b s c Hin Hb Hne Hse Hcr.
      apply in_app_or in Hin. destruct Hin as [Hin|[<-|[]]].
      * destruct (Hc u b s c Hin Hb Hne Hse Hcr) as (k & u' & c' & Hk & Hr & Hle).
        destruct (extract_baseline url) as [b0|];
          [destruct (extract_sensing_time url) as [s0|];
           [destruct (extract_creation_time url) as [ct|];
            [destruct (String.eqb b0 "")|]|]|]; try (exists k, u', c'; now auto).
        destruct (dedup_put_keeps (b0, s0) url ct d k u' c' Hk) as (u2 & c2 & H2 & Hle2).
        exists k, u2, c2. split; [exact H2|]. split; [exact Hr|lia].
      * rewrite Hb, Hse, Hcr.
        destruct (String.eqb_spec b "") as [->|_]; [contradiction|].
        destruct (dedup_put_adds (b, s) url c d) as (k & u' & c' & H' & Hk & Hle).
        exists k, u', c'. auto.
Qed.

Lemma dedup_urls_In (urls : list string) (u : string) :
  In u (_dedup_urls urls) -> In u urls.
Proof.
  unfold _dedup_urls.
  destruct (dedup_loop_invariant urls [] []) as (Hs & _).
  { intros k u0 c []. }
  { constructor. }
  { intros u0 b s c []. }
  cbn [app] in Hs. intros Hu. apply in_map_iff in Hu.
  destruct Hu as ([k [u' c]] & <- & Hin). now destruct (Hs k u' c Hin).
Qed.

(** X6: [_dedup_urls] keeps URLs of its input that have a non-empty baseline,
    a sensing time and a creation time; no two of the kept URLs have the
    same baseline and the same sensing instant; and every such URL of the
    input is represented by a kept URL with its baseline and sensing
    instant and a creation time that is not later. *)
Theorem dedup_urls_spec (urls : list string) :
  (forall u, In u (_dedup_urls urls) ->
     In u urls
     /\ exists b s c,
          extract_baseline u = Some b /\ b <> EmptyString
          /\ extract_sensing_time u = Some s /\ extract_creation_time u = Some c)
  /\ List.NoDup (map url_key (_dedup_urls urls))
  /\ (forall u b s c, In u urls ->
        extract_baseline u = Some b -> b <> EmptyString ->
        extract_sensing_time u = Some s -> extract_creation_time u = Some c ->
        exists u' c',
          In u' (_dedup_urls urls) /\ url_key u' = url_key u
          /\ extract_creation_time u' = Some c'
          /\ utc_instant c' <= utc_instant c).
Proof.
  unfold _dedup_urls.
  destruct (dedup_loop_invariant urls [] []) as (Hs & Hn & Hc).
  { intros k u c []. }
  { constructor. }
  { intros u b s c []. }
  cbn [app] in Hs, Hc.
  set (d := fold_left _ urls []) in *.
  split; [|split].
  - intros u Hu. apply in_map_iff in Hu. destruct Hu as ([k [u' c]] & <- & Hin).
    cbn [fst snd]. destruct (Hs k u' c Hin) as (H1 & H2 & H3 & H4).
    split; [exact H1|]. unfold url_key in H2.
    destruct (extract_sensing_time u') as [s|]; [|discriminate].
    injection H2 as H2 _. exists (fst k), s, c. auto.
  - assert (map url_key (map (fun kv : entry => fst (snd kv)) d)
            = map (fun x : string * Z => (Some (fst x), Some (snd x))) (map entry_key d))
      as ->.
    { rewrite !map_map. apply map_ext_in. intros [k [u c]] Hin. cbn [fst snd].
      destruct (Hs k u c Hin) as (_ & H2 & _). exact H2. }
    apply NoDup_ListNoDup. apply NoDup_fmap_2; [|now apply NoDup_ListNoDup].
    intros [a1 z1] [a2 z2] [= -> ->]. reflexivity.
  - intros u b s c Hin Hb Hne Hse Hcr.
    destruct (Hc u b s c Hin Hb Hne Hse Hcr) as (k & u' & c' & Hk & Hr & Hle).
    exists u', c'. destruct (Hs k u' c' Hk) as (_ & H2 & _ & H4).
    split; [apply in_map_iff; exists (k, (u', c')); auto|].
    split; [|auto].
    rewrite H2. unfold url_key. rewrite Hb, Hse. cbn [option_map].
    unfold key_repr in Hr. injection Hr as -> ->. reflexivity.
Qed.

End Dedup.

(** ** Cleaned results and time-bounded searches *)

Section CleanResults.
Import Paths Utils DayRanges Search Orders.

Lemma filtered_have_keys (items : list string) (start end_ : option datetime) :
  is_Some start \/ is_Some end_ ->
  forall v, In v (filter_by_sensing_time items start end_) -> is_Some (sort_key v).
Proof.
  intros Hb v Hv. apply filter_by_sensing_time_In in Hv; [|exact Hb].
  destruct Hv as (_ & t & Ht & _). unfold sort_key. rewrite Ht. eauto.
Qed.

(** X7: With a bound given the post-filter leaves only URLs with a sensing
    time, so the sort that follows does not raise: the call returns URLs of
    the search result whose sensing times lie within the bounds, and, when
    no deduplication applies, all of them, in the order of their sensing
    times. *)
Theorem clean_search_results_bounded
    (search : item_search) (product_type : string)
    (start end_ : option datetime) (dedup : bool) (format : option string) :
  is_Some start \/ is_Some end_ ->
  exists urls,
    _clean_search_results search product_type start end_ dedup format = Return urls
    /\ (forall u, In u urls ->
          In u (_extract_enclosures search format)
          /\ exists t, extract_sensing_time u = Some t
                       /\ in_bounds start end_ t = true)
    /\ (dedup && existsb (String.eqb product_type) DEDUP_PRODUCTS = false ->
        Permutation urls
          (filter_by_sensing_time (_extract_enclosures search format) start end_)
        /\ StronglySorted (fun a b => key_instant a <= key_instant b) urls).
Proof.
  intros Hb. unfold _clean_search_results.
  set (found := filter_by_sensing_time (_extract_enclosures search format) start end_).
  pose proof (filtered_have_keys (_extract_enclosures search format) start end_ Hb)
    as Hk. fold found in Hk.
  destruct (sort_urls_sorted found Hk) as (r & Hr & Hp). rewrite Hr.
  cbn [mbind outcome_bind bind].
  assert (forall u, In u r ->
            In u (_extract_enclosures search format)
            /\ exists t, extract_sensing_time u = Some t
                         /\ in_bounds start end_ t = true) as Hin.
  { intros u Hu. apply (Permutation_in _ Hp) in Hu.
    now apply filter_by_sensing_time_In in Hu. }
  destruct (dedup && existsb (String.eqb product_type) DEDUP_PRODUCTS) eqn:E.
  - eexists. split; [reflexivity|]. split; [|discriminate].
    intros u Hu. apply Hin. now apply dedup_urls_In in Hu.
  - exists r. split; [reflexivity|]. split; [exact Hin|]. intros _.
    split; [exact Hp|]. now apply (sort_urls_strongly_sorted found r).
Qed.

Lemma clean_search_results_returns
    (search : item_search) (product_type : string)
    (start end_ : option datetime) (dedup : bool) (format : option string) :
  is_Some start \/ is_Some end_ ->
  exists urls,
    _clean_search_results search product_type start end_ dedup format = Return urls
    /\ (forall u, In u urls ->
          exists t, extract_sensing_time u = Some t
                    /\ in_bounds start end_ t = true).
Proof.
  intros Hb. unfold _clean_search_results.
  set (found := filter_by_sensing_time (_extract_enclosures search format) start end_).
  pose proof (filtered_have_keys (_extract_enclosures search format) start end_ Hb)
    as Hk. fold found in Hk.
  destruct (sort_urls_sorted found Hk) as (r & Hr & Hp). rewrite Hr.
  cbn [mbind outcome_bind bind].
  assert (forall u, In u r ->
            exists t, extract_sensing_time u = Some t
                      /\ in_bounds start end_ t = true) as Hin.
  { intros u Hu. apply (Permutation_in _ Hp) in Hu.
    apply filter_by_sensing_time_In in Hu; [tauto|exact Hb]. }
  destruct (dedup && existsb (String.eqb product_type) DEDUP_PRODUCTS).
  - eexists. split; [reflexivity|].
    intros u Hu. apply Hin. now apply dedup_urls_In in Hu.
  - exists r. split; [reflexivity|exact Hin].
Qed.

(** *** The resolved range *)

Lemma dt_max_idempotent (a b : datetime) : dt_max (dt_max a b) b = dt_max a b.
Proof.
  unfold dt_max. destruct (dt_ltb a b) eqn:E; [|now rewrite E].
  destruct (dt_ltb b b) eqn:E'; [|reflexivity]. reflexivity.
Qed.

Lemma dt_min_idempotent (a c : datetime) : dt_min (dt_min a c) c = dt_min a c.
Proof.
  unfold dt_min. destruct (dt_ltb c a) eqn:E; [|now rewrite E].
  destruct (dt_ltb c c) eqn:E'; reflexivity.
Qed.

Lemma normalize_time_range_idempotent
    (now mission_start mission_end : datetime) (start end_ : option datetime) :
  let r := normalize_time_range now start end_ mission_start mission_end in
  normalize_time_range now (Some (fst r)) (Some (snd r)) mission_start mission_end = r.
Proof.
  unfold normalize_time_range. cbv zeta. cbn [fst snd from_option id].
  now rewrite dt_max_idempotent, dt_min_idempotent.
Qed.

Lemma normalize_time_range_keeps (P : datetime -> Prop)
    (now mission_start mission_end : datetime) (start end_ : option datetime) :
  P mission_start -> P mission_end -> P now ->
  (forall s, start = Some s -> P s) -> (forall e, end_ = Some e -> P e) ->
  let r := normalize_time_range now start end_ mission_start mission_end in
  P (fst r) /\ P (snd r).
Proof.
  intros Hms Hme Hnow Hs He. unfold normalize_time_range. cbv zeta. cbn [fst snd].
  assert (P (dt_min now mission_end)) as Hcap.
  { unfold dt_min. now destruct (dt_ltb mission_end now). }
  split.
  - unfold dt_max. destruct (dt_ltb _ mission_start); [exact Hms|].
    destruct start as [s|]; [now apply Hs|exact Hms].
  - unfold dt_min at 1. destruct (dt_ltb _ _); [exact Hcap|].
    destruct end_ as [e|]; [now apply He|exact Hcap].
Qed.

(** *** Day windows lie within the range *)

Lemma iter_day_ranges_within (start end_ : datetime) (w : window) :
  wf_datetime start -> wf_datetime end_ -> is_utc start -> is_utc end_ ->
  utc_instant start < utc_instant end_ ->
  In w (_iter_day_ranges start end_) ->
  utc_instant start <= utc_instant (fst w)
  /\ utc_instant (snd w) <= utc_instant end_.
Proof.
  intros Hws Hwe Hus Hue Hlt Hin.
  rewrite (iter_day_ranges_closed_form start end_ Hws Hwe Hus Hue Hlt) in Hin.
  cbv zeta in Hin. apply in_map_iff in Hin. destruct Hin as (d & <- & Hd).
  apply list_elem_of_In, elem_of_seqZ in Hd. cbn [fst snd].
  unfold wf_datetime, is_utc in *.
  assert (utc_instant start = date start * US_PER_DAY + dt_time start) as Is
    by (unfold utc_instant, date; lia).
  assert (utc_instant end_ = date end_ * US_PER_DAY + dt_time end_) as Ie
    by (unfold utc_instant, date; lia).
  assert (date start <= d <= date end_) as Hrange.
  { destruct (_ && negb _) in Hd; destruct (_ && (_ =? 0)) in Hd; lia. }
  split.
  - destruct (Z.eqb_spec d (date start)); [lia|].
    rewrite utc_instant_datetime_utc. unfold US_PER_DAY, US_PER_SECOND in *. nia.
  - destruct (Z.eqb_spec d (date end_)); [lia|].
    rewrite utc_instant_datetime_utc. unfold US_PER_DAY, US_PER_SECOND in *. nia.
Qed.

(** *** Queries with a start never raise *)

Section WithClient.

Context (client_search :
           string -> string -> option string -> option (datetime * datetime)
           -> Z -> item_search).
Context (mission_start mission_end now : datetime).

Lemma has_any_returns (collection product_type baseline : string)
    (s : datetime) (end_ : option datetime) :
  exists found,
    search_has_any_product client_search collection product_type baseline
      (Some s) end_
    = Return found.
Proof.
  unfold search_has_any_product. cbv zeta.
  destruct (matched _) as [m|]; [|eauto].
  destruct (m =? 0); [eauto|].
  match goal with
  | |- context [_clean_search_results ?sr ?p ?a ?b ?dd ?f] =>
      destruct (clean_search_results_returns sr p a b dd f) as (urls & -> & _);
      [left; eauto|]
  end.
  cbn [mbind outcome_bind bind]. eauto.
Qed.

Lemma iter_day_batches_within (collection product_type : string)
    (baseline : option string) (max_items : Z) (format : option string)
    (windows : list window) :
  exists batches,
    iter_day_batches client_search collection product_type baseline max_items
      format windows
    = Return batches
    /\ forall u, In u (concat batches) ->
         exists w t, In w windows /\ extract_sensing_time u = Some t
                     /\ in_bounds (Some (fst w)) (Some (snd w)) t = true.
Proof.
  induction windows as [|[day_start day_end] windows (batches & Hb & Hin)].
  - exists []. split; [reflexivity|]. intros u [].
  - cbn [iter_day_batches].
    match goal with
    | |- context [_clean_search_results ?sr ?p ?a ?b ?dd ?f] =>
        destruct (clean_search_results_returns sr p a b dd f) as (urls & -> & Hu);
        [left; eauto|]
    end.
    cbn [mbind outcome_bind bind]. rewrite Hb. cbn [mbind outcome_bind bind].
    eexists. split; [reflexivity|].
    intros u Hin'. cbn [concat] in Hin'. apply in_app_or in Hin'.
    destruct Hin' as [H|H].
    + destruct (Hu u H) as (t & Ht & Hbd). exists (day_start, day_end), t.
      split; [now left|]. auto.
    + destruct (Hin u H) as (w & t & Hw & Ht). exists w, t.
      split; [now right|exact Ht].
Qed.

Lemma search_urls_returns
    (collection product_type : string) (baseline : option string)
    (start end_ : option datetime) (max_items : Z) (format : option string) :
  exists urls,
    search_urls client_search mission_start mission_end now collection
      product_type baseline start end_ max_items format
    = Return urls.
Proof.
  unfold search_urls, search_urls_iter_day.
  destruct (_resolve_time_range mission_start mission_end now start end_) as [t0 t1].
  destruct (dt_sub t1 t0 / US_PER_DAY <=? 10).
  - match goal with
    | |- context [_clean_search_results ?sr ?p ?a ?b ?dd ?f] =>
        destruct (clean_search_results_returns sr p a b dd f) as (urls & -> & Hu);
        [left; eauto|]
    end.
    eauto.
  - destruct (_resolve_time_range mission_start mission_end now (Some t0) (Some t1))
      as [t0' t1'].
    destruct (iter_day_batches_within collection product_type baseline max_items
                format (_iter_day_ranges t0' t1')) as (batches & -> & Hu).
    cbn [mbind outcome_bind bind]. eauto.
Qed.

(** X8: Whatever the backend returns, [search_urls] returns without raising,
    and every URL it returns has a sensing time within the range that
    [_resolve_time_range] computes from the request (UTC datetimes). *)
Theorem search_urls_within_range
    (collection product_type : string) (baseline : option string)
    (start end_ : option datetime) (max_items : Z) (format : option string) :
  wf_datetime mission_start /\ is_utc mission_start ->
  wf_datetime mission_end /\ is_utc mission_end ->
  wf_datetime now /\ is_utc now ->
  (forall s, start = Some s -> wf_datetime s /\ is_utc s) ->
  (forall e, end_ = Some e -> wf_datetime e /\ is_utc e) ->
  let range := _resolve_time_range mission_start mission_end now start end_ in
  exists urls,
    search_urls client_search mission_start mission_end now collection
      product_type baseline start end_ max_items format
    = Return urls
    /\ forall u, In u urls ->
         exists t, extract_sensing_time u = Some t
                   /\ utc_instant (fst range) <= utc_instant t
                      <= utc_instant (snd range).
Proof.
  intros Hms Hme Hnow Hs He range. subst range.
  unfold search_urls, search_urls_iter_day, _resolve_time_range.
  pose proof (normalize_time_range_idempotent now mission_start mission_end
                start end_) as Hidem.
  pose proof (normalize_time_range_keeps (fun d => wf_datetime d /\ is_utc d)
                now mission_start mission_end start end_ Hms Hme Hnow Hs He)
    as Hwf.
  cbv zeta in Hidem, Hwf.
  destruct (normalize_time_range now start end_ mission_start mission_end)
    as [t0 t1]. cbn [fst snd] in *. rewrite Hidem.
  destruct Hwf as [[Hw0 Hu0] [Hw1 Hu1]].
  destruct (dt_sub t1 t0 / US_PER_DAY <=? 10) eqn:Ep.
  - match goal with
    | |- context [_clean_search_results ?sr ?p ?a ?b ?dd ?f] =>
        destruct (clean_search_results_returns sr p a b dd f) as (urls & -> & Hu);
        [left; eauto|]
    end.
    exists urls. split; [reflexivity|]. intros u Hin.
    destruct (Hu u Hin) as (t & Ht & Hbd). exists t. split; [exact Ht|].
    unfold in_bounds in Hbd. apply andb_true_iff in Hbd.
    destruct Hbd as [H1 H2]. apply dt_leb_le in H1, H2. lia.
  - destruct (iter_day_batches_within collection product_type baseline max_items
                format (_iter_day_ranges t0 t1)) as (batches & -> & Hu).
    cbn [mbind outcome_bind bind]. eexists. split; [reflexivity|].
    intros u Hin. destruct (Hu u Hin) as (w & t & Hw & Ht & Hbd).
    exists t. split; [exact Ht|].
    apply Z.leb_gt in Ep.
    assert (utc_instant t0 < utc_instant t1) as Hlt.
    { unfold dt_sub, US_PER_DAY, US_PER_SECOND in Ep.
      Z.to_euclidean_division_equations. lia. }
    destruct (iter_day_ranges_within t0 t1 w Hw0 Hw1 Hu0 Hu1 Hlt Hw) as [Ha Hb].
    unfold in_bounds in Hbd. apply andb_true_iff in Hbd.
    destruct Hbd as [H1 H2]. apply dt_leb_le in H1, H2. lia.
Qed.

End WithClient.

End CleanResults.

Lemma search_urls_within_range_witness :
  exists urls,
    Search.search_urls (Scenarios.synthetic_search Scenarios.june_catalogue)
      Scenarios.default_mission_start Scenarios.default_mission_end
      Scenarios.clock_2026 "EarthCAREL2Validated_MAAP" "BM__RAD_2B" (Some "BC"%string)
      (Some Scenarios.jun01_start) (Some Scenarios.jun30_end) 50000 None
    = Return urls
    /\ forall u, In u urls ->
         exists t, Paths.extract_sensing_time u = Some t
                   /\ utc_instant Scenarios.jun01_start <= utc_instant t
                      <= utc_instant Scenarios.jun30_end.
Proof.
  apply (search_urls_within_range
           (Scenarios.synthetic_search Scenarios.june_catalogue)
           Scenarios.default_mission_start Scenarios.default_mission_end
           Scenarios.clock_2026 "EarthCAREL2Validated_MAAP" "BM__RAD_2B"
           (Some "BC"%string) (Some Scenarios.jun01_start)
           (Some Scenarios.jun30_end) 50000 None).
  - vm_compute. intuition discriminate.
  - vm_compute. intuition discriminate.
  - vm_compute. intuition discriminate.
  - intros s [= <-]. vm_compute. intuition discriminate.
  - intros e [= <-]. vm_compute. intuition discriminate.
Defined.

Lemma clean_search_results_bounded_witness :
  let search := Scenarios.synthetic_search Scenarios.june_catalogue
                  "EarthCAREL2Validated_MAAP" "" None None 50000 in
  exists urls,
    Search._clean_search_results search "BM__RAD_2B"
      (Some (utc 2024 6 10 0 0 0)) (Some (utc 2024 6 10 23 59 59)) true None
    = Return urls
    /\ length urls = 2%nat.
Proof.
  destruct (clean_search_results_bounded
              (Scenarios.synthetic_search Scenarios.june_catalogue
                 "EarthCAREL2Validated_MAAP" "" None None 50000)
              "BM__RAD_2B" (Some (utc 2024 6 10 0 0 0))
              (Some (utc 2024 6 10 23 59 59)) true None)
    as (urls & Hr & _ & Hp); [left; eauto|].
  exists urls. split; [exact Hr|].
  destruct (Hp eq_refl) as [Hperm _].
  rewrite (Permutation_length Hperm). vm_compute. reflexivity.
Defined.

(** ** The binary searches of [search_product_info_range] *)

Section Bisection.
Import Paths Utils DayRanges Search.

Section WithClient.

Context (client_search :
           string -> string -> option string -> option (datetime * datetime)
           -> Z -> item_search).
Context (mission_start mission_end now : datetime).
Context (collection product_type baseline : string).

(** The first search halves the days between [lo] and [hi] with every
    probe: when fewer than [2 ^ k] days are left it returns after at most
    [k] probes, each from [t0] to the end of a day between [lo] and
    [hi]. *)
Lemma first_day_loop_bisects (k : nat) :
  forall (fuel : nat) (t0 lo hi : datetime) (first_day : option Z)
         (probes : list window),
    wf_datetime lo /\ is_utc lo -> wf_datetime hi /\ is_utc hi ->
    date hi - date lo + 1 < 2 ^ Z.of_nat k -> (k <= fuel)%nat ->
    exists first_day' more,
      first_day_loop client_search fuel collection product_type baseline t0 lo hi
        first_day probes
      = Return (first_day', probes ++ more)
      /\ (length more <= k)%nat
      /\ (forall w, In w more ->
            fst w = t0
            /\ exists d, date lo <= d <= date hi /\ snd w = datetime_utc d 23 59 59).
Proof.
  induction k as [|k IH]; intros fuel t0 lo hi first_day probes Hlo Hhi Hn Hf.
  - exists first_day, []. rewrite app_nil_r. split; [|split; [cbn; lia|intros w []]].
    apply first_day_loop_exit. cbn in Hn. lia.
  - destruct (Z.lt_ge_cases (date hi) (date lo)) as [Hlt|Hge].
    { exists first_day, []. rewrite app_nil_r. split; [|split; [cbn; lia|intros w []]].
      now apply first_day_loop_exit. }
    destruct fuel as [|fuel]; [lia|].
    destruct Hlo as [Hwl Hul], Hhi as [Hwh Huh].
    pose proof (mid_day_bounds lo hi Hwl Hwh Hul Huh) as Hmid. cbv zeta in Hmid.
    set (mid := date (add_timedelta lo (divide_and_round (dt_sub hi lo) 2))) in *.
    destruct (has_any_returns client_search collection product_type baseline t0
                (Some (datetime_utc mid 23 59 59))) as [found Hfound].
    rewrite (first_day_loop_step client_search collection product_type baseline
               fuel t0 lo hi first_day probes mid found Hge eq_refl Hfound).
    rewrite Nat2Z.inj_succ, Z.pow_succ_r in Hn by lia.
    assert (date lo <= mid <= date hi) as Hin
      by (Z.to_euclidean_division_equations; lia).
    change (- timedelta_days 1) with (timedelta_days (-1)).
    rewrite !add_days_midnight.
    destruct found.
    + destruct (IH fuel t0 lo (datetime_utc (mid + -1) 0 0 0) (Some mid)
                  (probes ++ [(t0, datetime_utc mid 23 59 59)]))
        as (fd & more & Hr & Hlen & Hw).
      { auto. } { apply midnight_wf_utc. }
      { change (date (datetime_utc (mid + -1) 0 0 0)) with (mid + -1).
        Z.to_euclidean_division_equations. lia. }
      { lia. }
      exists fd, ((t0, datetime_utc mid 23 59 59) :: more).
      rewrite Hr, <- app_assoc. split; [reflexivity|]. split; [cbn; lia|].
      intros w [<-|Hw']; [cbn [fst snd]; eauto|].
      destruct (Hw w Hw') as (H1 & d & Hd & H2). split; [exact H1|].
      exists d. split; [|exact H2].
      change (date (datetime_utc (mid + -1) 0 0 0)) with (mid + -1) in Hd. lia.
    + destruct (IH fuel t0 (datetime_utc (mid + 1) 0 0 0) hi first_day
                  (probes ++ [(t0, datetime_utc mid 23 59 59)]))
        as (fd & more & Hr & Hlen & Hw).
      { apply midnight_wf_utc. } { auto. }
      { change (date (datetime_utc (mid + 1) 0 0 0)) with (mid + 1).
        Z.to_euclidean_division_equations. lia. }
      { lia. }
      exists fd, ((t0, datetime_utc mid 23 59 59) :: more).
      rewrite Hr, <- app_assoc. split; [reflexivity|]. split; [cbn; lia|].
      intros w [<-|Hw']; [cbn [fst snd]; eauto|].
      destruct (Hw w Hw') as (H1 & d & Hd & H2). split; [exact H1|].
      exists d. split; [|exact H2].
      change (date (datetime_utc (mid + 1) 0 0 0)) with (mid + 1) in Hd. lia.
Qed.

(** The same for the second search, whose probes run from the start of a
    day to [t1]. *)
Lemma last_day_loop_bisects (k : nat) :
  forall (fuel : nat) (t1 lo hi : datetime) (last_day : option Z)
         (probes : list window),
    wf_datetime lo /\ is_utc lo -> wf_datetime hi /\ is_utc hi ->
    date hi - date lo + 1 < 2 ^ Z.of_nat k -> (k <= fuel)%nat ->
    exists last_day' more,
      last_day_loop client_search fuel collection product_type baseline t1 lo hi
        last_day probes
      = Return (last_day', probes ++ more)
      /\ (length more <= k)%nat
      /\ (forall w, In w more ->
            snd w = t1
            /\ exists d, date lo <= d <= date hi /\ fst w = datetime_utc d 0 0 0).
Proof.
  induction k as [|k IH]; intros fuel t1 lo hi last_day probes Hlo Hhi Hn Hf.
  - exists last_day, []. rewrite app_nil_r. split; [|split; [cbn; lia|intros w []]].
    apply last_day_loop_exit. cbn in Hn. lia.
  - destruct (Z.lt_ge_cases (date hi) (date lo)) as [Hlt|Hge].
    { exists last_day, []. rewrite app_nil_r. split; [|split; [cbn; lia|intros w []]].
      now apply last_day_loop_exit. }
    destruct fuel as [|fuel]; [lia|].
    destruct Hlo as [Hwl Hul], Hhi as [Hwh Huh].
    pose proof (mid_day_bounds lo hi Hwl Hwh Hul Huh) as Hmid. cbv zeta in Hmid.
    set (mid := date (add_timedelta lo (divide_and_round (dt_sub hi lo) 2))) in *.
    destruct (has_any_returns client_search collection product_type baseline
                (datetime_utc mid 0 0 0) (Some t1)) as [found Hfound].
    rewrite (last_day_loop_step client_search collection product_type baseline
               fuel t1 lo hi last_day probes mid found Hge eq_refl Hfound).
    rewrite Nat2Z.inj_succ, Z.pow_succ_r in Hn by lia.
    assert (date lo <= mid <= date hi) as Hin
      by (Z.to_euclidean_division_equations; lia).
    change (- timedelta_days 1) with (timedelta_days (-1)).
    rewrite !add_days_midnight.
    destruct found.
    + destruct (IH fuel t1 (datetime_utc (mid + 1) 0 0 0) hi (Some mid)
                  (probes ++ [(datetime_utc mid 0 0 0, t1)]))
        as (fd & more & Hr & Hlen & Hw).
      { apply midnight_wf_utc. } { auto. }
      { change (date (datetime_utc (mid + 1) 0 0 0)) with (mid + 1).
        Z.to_euclidean_division_equations. lia. }
      { lia. }
      exists fd, ((datetime_utc mid 0 0 0, t1) :: more).
      rewrite Hr, <- app_assoc. split; [reflexivity|]. split; [cbn; lia|].
      intros w [<-|Hw']; [cbn [fst snd]; eauto|].
      destruct (Hw w Hw') as (H1 & d & Hd & H2). split; [exact H1|].
      exists d. split; [|exact H2].
      change (date (datetime_utc (mid + 1) 0 0 0)) with (mid + 1) in Hd. lia.
    + destruct (IH fuel t1 lo (datetime_utc (mid + -1) 0 0 0) last_day
                  (probes ++ [(datetime_utc mid 0 0 0, t1)]))
        as (fd & more & Hr & Hlen & Hw).
      { auto. } { apply midnight_wf_utc. }
      { change (date (datetime_utc (mid + -1) 0 0 0)) with (mid + -1).
        Z.to_euclidean_division_equations. lia. }
      { lia. }
      exists fd, ((datetime_utc mid 0 0 0, t1) :: more).
      rewrite Hr, <- app_assoc. split; [reflexivity|]. split; [cbn; lia|].
      intros w [<-|Hw']; [cbn [fst snd]; eauto|].
      destruct (Hw w Hw') as (H1 & d & Hd & H2). split; [exact H1|].
      exists d. split; [|exact H2].
      change (date (datetime_utc (mid + -1) 0 0 0)) with (mid + -1) in Hd. lia.
Qed.

(** X9: For every search backend and every request in UTC,
    [search_product_info_range] returns without raising once each loop may
    run [k] times, where the resolved range touches fewer than [2 ^ k]
    calendar days; each binary search then issues at most [k] existence
    probes, the first from the start of the range to the end of a day of
    the range, the second from the start of a day of the range to its
    end. *)
Theorem info_range_bisection_terminates
    (k fuel : nat) (start end_ : option datetime) :
  wf_datetime mission_start /\ is_utc mission_start ->
  wf_datetime mission_end /\ is_utc mission_end ->
  wf_datetime now /\ is_utc now ->
  (forall s, start = Some s -> wf_datetime s /\ is_utc s) ->
  (forall e, end_ = Some e -> wf_datetime e /\ is_utc e) ->
  let range := _resolve_time_range mission_start mission_end now start end_ in
  date (snd range) - date (fst range) + 1 < 2 ^ Z.of_nat k ->
  (k <= fuel)%nat ->
  exists r,
    search_product_info_range client_search mission_start mission_end now fuel
      collection product_type baseline start end_
    = Return r
    /\ (length (first_probes r) <= k)%nat
    /\ (length (last_probes r) <= k)%nat
    /\ (forall w, In w (first_probes r) ->
          fst w = fst range
          /\ exists d, date (fst range) <= d <= date (snd range)
                       /\ snd w = datetime_utc d 23 59 59)
    /\ (forall w, In w (last_probes r) ->
          snd w = snd range
          /\ exists d, date (fst range) <= d <= date (snd range)
                       /\ fst w = datetime_utc d 0 0 0).
Proof.
  intros Hms Hme Hnow Hs He range Hn Hf. subst range.
  unfold search_product_info_range, _resolve_time_range in *.
  pose proof (normalize_time_range_keeps (fun d => wf_datetime d /\ is_utc d)
                now mission_start mission_end start end_ Hms Hme Hnow Hs He)
    as Hwf.
  cbv zeta in Hwf.
  destruct (normalize_time_range now start end_ mission_start mission_end)
    as [t0 t1]. cbn [fst snd] in *. destruct Hwf as [H0 H1].
  destruct (has_any_returns client_search collection product_type baseline t0
              (Some t1)) as [any ->].
  cbn [mbind outcome_bind bind].
  destruct any; cbn [negb].
  2:{ eexists. split; [reflexivity|]. cbn [first_probes last_probes length].
      split; [lia|]. split; [lia|]. split; intros w []. }
  destruct (first_day_loop_bisects k fuel t0 t0 t1 None [] H0 H1 Hn Hf)
    as (fd & probes1 & -> & Hlen1 & Hw1).
  cbn [mbind outcome_bind bind app].
  destruct (last_day_loop_bisects k fuel t1 t0 t1 None [] H0 H1 Hn Hf)
    as (ld & probes2 & -> & Hlen2 & Hw2).
  cbn [mbind outcome_bind bind app].
  destruct fd as [first_day|], ld as [last_day|];
    try (eexists; split; [reflexivity|]; cbn [first_probes last_probes]; now auto).
  destruct (search_urls_returns client_search mission_start mission_end now
              collection product_type (Some baseline)
              (Some (datetime_utc first_day 0 0 0))
              (Some (datetime_utc first_day 23 59 59)) 50000 None) as [u1 ->].
  cbn [mbind outcome_bind bind].
  destruct (search_urls_returns client_search mission_start mission_end now
              collection product_type (Some baseline)
              (Some (datetime_utc last_day 0 0 0))
              (Some (datetime_utc last_day 23 59 59)) 50000 None) as [u2 ->].
  cbn [mbind outcome_bind bind].
  destruct (head u1), (last u2);
    eexists; (split; [reflexivity|]); cbn [first_probes last_probes]; auto.
Qed.

End WithClient.

End Bisection.

Lemma info_range_bisection_terminates_witness :
  exists r,
    Search.search_product_info_range
      (Scenarios.synthetic_search Scenarios.june_catalogue)
      Scenarios.default_mission_start Scenarios.default_mission_end
      Scenarios.clock_2026 5 "EarthCAREL2Validated_MAAP" "BM__RAD_2B" "BC"
      (Some Scenarios.jun01_start) (Some Scenarios.jun30_end)
    = Return r
    /\ (length (Search.first_probes r) <= 5)%nat
    /\ (length (Search.last_probes r) <= 5)%nat.
Proof.
  destruct (info_range_bisection_terminates
              (Scenarios.synthetic_search Scenarios.june_catalogue)
              Scenarios.default_mission_start Scenarios.default_mission_end
              Scenarios.clock_2026 "EarthCAREL2Validated_MAAP" "BM__RAD_2B" "BC"
              5 5 (Some Scenarios.jun01_start) (Some Scenarios.jun30_end))
    as (r & Hr & H1 & H2 & _).
  - vm_compute. intuition discriminate.
  - vm_compute. intuition discriminate.
  - vm_compute. intuition discriminate.
  - intros s [= <-]. vm_compute. intuition discriminate.
  - intros e [= <-]. vm_compute. intuition discriminate.
  - vm_compute. reflexivity.
  - lia.
  - exists r. auto.
Defined.

(** ** Reading back whole records *)

Section WholeRecords.
Import Paths Registry RegistryFiles WellFormed Records.
Local Open Scope string_scope.
Local Arguments String.append !_ _ / : simpl nomatch.

Local Notation "[LF]" := (String LF EmptyString).

Lemma no_line_break_inv (c : ascii) :
  no_line_break c = true -> Ascii.eqb c CR = false /\ Ascii.eqb c LF = false.
Proof.
  unfold no_line_break. intros H. apply andb_true_iff in H. destruct H as [H1 H2].
  apply negb_true_iff in H1, H2. auto.
Qed.

Lemma translate_newlines_no_break (s x : string) :
  all_chars no_line_break s = true ->
  translate_newlines false (s ++ x) = s ++ translate_newlines false x.
Proof.
  induction s as [|c s IH]; intros Hs; cbn [String.append all_chars] in *;
    [reflexivity|].
  apply andb_true_iff in Hs. destruct Hs as [Hc Hs].
  destruct (no_line_break_inv c Hc) as [Hcr Hlf].
  cbn [translate_newlines]. rewrite Hcr, Hlf. now rewrite IH.
Qed.

Lemma lines_from_no_break (s x cur : string) :
  all_chars no_line_break s = true ->
  lines_from cur (s ++ String LF x) = cons (cur ++ s ++ [LF]) (lines_from "" x).
Proof.
  revert cur. induction s as [|c s IH]; intros cur Hs;
    cbn [String.append all_chars] in *.
  - cbn [lines_from]. rewrite Ascii.eqb_refl. reflexivity.
  - apply andb_true_iff in Hs. destruct Hs as [Hc Hs].
    destruct (no_line_break_inv c Hc) as [_ Hlf].
    cbn [lines_from]. rewrite Hlf. rewrite IH by assumption.
    now rewrite string_app_assoc.
Qed.

(** A line without line break is read as it was written. *)
Lemma file_lines_line (s q : string) :
  all_chars no_line_break s = true ->
  file_lines (s ++ [LF] ++ q) = cons (s ++ [LF]) (file_lines q).
Proof.
  intros Hs. unfold file_lines. rewrite translate_newlines_no_break by assumption.
  cbn [String.append translate_newlines]. rewrite Ascii.eqb_refl.
  change (Ascii.eqb LF CR) with false. cbv iota.
  now rewrite lines_from_no_break.
Qed.

Lemma rstrip_line_feed (s : string) : rstrip (s ++ [LF]) = rstrip s.
Proof.
  induction s as [|c s IH]; [reflexivity|].
  cbn [String.append rstrip]. now rewrite IH.
Qed.

Lemma all_chars_app (f : ascii -> bool) (a b : string) :
  all_chars f (a ++ b) = all_chars f a && all_chars f b.
Proof.
  induction a as [|c a IH]; cbn [String.append all_chars]; [reflexivity|].
  now rewrite IH, andb_assoc.
Qed.

Lemma clean_url_no_line_break (u : string) :
  clean_url u -> all_chars no_line_break u = true.
Proof.
  intros (_ & _ & Hu). apply (all_chars_weaken plain_char); [|exact Hu].
  intros c Hc. destruct (plain_char_inv c Hc) as (_ & _ & Hcr & Hlf).
  unfold no_line_break. now rewrite Hcr, Hlf.
Qed.

(** The record read from the line [u|v]: the key [u] and [v] without the
    white space at its end. *)
Lemma read_line_pair (u v : string) (more : list string) :
  clean_url u ->
  read_lines (cons (u ++ "|" ++ v ++ [LF]) more) []
  = cons (u, rstrip v) (read_lines more []).
Proof.
  intros Hclean.
  pose proof (clean_url_no_space u Hclean) as Hns.
  assert (all_chars plain_char u = true) as Hu by apply Hclean.
  cbn [read_lines]. unfold strip. rewrite clean_url_lstrip by assumption.
  replace (u ++ "|" ++ v ++ [LF]) with ((u ++ "|") ++ v ++ [LF])
    by (rewrite string_app_assoc; reflexivity).
  rewrite rstrip_plain.
  2:{ rewrite all_chars_app, Hns. reflexivity. }
  rewrite rstrip_line_feed, string_app_assoc.
  rewrite clean_url_not_skipped by assumption.
  cbn [String.append].
  destruct (split_bar_plain u (rstrip v) Hu) as [-> _]. cbn [fst snd from_option id].
  now rewrite (read_lines_acc more).
Qed.

(** The record read from the line [u]. *)
Lemma read_line_single (u : string) (more : list string) :
  clean_url u ->
  read_lines (cons (u ++ [LF]) more) [] = cons (u, "") (read_lines more []).
Proof.
  intros Hclean.
  pose proof (clean_url_no_space u Hclean) as Hns.
  assert (all_chars plain_char u = true) as Hu by apply Hclean.
  cbn [read_lines]. unfold strip. rewrite clean_url_lstrip by assumption.
  rewrite rstrip_plain by assumption. change (rstrip [LF]) with "".
  rewrite string_app_nil_r.
  pose proof (clean_url_not_skipped u "" Hclean) as Hskip.
  rewrite string_app_nil_r in Hskip. rewrite Hskip.
  destruct (split_bar_plain u "" Hu) as [_ ->]. cbn [fst snd from_option id].
  now rewrite (read_lines_acc more).
Qed.

Lemma pair_text_read (first second : string) (q : string) :
  storable (first, second) ->
  read_lines (file_lines (pair_text first second ++ q)) []
  = cons (first, second) (read_lines (file_lines q) []).
Proof.
  intros [Hf [Hs Hr]]. cbn [fst snd] in *. unfold pair_text.
  pose proof (clean_url_no_line_break first Hf) as Hnb.
  destruct (String.eqb_spec second "") as [->|Hne]; cbv iota.
  - rewrite string_app_assoc. rewrite file_lines_line by assumption.
    now apply read_line_single.
  - replace ((first ++ "|" ++ second ++ [LF]) ++ q)
      with ((first ++ "|" ++ second) ++ [LF] ++ q)
      by (repeat first [rewrite string_app_assoc | progress cbn [String.append]];
          reflexivity).
    rewrite file_lines_line.
    2:{ rewrite !all_chars_app, Hnb, Hs. reflexivity. }
    replace ((first ++ "|" ++ second) ++ [LF]) with (first ++ "|" ++ second ++ [LF])
      by (repeat first [rewrite string_app_assoc | progress cbn [String.append]];
          reflexivity).
    rewrite read_line_pair by assumption. now rewrite Hr.
Qed.

Lemma pairs_text_read (pairs : list (string * string)) :
  Forall storable pairs ->
  read_lines (file_lines (pairs_text pairs)) [] = pairs.
Proof.
  induction pairs as [|[first second] pairs IH]; intros Hall; [reflexivity|].
  apply Forall_cons in Hall. destruct Hall as [Hp Hall].
  cbn [pairs_text]. rewrite pair_text_read by assumption. now rewrite IH.
Qed.

(** X10: [write_pairs] of pairs whose first field is a clean URL and whose
    second field has no line break and no white space at its end, followed
    by [read_pairs], gives the pairs back, in their order, whatever the file
    held before, and [count_lines] gives their number; the other files are
    left as they are. *)
Theorem write_pairs_read_back (fs : files) (d : Z) (pairs : list (string * string)) :
  Forall storable pairs ->
  read_pairs (write_pairs fs d pairs !! d) = pairs
  /\ count_lines (write_pairs fs d pairs !! d) = Z.of_nat (length pairs)
  /\ forall d', d' <> d -> write_pairs fs d pairs !! d' = fs !! d'.
Proof.
  intros Hall. unfold write_pairs. rewrite lookup_insert_eq.
  assert (read_pairs (Some (pairs_text pairs)) = pairs) as Hread
    by now apply pairs_text_read.
  split; [exact Hread|]. split.
  - unfold count_lines. rewrite count_loop_read_lines.
    unfold read_pairs, read_pairs_file in Hread. now rewrite Hread.
  - intros d' Hd. now rewrite lookup_insert_ne.
Qed.

Lemma read_pairs_append (file : option string) (w : string) :
  complete_file file ->
  read_pairs (Some (default "" file ++ w))
  = List.app (read_pairs file) (read_pairs (Some w)).
Proof.
  unfold read_pairs, read_pairs_file. destruct file as [c|]; cbn [from_option id].
  - intros Hc. rewrite file_lines_app by exact Hc. apply read_lines_app.
  - intros _. reflexivity.
Qed.

(** X11: [append_pair] of a pair whose first field is a clean URL and
    whose second field has no line break and no white space at its end, on
    a file that is missing or ends with a line feed, adds exactly the given
    pair at the end of what [read_pairs] returns, and leaves the other files
    as they are. *)
Theorem append_pair_read_back (fs : files) (d : Z) (first second : string) :
  complete_file (fs !! d) ->
  storable (first, second) ->
  read_pairs (append_pair fs d first second !! d)
  = List.app (read_pairs (fs !! d)) [(first, second)]
  /\ forall d', d' <> d -> append_pair fs d first second !! d' = fs !! d'.
Proof.
  intros Hc Hp. unfold append_pair. rewrite lookup_insert_eq. split.
  - rewrite read_pairs_append by exact Hc. f_equal.
    unfold read_pairs, read_pairs_file.
    rewrite <- (string_app_nil_r (pair_text first second)).
    now rewrite pair_text_read.
  - intros d' Hd. now rewrite lookup_insert_ne.
Qed.

End WholeRecords.

Lemma write_pairs_read_back_witness :
  let pairs := [(Scenarios.url_sep08, "/data/a b.h5"%string);
                (Scenarios.url_sep09, EmptyString)] in
  Registry.read_pairs (RegistryFiles.write_pairs ∅ 739502 pairs !! 739502) = pairs.
Proof.
  apply (write_pairs_read_back ∅ 739502
           [(Scenarios.url_sep08, "/data/a b.h5"%string);
            (Scenarios.url_sep09, EmptyString)]).
  repeat constructor; try discriminate; vm_compute; reflexivity.
Defined.

Lemma append_pair_read_back_witness :
  Registry.read_pairs
    (RegistryFiles.append_pair
       (Tracker.url_files RegistryScenario.discovered) RegistryScenario.sep08
       Scenarios.url_sep09 "/data/x.h5" !! RegistryScenario.sep08)
  = [(Scenarios.url_sep08, EmptyString); (Scenarios.url_sep09, "/data/x.h5"%string)].
Proof.
  apply (append_pair_read_back
           (Tracker.url_files RegistryScenario.discovered) RegistryScenario.sep08
           Scenarios.url_sep09 "/data/x.h5").
  - vm_compute. right. exists (Scenarios.url_sep08 ++ "|")%string. reflexivity.
  - repeat constructor; try discriminate; vm_compute; reflexivity.
Defined.

(** ** Loading the discovered URLs *)

Section LoadUrls.
Import Paths Registry RegistryFiles Tracker WellFormed.

Lemma dict_set_keys_eq (k v : string) (d : list (string * string)) :
  map fst (dict_set k v d)
  = if dict_has k d then map fst d else map fst d ++ [k].
Proof.
  unfold dict_has. induction d as [|[k' v'] d IH]; cbn [dict_set dict_get map fst app];
    [reflexivity|].
  destruct (String.eqb k' k) eqn:E; [reflexivity|].
  cbn [map fst]. rewrite IH. destruct (dict_get k d); reflexivity.
Qed.

Lemma dict_set_NoDup (k v : string) (d : list (string * string)) :
  List.NoDup (map fst d) -> List.NoDup (map fst (dict_set k v d)).
Proof.
  intros Hnd. rewrite dict_set_keys_eq. destruct (dict_has k d) eqn:E; [exact Hnd|].
  apply NoDup_ListNoDup, NoDup_app. split; [now apply NoDup_ListNoDup|].
  split; [|apply NoDup_singleton].
  intros x Hx Hx'. apply list_elem_of_singleton in Hx'. subst x.
  apply list_elem_of_In, dict_has_In in Hx. congruence.
Qed.

Lemma url_to_pair_NoDup (results acc : list (string * string)) :
  List.NoDup (map fst acc) ->
  List.NoDup (map fst (fold_left (fun d p => dict_set (fst p) (snd p) d) results acc)).
Proof.
  revert acc. induction results as [|p results IH]; intros acc Hnd; [exact Hnd|].
  cbn [fold_left]. apply IH. now apply dict_set_NoDup.
Qed.

(** The list and the set of [load_urls] hold the keys of the dictionary
    that [load_urls_with_paths] builds from the same records. *)
Lemma load_pairs_keys (pairs d : list (string * string)) :
  load_pairs pairs (map fst d) (list_to_set (map fst d))
  = (map fst (fold_left (fun d p => dict_set (fst p) (snd p) d) pairs d),
     list_to_set (map fst (fold_left (fun d p => dict_set (fst p) (snd p) d) pairs d))).
Proof.
  revert d. induction pairs as [|[url v] pairs IH]; intros d; [reflexivity|].
  cbn [load_pairs fold_left fst snd].
  pose proof (dict_set_keys_eq url v d) as Hk.
  destruct (decide (url ∈ (list_to_set (map fst d) : gset string))) as [Hin|Hin].
  - assert (dict_has url d = true) as Hh.
    { apply dict_has_In, list_elem_of_In. now apply elem_of_list_to_set in Hin. }
    rewrite Hh in Hk. rewrite <- Hk. apply IH.
  - assert (dict_has url d = false) as Hh.
    { destruct (dict_has url d) eqn:E; [|reflexivity]. exfalso. apply Hin.
      apply elem_of_list_to_set, list_elem_of_In, dict_has_In, E. }
    rewrite Hh in Hk.
    assert ({[url]} ∪ list_to_set (map fst d)
            = (list_to_set (map fst (dict_set url v d)) : gset string)) as ->.
    { rewrite Hk, list_to_set_app_L. cbn [list_to_set].
      rewrite (right_id_L ∅ (∪)). apply (comm_L (∪)). }
    rewrite <- Hk. apply IH.
Qed.

Lemma load_files_keys (fl : list (Z * string)) (sd ed : option Z)
    (d : list (string * string)) :
  load_files fl sd ed (map fst d) (list_to_set (map fst d))
  = (map fst
       (fold_left (fun d p => dict_set (fst p) (snd p) d)
          (map (fun t : string * string * Z => (fst (fst t), snd (fst t)))
             (read_daily_pairs fl sd ed)) d),
     list_to_set
       (map fst
          (fold_left (fun d p => dict_set (fst p) (snd p) d)
             (map (fun t : string * string * Z => (fst (fst t), snd (fst t)))
                (read_daily_pairs fl sd ed)) d))).
Proof.
  revert d. induction fl as [|[fdate content] fl IH]; intros d; [reflexivity|].
  cbn [load_files read_daily_pairs].
  destruct (date_selected sd ed fdate); [|apply IH].
  rewrite load_pairs_keys, map_app, fold_left_app, map_map. cbn [fst snd].
  assert (map (fun x : string * string => (x.1, x.2)) (read_pairs (Some content))
          = read_pairs (Some content)) as ->.
  { rewrite <- (map_id (read_pairs (Some content))) at 2.
    apply map_ext. now intros [a b]. }
  apply IH.
Qed.

(** X12: [Registry.load_urls] returns, in the same order, the URLs of the
    pairs that [StateTracker.load_urls_with_paths] returns for the same
    files and the same window; no URL is returned twice; and a URL is
    returned exactly when a selected file has a record of it and it passes
    the sensing-time filter. *)
Theorem load_urls_agrees (st : registry_state) (start end_ : option datetime) :
  load_urls (url_files st) start end_
  = map fst (load_urls_with_paths st start end_)
  /\ List.NoDup (load_urls (url_files st) start end_)
  /\ forall u, In u (load_urls (url_files st) start end_)
               <-> recorded (url_files st) start end_ u.
Proof.
  assert (load_urls (url_files st) start end_
          = map fst (load_urls_with_paths st start end_)) as Heq.
  { unfold load_urls, load_urls_with_paths, _to_date_range, url_to_pair.
    cbv zeta.
    pose proof (load_files_keys (list_files (url_files st)) (option_map date start)
                  (option_map date end_) []) as Hk.
    cbn [map list_to_set] in Hk. rewrite Hk.
    set (d := fold_left _ _ []).
    symmetry. apply omap_keys. intros x Hx.
    apply filter_by_sensing_time_window in Hx. destruct Hx as [Hx _].
    apply dict_has_In in Hx. unfold dict_has in Hx.
    destruct (dict_get x d); [eauto|discriminate]. }
  split; [exact Heq|]. split.
  - unfold load_urls. cbv zeta.
    pose proof (load_files_keys (list_files (url_files st)) (option_map date start)
                  (option_map date end_) []) as Hk.
    cbn [map list_to_set] in Hk. rewrite Hk.
    match goal with
    | |- List.NoDup (filter_by_sensing_time ?l _ _) =>
        assert (List.NoDup l) as Hnd by (apply url_to_pair_NoDup; constructor);
        generalize dependent l
    end.
    intros l _ Hnd. unfold filter_by_sensing_time.
    destruct start, end_; try exact Hnd; rewrite filter_loop_acc; cbn [app];
      now apply List.NoDup_filter.
  - intros u. rewrite Heq. apply load_urls_with_paths_In.
Qed.

End LoadUrls.

(** ** Marks and errors *)

Section MarksAndErrors.
Import Paths Registry RegistryFiles Tracker TrackerRecords WellFormed Records.
Local Arguments String.append !_ _ / : simpl nomatch.

Lemma complete_lines_file (fs : files) (d : Z) :
  complete_lines fs -> complete_file (fs !! d).
Proof.
  intros H. unfold complete_file. destruct (fs !! d) as [c|] eqn:E; [|exact I].
  exact (H d c E).
Qed.

(** A line that holds the clean key [k] alone, appended to a file that is
    missing or ends with a line feed, is read back as one more record. *)
Lemma append_line_key (fs : files) (d : Z) (k : string) :
  complete_lines fs -> clean_url k ->
  read_pairs (append_line fs d k !! d)
  = read_pairs (fs !! d) ++ [(k, EmptyString)].
Proof.
  intros Hc Hk. unfold append_line. rewrite lookup_insert_eq.
  rewrite read_pairs_append by now apply complete_lines_file.
  f_equal. unfold read_pairs, read_pairs_file.
  rewrite <- (string_app_nil_r (k ++ String LF EmptyString)), string_app_assoc.
  rewrite file_lines_line by now apply clean_url_no_line_break.
  now apply read_line_single.
Qed.

(** The same for a line [k|v] whose second field has no line break. *)
Lemma append_line_pair (fs : files) (d : Z) (k v : string) :
  complete_lines fs -> clean_url k -> all_chars no_line_break v = true ->
  read_pairs (append_line fs d (k ++ "|" ++ v)%string !! d)
  = read_pairs (fs !! d) ++ [(k, rstrip v)].
Proof.
  intros Hc Hk Hv. unfold append_line. rewrite lookup_insert_eq.
  rewrite read_pairs_append by now apply complete_lines_file.
  f_equal. unfold read_pairs, read_pairs_file.
  rewrite <- (string_app_nil_r ((k ++ "|" ++ v) ++ String LF EmptyString)%string),
    string_app_assoc.
  rewrite file_lines_line.
  2:{ rewrite !all_chars_app, (clean_url_no_line_break k Hk), Hv. reflexivity. }
  replace ((k ++ "|" ++ v) ++ String LF EmptyString)%string
    with (k ++ "|" ++ v ++ String LF EmptyString)%string
    by (repeat first [rewrite string_app_assoc | progress cbn [String.append]];
        reflexivity).
  now apply read_line_pair.
Qed.

(** The paths that [get_marked_paths] returns. *)
Lemma get_marked_paths_elem (st : registry_state) (start end_ : option datetime)
    (u : string) :
  u ∈ get_marked_paths st start end_ <-> recorded (mrk_files st) start end_ u.
Proof.
  unfold get_marked_paths, _to_date_range, recorded.
  rewrite elem_of_list_to_set, list_elem_of_In, filter_by_sensing_time_window.
  rewrite read_daily_pairs_In. split.
  - intros [(dd & c & Hin & Hs & Hk) Hw]. split; [exact Hw|].
    exists dd, c. split; [now apply list_files_In|auto].
  - intros [Hw (dd & c & Hf & Hs & Hk)]. split; [|exact Hw].
    exists dd, c. split; [now apply list_files_In|auto].
Qed.

(** What is recorded after a line with one more key has been appended
    to the file of the date [d]. *)
Lemma recorded_after_append (fs fs' : files) (d : Z) (k second : string)
    (start end_ : option datetime) (u : string) :
  (forall d', d' <> d -> fs' !! d' = fs !! d') ->
  is_Some (fs' !! d) ->
  read_pairs (fs' !! d) = read_pairs (fs !! d) ++ [(k, second)] ->
  recorded fs' start end_ u
  <-> recorded fs start end_ u
      \/ (u = k /\ in_window start end_ k
          /\ date_selected (option_map date start) (option_map date end_) d = true).
Proof.
  intros Hother [c' Hc'] Hread. unfold recorded. split.
  - intros (Hw & d0 & c0 & Hf & Hsel & Hin).
    destruct (decide (d0 = d)) as [->|Hne].
    + rewrite Hc' in Hf. injection Hf as <-. rewrite Hc' in Hread.
      rewrite Hread, map_app in Hin. apply in_app_or in Hin.
      destruct Hin as [Hin|[<-|[]]]; [|right; auto].
      left. split; [exact Hw|].
      destruct (fs !! d) as [c|] eqn:E; [|destruct Hin].
      exists d, c. auto.
    + left. split; [exact Hw|]. exists d0, c0. rewrite <- (Hother d0 Hne). auto.
  - intros [(Hw & d0 & c0 & Hf & Hsel & Hin)|(-> & Hw & Hsel)].
    + split; [exact Hw|]. destruct (decide (d0 = d)) as [->|Hne].
      * exists d, c'. split; [exact Hc'|]. split; [exact Hsel|].
        rewrite Hc' in Hread. rewrite Hread, Hf, map_app. apply in_or_app. now left.
      * exists d0, c0. rewrite (Hother d0 Hne). auto.
    + split; [exact Hw|]. exists d, c'. split; [exact Hc'|]. split; [exact Hsel|].
      rewrite Hc' in Hread. rewrite Hread, map_app. apply in_or_app. right. now left.
Qed.

(** X13: [mark] of a clean path with a sensing time, in a registry whose mark
    files end with a line feed, returns [True] and adds the path, and
    nothing else, to what [get_marked_paths] returns: under a window the
    path is added when it passes the window and its sensing date is among
    the selected files.  The other records are left as they are. *)
Theorem mark_adds_path (st : registry_state) (path : string) (t : datetime) :
  extract_sensing_time path = Some t ->
  clean_url path ->
  complete_lines (mrk_files st) ->
  fst (mark st path) = true
  /\ get_marked_paths (snd (mark st path)) None None
     = get_marked_paths st None None ∪ {[path]}
  /\ (forall start end_ u,
        u ∈ get_marked_paths (snd (mark st path)) start end_
        <-> u ∈ get_marked_paths st start end_
            \/ (u = path /\ in_window start end_ path
                /\ date_selected (option_map date start) (option_map date end_)
                     (date t) = true))
  /\ url_files (snd (mark st path)) = url_files st
  /\ dwl_files (snd (mark st path)) = dwl_files st
  /\ errors_file (snd (mark st path)) = errors_file st.
Proof.
  intros Ht Hclean Hc. unfold mark. rewrite Ht. cbn [fst snd].
  assert (forall start end_ u,
            u ∈ get_marked_paths
                  (mk_registry_state (url_files st) (dwl_files st)
                     (append_line (mrk_files st) (date t) path) (errors_file st))
                  start end_
            <-> u ∈ get_marked_paths st start end_
                \/ (u = path /\ in_window start end_ path
                    /\ date_selected (option_map date start) (option_map date end_)
                         (date t) = true)) as Helem.
  { intros start end_ u. rewrite !get_marked_paths_elem. cbn [mrk_files].
    apply (recorded_after_append _ _ (date t) path EmptyString).
    - intros d' Hd. unfold append_line. now rewrite lookup_insert_ne.
    - unfold append_line. rewrite lookup_insert_eq. eauto.
    - now apply append_line_key. }
  split; [reflexivity|]. split; [|split; [exact Helem|auto]].
  apply set_eq. intros u. rewrite Helem, elem_of_union, elem_of_singleton.
  cbn [in_window option_map date_selected negb andb]. tauto.
Qed.

End MarksAndErrors.

Lemma mark_adds_path_witness :
  let path := "/data/ECA_EXBC_BM__RAD_2B_20250908T232505Z_20250909T010458Z_07282E.h5"%string in
  TrackerRecords.get_marked_paths
    (snd (TrackerRecords.mark RegistryScenario.discovered path)) None None
  = {[path]}.
Proof.
  intros path.
  destruct (mark_adds_path RegistryScenario.discovered path
              (utc 2025 9 8 23 25 5)) as (_ & H & _).
  - vm_compute. reflexivity.
  - split; [discriminate|split; vm_compute; reflexivity].
  - intros d c Hf. cbn in Hf. rewrite lookup_empty in Hf. discriminate.
  - rewrite H. apply set_eq. intros u. rewrite elem_of_union.
    assert (u ∉ TrackerRecords.get_marked_paths RegistryScenario.discovered None None)
      as Hn by (vm_compute; intros Hu; inversion Hu).
    tauto.
Defined.

(** ** Recorded errors *)

Section RecordedErrors.
Import Paths Registry RegistryFiles Tracker TrackerRecords WellFormed Records.
Local Arguments String.append !_ _ / : simpl nomatch.

Lemma all_chars_substring (f : ascii -> bool) (n : nat) (s : string) :
  all_chars f s = true -> all_chars f (substring 0 n s) = true.
Proof.
  revert n. induction s as [|c s IH]; intros n H; destruct n; try reflexivity.
  cbn [substring all_chars] in *. apply andb_true_iff in H. destruct H as [Hc Hs].
  rewrite Hc. now apply IH.
Qed.

Lemma substring_length_le (n : nat) (s : string) :
  (String.length (substring 0 n s) <= n)%nat.
Proof.
  revert n. induction s as [|c s IH]; intros n; destruct n; cbn [substring String.length];
    try lia.
  specialize (IH n). lia.
Qed.

Lemma has_char_substring (x : ascii) (n : nat) (s : string) :
  has_char x s = false -> has_char x (substring 0 n s) = false.
Proof.
  revert n. induction s as [|c s IH]; intros n H; destruct n; try reflexivity.
  cbn [substring has_char] in *. apply orb_false_iff in H. destruct H as [Hc Hs].
  rewrite Hc. now apply IH.
Qed.

(** The text that [mark_error] writes after the separator has at most
    200 characters, no line feed and no separator; it has no carriage
    return when the message has none. *)
Lemma sanitize_spec (error : string) :
  (String.length (sanitize error) <= 200)%nat
  /\ has_char LF (sanitize error) = false
  /\ has_char "|" (sanitize error) = false
  /\ (has_char CR error = false -> all_chars no_line_break (sanitize error) = true).
Proof.
  unfold sanitize. split; [apply substring_length_le|].
  split; [|split].
  - apply has_char_substring. induction error as [|c error IH]; [reflexivity|].
    cbn [replace_char has_char]. rewrite IH, orb_false_r.
    destruct (Ascii.eqb_spec c LF) as [->|Hc]; [reflexivity|].
    destruct (Ascii.eqb_spec c "|") as [->|Hb]; [reflexivity|].
    now apply Ascii.eqb_neq.
  - apply has_char_substring. induction error as [|c error IH]; [reflexivity|].
    cbn [replace_char has_char]. rewrite IH, orb_false_r.
    destruct (Ascii.eqb_spec c LF) as [->|Hc]; [reflexivity|].
    destruct (Ascii.eqb_spec c "|") as [->|Hb]; [reflexivity|].
    now apply Ascii.eqb_neq.
  - intros Hcr. apply all_chars_substring.
    induction error as [|c error IH]; [reflexivity|].
    cbn [replace_char all_chars has_char] in *.
    apply orb_false_iff in Hcr. destruct Hcr as [Hc Hcr]. rewrite (IH Hcr), andb_true_r.
    unfold no_line_break.
    destruct (Ascii.eqb_spec c LF) as [->|Hlf]; [reflexivity|].
    destruct (Ascii.eqb_spec c "|") as [->|Hb]; [reflexivity|].
    rewrite Ascii.eqb_sym in Hc. rewrite Hc.
    destruct (Ascii.eqb_spec c LF); [contradiction|reflexivity].
Qed.

(** X14: [mark_error] with a clean URL and a message without carriage return,
    on an error file that is missing or ends with a line feed, adds the URL,
    and nothing else, to what [get_error_urls] returns; the message is
    stored without line feed and separator, cut to 200 characters; the
    other records are left as they are. *)
Theorem mark_error_adds_url (st : registry_state) (url error : string) :
  clean_url url ->
  has_char CR error = false ->
  complete_file (errors_file st) ->
  get_error_urls (mark_error st url error) = get_error_urls st ∪ {[url]}
  /\ read_pairs (errors_file (mark_error st url error))
     = read_pairs (errors_file st) ++ [(url, rstrip (sanitize error))]
  /\ (String.length (sanitize error) <= 200)%nat
  /\ has_char LF (sanitize error) = false
  /\ has_char "|" (sanitize error) = false
  /\ url_files (mark_error st url error) = url_files st
  /\ dwl_files (mark_error st url error) = dwl_files st
  /\ mrk_files (mark_error st url error) = mrk_files st.
Proof.
  intros Hclean Hcr Hc.
  destruct (sanitize_spec error) as (Hlen & Hlf & Hbar & Hnb).
  specialize (Hnb Hcr).
  assert (read_pairs (errors_file (mark_error st url error))
          = read_pairs (errors_file st) ++ [(url, rstrip (sanitize error))]) as Hread.
  { unfold mark_error. cbn [errors_file].
    rewrite read_pairs_append by exact Hc. f_equal.
    unfold read_pairs, read_pairs_file.
    rewrite <- (string_app_nil_r
                  ((url ++ "|" ++ sanitize error) ++ String LF EmptyString)%string),
      string_app_assoc.
    rewrite file_lines_line.
    2:{ rewrite !all_chars_app, (clean_url_no_line_break url Hclean), Hnb.
        reflexivity. }
    replace ((url ++ "|" ++ sanitize error) ++ String LF EmptyString)%string
      with (url ++ "|" ++ sanitize error ++ String LF EmptyString)%string
      by (repeat first [rewrite string_app_assoc | progress cbn [String.append]];
          reflexivity).
    now apply read_line_pair. }
  split; [|split; [exact Hread|auto 10]].
  unfold get_error_urls. rewrite Hread, map_app, list_to_set_app_L.
  cbn [map fst list_to_set]. now rewrite (right_id_L ∅ (∪)).
Qed.

End RecordedErrors.

Lemma mark_error_adds_url_witness :
  TrackerRecords.get_error_urls
    (TrackerRecords.mark_error RegistryScenario.discovered Scenarios.url_sep08
       "HTTP 503|retry later")
  = TrackerRecords.get_error_urls RegistryScenario.discovered ∪ {[Scenarios.url_sep08]}.
Proof.
  apply (mark_error_adds_url RegistryScenario.discovered Scenarios.url_sep08
           "HTTP 503|retry later").
  - split; [discriminate|split; vm_compute; reflexivity].
  - vm_compute. reflexivity.
  - exact I.
Defined.

(** ** Statistics *)

Section Statistics.
Import Paths Registry RegistryFiles Tracker TrackerRecords.

Context (path_div : string -> string -> string).
Context (mission collection : string).

Lemma downloaded_paths_without_data_dir (pairs : list (string * string * Z))
    (paths : list string) :
  exists r, downloaded_paths path_div mission collection None pairs paths = Return r.
Proof.
  revert paths. induction pairs as [|[[url stored] d] pairs IH]; intros paths;
    cbn [downloaded_paths]; [eauto|].
  destruct (String.eqb stored ""); cbn [mbind outcome_bind bind mret outcome_ret];
    destruct (String.eqb stored ""); apply IH.
Qed.

(** X15: The numbers of [get_stats] are the sizes of the sets that the other
    queries return for the same window, the pending downloads are at most
    the discovered URLs, and these are at most the pending and the
    downloaded ones together; without a data directory [get_stats] does
    not raise. *)
Theorem get_stats_consistent (st : registry_state) (start end_ : option datetime) :
  (forall data_dir r,
     get_stats path_div mission collection data_dir st start end_ = Return r ->
     pending_downloads r = size (get_pending_downloads st start end_)
     /\ downloaded r = size (get_downloaded_urls st start end_)
     /\ marked r = size (get_marked_paths st start end_)
     /\ errors r = size (get_error_urls st)
     /\ (pending_downloads r <= total_urls r)%nat
     /\ (total_urls r <= pending_downloads r + downloaded r)%nat)
  /\ exists r, get_stats path_div mission collection None st start end_ = Return r.
Proof.
  split.
  - intros data_dir r H. unfold get_stats in H.
    destruct (get_downloaded_paths path_div mission collection data_dir st start end_)
      as [dp| |]; try discriminate.
    cbn [mbind outcome_bind bind] in H. injection H as <-.
    cbn [pending_downloads downloaded marked errors total_urls].
    split; [reflexivity|]. split; [reflexivity|]. split; [reflexivity|].
    split; [reflexivity|].
    set (all := list_to_set (map fst (load_urls_with_paths st start end_)) : gset string).
    set (dl := get_downloaded_urls st start end_).
    split.
    + apply subseteq_size. apply subseteq_difference_l. reflexivity.
    + rewrite <- size_union by (apply disjoint_difference_l1; reflexivity).
      apply subseteq_size. intros x Hx.
      destruct (decide (x ∈ dl)); [apply elem_of_union_r; assumption|].
      apply elem_of_union_l, elem_of_difference. auto.
  - unfold get_stats, get_downloaded_paths, _to_date_range.
    match goal with
    | |- context [downloaded_paths _ _ _ _ ?p ?a] =>
        destruct (downloaded_paths_without_data_dir p a) as [r ->]
    end.
    cbn [mbind outcome_bind bind]. eauto.
Qed.

End Statistics.

(** ** Adding discovered URLs *)

Section AddUrls.
Import Paths Registry RegistryFiles Tracker TrackerRecords WellFormed Records.
Local Arguments String.append !_ _ / : simpl nomatch.

(** *** Grouping by sensing date *)

Lemma group_add_has (d : Z) (url : string) (g : list (Z * list string)) :
  exists l, In (d, l) (group_add d url g) /\ In url l.
Proof.
  induction g as [|[d' l] g IH]; cbn [group_add].
  - exists [url]. split; now left.
  - destruct (Z.eqb_spec d' d) as [->|Hne].
    + exists (l ++ [url]). split; [now left|]. apply in_or_app. right. now left.
    + destruct IH as (l' & H1 & H2). exists l'. split; [now right|exact H2].
Qed.

Lemma group_add_mono (d : Z) (url : string) (g : list (Z * list string))
    (d0 : Z) (l0 : list string) :
  In (d0, l0) g ->
  exists l', In (d0, l') (group_add d url g) /\ forall u, In u l0 -> In u l'.
Proof.
  induction g as [|[d' l] g IH]; intros Hin; [destruct Hin|].
  cbn [group_add]. destruct Hin as [[= -> ->]|Hin].
  - destruct (Z.eqb_spec d0 d) as [->|Hne].
    + exists (l0 ++ [url]). split; [now left|]. intros u Hu. apply in_or_app. now left.
    + exists l0. split; [now left|auto].
  - destruct (Z.eqb_spec d' d) as [->|Hne].
    + exists l0. split; [now right|auto].
    + destruct (IH Hin) as (l' & H1 & H2). exists l'. split; [now right|exact H2].
Qed.

Lemma group_add_dates (d : Z) (url : string) (g : list (Z * list string))
    (P : Z -> string -> Prop) :
  P d url ->
  (forall d0 l0 u, In (d0, l0) g -> In u l0 -> P d0 u) ->
  forall d0 l0 u, In (d0, l0) (group_add d url g) -> In u l0 -> P d0 u.
Proof.
  intros Hnew. induction g as [|[d' l] g IH]; intros Hold d0 l0 u Hin Hu;
    cbn [group_add] in Hin.
  - destruct Hin as [[= <- <-]|[]]. destruct Hu as [<-|[]]. exact Hnew.
  - destruct (Z.eqb_spec d' d) as [->|Hne].
    + destruct Hin as [[= <- <-]|Hin].
      * apply in_app_or in Hu. destruct Hu as [Hu|[<-|[]]]; [|exact Hnew].
        apply (Hold d l u); [now left|exact Hu].
      * apply (Hold d0 l0 u); [now right|exact Hu].
    + destruct Hin as [[= <- <-]|Hin].
      * apply (Hold d' l u); [now left|exact Hu].
      * apply (IH (fun d1 l1 u1 H1 => Hold d1 l1 u1 (or_intror H1)) d0 l0 u Hin Hu).
Qed.

Lemma group_add_NoDup (d : Z) (url : string) (g : list (Z * list string)) :
  List.NoDup (map fst g) -> List.NoDup (map fst (group_add d url g)).
Proof.
  assert (forall g, forall d', In d' (map fst (group_add d url g))
                               -> d' = d \/ In d' (map fst g)) as Hk.
  { clear g. induction g as [|[d0 l] g IH]; intros d' Hin; cbn [group_add] in Hin.
    - destruct Hin as [<-|[]]. now left.
    - destruct (Z.eqb_spec d0 d) as [->|Hne]; cbn [map fst] in *.
      + destruct Hin as [<-|Hin]; [now left|right; now right].
      + destruct Hin as [<-|Hin]; [right; now left|].
        destruct (IH d' Hin) as [->|H]; [now left|right; now right]. }
  induction g as [|[d0 l] g IH]; intros Hnd; cbn [group_add].
  - repeat constructor. intros [].
  - destruct (Z.eqb_spec d0 d) as [->|Hne]; [exact Hnd|].
    cbn [map fst] in *. apply List.NoDup_cons_iff in Hnd. destruct Hnd as [Hn Hnd].
    constructor; [|now apply IH].
    intros Hin. destruct (Hk g d0 Hin) as [->|H]; [now apply Hne|contradiction].
Qed.

(** The groups of [add_urls]: one per sensing date, each holding URLs of
    the input that have this sensing date, and every URL of the input with
    a sensing time is in the group of its date. *)
Lemma group_by_sensing_date_spec (urls : list string) :
  List.NoDup (map fst (group_by_sensing_date urls))
  /\ (forall d l u, In (d, l) (group_by_sensing_date urls) -> In u l ->
        In u urls /\ exists t, extract_sensing_time u = Some t /\ date t = d)
  /\ (forall u t, In u urls -> extract_sensing_time u = Some t ->
        exists l, In (date t, l) (group_by_sensing_date urls) /\ In u l).
Proof.
  unfold group_by_sensing_date.
  assert (forall (urls seen : list string) (g : list (Z * list string)),
            List.NoDup (map fst g) ->
            (forall d l u, In (d, l) g -> In u l ->
               In u seen /\ exists t, extract_sensing_time u = Some t /\ date t = d) ->
            (forall u t, In u seen -> extract_sensing_time u = Some t ->
               exists l, In (date t, l) g /\ In u l) ->
            let g' := fold_left
                        (fun g url =>
                           match extract_sensing_time url with
                           | None => g
                           | Some dt => group_add (date dt) url g
                           end) urls g in
            List.NoDup (map fst g')
            /\ (forall d l u, In (d, l) g' -> In u l ->
                  In u (seen ++ urls)
                  /\ exists t, extract_sensing_time u = Some t /\ date t = d)
            /\ (forall u t, In u (seen ++ urls) -> extract_sensing_time u = Some t ->
                  exists l, In (date t, l) g' /\ In u l)) as Hgen.
  { clear urls. induction urls as [|url urls IH]; intros seen g Hnd Hin Hcov.
    - cbn [fold_left]. rewrite app_nil_r. auto.
    - cbn [fold_left].
      replace (seen ++ url :: urls) with ((seen ++ [url]) ++ urls)
        by (rewrite <- app_assoc; reflexivity).
      apply IH.
      + destruct (extract_sensing_time url) as [dt|]; [|exact Hnd].
        now apply group_add_NoDup.
      + destruct (extract_sensing_time url) as [dt|] eqn:Es.
        * apply (group_add_dates (date dt) url g
                   (fun d u => In u (seen ++ [url])
                               /\ exists t, extract_sensing_time u = Some t
                                            /\ date t = d)).
          -- split; [apply in_or_app; right; now left|eauto].
          -- intros d0 l0 u H1 H2. destruct (Hin d0 l0 u H1 H2) as [H3 H4].
             split; [apply in_or_app; now left|exact H4].
        * intros d l u H1 H2. destruct (Hin d l u H1 H2) as [H3 H4].
          split; [apply in_or_app; now left|exact H4].
      + intros u t Hu Ht. apply in_app_or in Hu. destruct Hu as [Hu|[<-|[]]].
        * destruct (Hcov u t Hu Ht) as (l & H1 & H2).
          destruct (extract_sensing_time url) as [dt|]; [|eauto].
          destruct (group_add_mono (date dt) url g (date t) l H1) as (l' & H3 & H4).
          eauto.
        * rewrite Ht. apply group_add_has. }
  destruct (Hgen urls [] []) as (H1 & H2 & H3).
  - constructor.
  - intros d l u [].
  - intros u t [].
  - cbn [app] in H2, H3. auto.
Qed.

(** *** The records written *)

Lemma ends_with_newline_app (a b : string) :
  ends_with_newline a -> ends_with_newline b -> ends_with_newline (a ++ b)%string.
Proof.
  intros Ha [->|[p ->]].
  - now rewrite string_app_nil_r.
  - right. exists (a ++ p)%string. now rewrite string_app_assoc.
Qed.

Section WithTracker.

Context (path_div : string -> string -> string).
Context (mission collection : string) (data_dir : option string).

Lemma add_date_urls_known (l : list string) (existing : gset string)
    (written : string) (n : Z) :
  (forall u, In u l -> u ∈ existing) ->
  add_date_urls path_div mission collection data_dir l existing written n
  = Return (written, existing, n).
Proof.
  induction l as [|u l IH]; intros Hk; [reflexivity|].
  cbn [add_date_urls].
  destruct (decide (u ∈ existing)) as [_|Hn];
    [|exfalso; apply Hn, Hk; now left].
  apply IH. intros v Hv. apply Hk. now right.
Qed.

Lemma add_date_urls_spec (l : list string) :
  forall (existing : gset string) (written : string) (n : Z)
         (written' : string) (existing' : gset string) (n' : Z),
    add_date_urls path_div mission collection data_dir l existing written n
    = Return (written', existing', n') ->
    exists W,
      written' = (written ++ W)%string
      /\ ends_with_newline W
      /\ n <= n'
      /\ (forall u, In u l -> u ∉ existing ->
            exists p q rest,
              W = (p ++ u ++ String "|" rest ++ String LF EmptyString ++ q)%string
              /\ ends_with_newline p).
Proof.
  induction l as [|u l IH]; intros existing written n written' existing' n' H;
    cbn [add_date_urls] in H.
  - injection H as <- <- <-. exists EmptyString.
    rewrite string_app_nil_r. split; [reflexivity|]. split; [now left|].
    split; [lia|]. intros u [].
  - destruct (decide (u ∈ existing)) as [Hin|Hnin].
    + destruct (IH _ _ _ _ _ _ H) as (W & HW & He & Hn & Hrec).
      exists W. split; [exact HW|]. split; [exact He|]. split; [exact Hn|].
      intros v [<-|Hv] Hv'; [contradiction|]. now apply Hrec.
    + match type of H with
      | mbind _ ?m = _ => destruct m as [lp| |] eqn:El; try discriminate
      end.
      cbn [mbind outcome_bind bind] in H.
      destruct (IH _ _ _ _ _ _ H) as (W & HW & He & Hn & Hrec).
      exists ((u ++ "|" ++ lp ++ String LF EmptyString) ++ W)%string.
      split; [now rewrite <- string_app_assoc|].
      assert (ends_with_newline (u ++ "|" ++ lp ++ String LF EmptyString)%string)
        as Hline.
      { right. exists (u ++ "|" ++ lp)%string.
        repeat first [rewrite string_app_assoc | progress cbn [String.append]].
        reflexivity. }
      split; [now apply ends_with_newline_app|]. split; [lia|].
      intros v Hv Hv'.
      destruct (decide (v = u)) as [->|Hne].
      * exists EmptyString, W, lp. split; [|now left].
        repeat first [rewrite string_app_assoc | progress cbn [String.append]].
        reflexivity.
      * destruct Hv as [->|Hv]; [contradiction|].
        destruct (Hrec v Hv) as (p & q & rest & -> & Hp).
        { intros Hin. apply elem_of_union in Hin. destruct Hin as [Hin|Hin];
            [apply elem_of_singleton in Hin; contradiction|contradiction]. }
        exists ((u ++ "|" ++ lp ++ String LF EmptyString) ++ p)%string, q, rest.
        split; [|now apply ends_with_newline_app].
        repeat first [rewrite string_app_assoc | progress cbn [String.append]].
        reflexivity.
Qed.

(** The files after the loop of [add_urls] over the groups. *)
Lemma add_dates_spec (groups : list (Z * list string)) :
  List.NoDup (map fst groups) ->
  (forall d l u, In (d, l) groups -> In u l -> clean_url u) ->
  forall (fs : files) (n n' : Z) (fs' : files),
    complete_lines fs ->
    add_dates path_div mission collection data_dir groups fs n = Return (n', fs') ->
    complete_lines fs'
    /\ n <= n'
    /\ (forall d c k, fs !! d = Some c -> In k (map fst (read_pairs (Some c))) ->
          exists c', fs' !! d = Some c' /\ In k (map fst (read_pairs (Some c'))))
    /\ (forall d l u, In (d, l) groups -> In u l ->
          exists c', fs' !! d = Some c' /\ In u (map fst (read_pairs (Some c')))).
Proof.
  induction groups as [|[d l] groups IH]; intros Hnd Hclean fs n n' fs' Hc H;
    cbn [add_dates] in H.
  - injection H as <- <-. split; [exact Hc|]. split; [lia|]. split; [eauto|].
    intros d l u [].
  - cbn [map fst] in Hnd. apply List.NoDup_cons_iff in Hnd. destruct Hnd as [Hd Hnd].
    match type of H with
    | mbind _ ?m = _ => destruct m as [[[written ex] n1]| |] eqn:Ea; try discriminate
    end.
    cbn [mbind outcome_bind bind] in H.
    destruct (add_date_urls_spec l _ _ _ _ _ _ Ea) as (W & HW & He & Hn & Hrec).
    cbn [String.append] in HW. subst written.
    set (old := fs !! d) in *.
    set (fs1 := <[d := (default EmptyString old ++ W)%string]> fs) in *.
    assert (complete_file old) as Hold by (apply complete_lines_file, Hc).
    assert (ends_with_newline (default EmptyString old)) as Hold'.
    { destruct old as [c|]; [exact Hold|now left]. }
    assert (complete_lines fs1) as Hc1.
    { intros d' c'. unfold fs1. rewrite lookup_insert.
      destruct (decide (d = d')) as [->|Hne]; [|apply Hc].
      intros [= <-]. now apply ends_with_newline_app. }
    assert (forall d0 c k, fs !! d0 = Some c -> In k (map fst (read_pairs (Some c))) ->
              exists c', fs1 !! d0 = Some c'
                         /\ In k (map fst (read_pairs (Some c')))) as Hkeep1.
    { intros d0 c k Hf Hk. unfold fs1. rewrite lookup_insert.
      destruct (decide (d = d0)) as [->|Hne]; [|eauto].
      eexists. split; [reflexivity|]. fold old in Hf. rewrite Hf in *.
      rewrite read_pairs_append by exact Hold. rewrite map_app.
      apply in_or_app. now left. }
    assert (forall u, In u l ->
              exists c', fs1 !! d = Some c'
                         /\ In u (map fst (read_pairs (Some c')))) as Hnew1.
    { intros u Hu. unfold fs1. rewrite lookup_insert_eq.
      eexists. split; [reflexivity|].
      destruct (decide (u ∈ (list_to_set (map fst (read_pairs old)) : gset string)))
        as [Hin|Hnin].
      - apply elem_of_list_to_set, list_elem_of_In in Hin.
        rewrite read_pairs_append by exact Hold. rewrite map_app.
        apply in_or_app. now left.
      - destruct (Hrec u Hu Hnin) as (p & q & rest & -> & Hp).
        rewrite <- string_app_assoc.
        apply read_back_key; [now apply ends_with_newline_app| |right; eauto].
        apply (Hclean d l u); [now left|exact Hu]. }
    destruct (IH Hnd (fun d0 l0 u H1 H2 => Hclean d0 l0 u (or_intror H1) H2)
                fs1 n1 n' fs' Hc1 H) as (Hc' & Hn' & Hkeep & Hnew).
    split; [exact Hc'|]. split; [lia|]. split.
    + intros d0 c k Hf Hk. destruct (Hkeep1 d0 c k Hf Hk) as (c1 & Hf1 & Hk1). eauto.
    + intros d0 l0 u [[= <- <-]|Hin] Hu; [|eauto].
      destruct (Hnew1 u Hu) as (c1 & Hf1 & Hk1). eauto.
Qed.

Lemma add_dates_again (groups : list (Z * list string)) (fs : files) (n : Z) :
  (forall d l, In (d, l) groups ->
     exists c, fs !! d = Some c
               /\ forall u, In u l -> In u (map fst (read_pairs (Some c)))) ->
  add_dates path_div mission collection data_dir groups fs n = Return (n, fs).
Proof.
  induction groups as [|[d l] groups IH]; intros Hk; [reflexivity|].
  cbn [add_dates].
  destruct (Hk d l (or_introl eq_refl)) as (c & Hf & Hin).
  rewrite add_date_urls_known.
  2:{ intros u Hu. rewrite Hf. apply elem_of_list_to_set, list_elem_of_In, Hin, Hu. }
  cbn [mbind outcome_bind bind]. rewrite Hf. cbn [from_option id].
  rewrite string_app_nil_r, insert_id by exact Hf.
  apply IH. intros d0 l0 H0. apply Hk. now right.
Qed.

(** X16: [add_urls] with clean URLs, on URL files that end with a line feed:
    when it returns, every given URL with a sensing time has a record in
    the file of its sensing date, no record that was there is lost, and
    calling it again with the same URLs adds nothing and leaves the
    registry as it is. *)
Theorem add_urls_twice (st : registry_state) (urls : list string)
    (n : Z) (st' : registry_state) :
  (forall u, In u urls -> clean_url u) ->
  complete_lines (url_files st) ->
  add_urls path_div mission collection data_dir st urls = Return (n, st') ->
  add_urls path_div mission collection data_dir st' urls = Return (0, st')
  /\ 0 <= n
  /\ (forall u t, In u urls -> extract_sensing_time u = Some t ->
        exists c, url_files st' !! date t = Some c
                  /\ In u (map fst (read_pairs (Some c))))
  /\ (forall d c k, url_files st !! d = Some c ->
        In k (map fst (read_pairs (Some c))) ->
        exists c', url_files st' !! d = Some c'
                   /\ In k (map fst (read_pairs (Some c'))))
  /\ dwl_files st' = dwl_files st
  /\ mrk_files st' = mrk_files st
  /\ errors_file st' = errors_file st.
Proof.
  intros Hclean Hc H. unfold add_urls in *.
  destruct (group_by_sensing_date_spec urls) as (Hnd & Hin & Hcov).
  match type of H with
  | mbind _ ?m = _ => destruct m as [[n1 fs']| |] eqn:Ea; try discriminate
  end.
  cbn [mbind outcome_bind bind] in H. injection H as <- <-.
  cbn [url_files dwl_files mrk_files errors_file].
  destruct (add_dates_spec (group_by_sensing_date urls) Hnd
              (fun d l u H1 H2 => Hclean u (proj1 (Hin d l u H1 H2)))
              (url_files st) 0 n1 fs' Hc Ea) as (Hc' & Hn & Hkeep & Hnew).
  split.
  - rewrite add_dates_again.
    + cbn [mbind outcome_bind bind]. reflexivity.
    + intros d l Hg.
      destruct l as [|u0 l0].
      * (* a group is never empty *)
        exfalso. clear -Hg.
        assert (forall (urls : list string) (g : list (Z * list string)),
                  (forall d, ~ In (d, []) g) ->
                  forall d, ~ In (d, [])
                              (fold_left
                                 (fun g url =>
                                    match extract_sensing_time url with
                                    | None => g
                                    | Some dt => group_add (date dt) url g
                                    end) urls g)) as Hne.
        { clear. induction urls as [|url urls IH]; intros g Hg; [exact Hg|].
          cbn [fold_left]. apply IH.
          destruct (extract_sensing_time url) as [dt|]; [|exact Hg].
          clear IH. induction g as [|[d0 l0] g IHg]; cbn [group_add].
          - intros d [[=]|[]].
          - destruct (Z.eqb_spec d0 (date dt)) as [->|Hne].
            + intros d [E|Hi]; [injection E as _ E; destruct l0; discriminate|].
              apply (Hg d). now right.
            + intros d [[= -> ->]|Hi]; [apply (Hg d); now left|].
              apply (IHg (fun d1 H1 => Hg d1 (or_intror H1)) d Hi). }
        apply (Hne urls [] (fun d H => H) d Hg).
      * destruct (Hnew d (u0 :: l0) u0 Hg (or_introl eq_refl)) as (c & Hf & _).
        exists c. split; [exact Hf|]. intros u Hu.
        destruct (Hnew d (u0 :: l0) u Hg Hu) as (c1 & Hf1 & Hk1).
        rewrite Hf in Hf1. injection Hf1 as <-. exact Hk1.
  - split; [exact Hn|]. split; [|auto].
    intros u t Hu Ht. destruct (Hcov u t Hu Ht) as (l & Hg & Hul). eauto.
Qed.

End WithTracker.

End AddUrls.

Lemma add_urls_twice_witness :
  exists st',
    TrackerRecords.add_urls Scenarios.join "EarthCARE" "EarthCAREL2Validated_MAAP"
      (Some "/data"%string) RegistryScenario.discovered
      [Scenarios.url_sep09; Scenarios.url_sep08; Scenarios.url_sep09]
    = Return (0, st')
    /\ TrackerRecords.add_urls Scenarios.join "EarthCARE" "EarthCAREL2Validated_MAAP"
         (Some "/data"%string) st'
         [Scenarios.url_sep09; Scenarios.url_sep08; Scenarios.url_sep09]
       = Return (0, st').
Proof.
  destruct (TrackerRecords.add_urls Scenarios.join "EarthCARE"
              "EarthCAREL2Validated_MAAP" (Some "/data"%string)
              RegistryScenario.discovered
              [Scenarios.url_sep09; Scenarios.url_sep08; Scenarios.url_sep09])
    as [[n st']| |] eqn:E.
  - destruct (add_urls_twice Scenarios.join "EarthCARE" "EarthCAREL2Validated_MAAP"
                (Some "/data"%string) RegistryScenario.discovered
                [Scenarios.url_sep09; Scenarios.url_sep08; Scenarios.url_sep09]
                n st') as (H2 & _).
    + intros u [<-|[<-|[<-|[]]]]; (split; [discriminate|split; vm_compute; reflexivity]).
    + intros d c Hf. cbn in Hf. rewrite lookup_insert in Hf.
      destruct (decide (RegistryScenario.sep08 = d)) as [<-|_].
      * injection Hf as <-. right. exists (Scenarios.url_sep08 ++ "|")%string.
        vm_compute. reflexivity.
      * rewrite lookup_insert in Hf.
        destruct (decide (RegistryScenario.sep09 = d)) as [<-|_].
        -- injection Hf as <-. right. exists (Scenarios.url_sep09 ++ "|")%string.
           vm_compute. reflexivity.
        -- rewrite lookup_empty in Hf. discriminate.
    + exact E.
    + exists st'. split; [|exact H2].
      assert (n = 0) as ->; [|reflexivity].
      vm_compute in E. now injection E as <- _.
  - vm_compute in E. discriminate.
  - vm_compute in E. discriminate.
Defined.

(** ** The entry after an incremental build *)

Section CatalogEntry.
Import CatalogBuild.

Context (search_has_any_product : datetime -> datetime -> bool).
Context (get_baseline_info : datetime -> datetime -> option BaselineInfo).

(** X17: After the build of a baseline its entry is the one it had, or a new
    one stamped with the time of the build whose count is larger than
    before.  When the entry has a range and the request does not start
    before it, the start of the range and its frame are kept; when the
    request does not end after it, the end of the range and its frame are
    kept. *)
Theorem build_baseline_entry
    (existing : option BaselineInfo) (effective_start effective_end : datetime)
    (now : string) :
  let result :=
    snd (build_baseline search_has_any_product get_baseline_info existing
           effective_start effective_end now) in
  (result = existing
   \/ exists info, result = Some info /\ updated_at info = Some now
                   /\ default 0 (count <$> existing) < count info)
  /\ (forall e t0 t1 info,
        existing = Some e -> time_range e = Some (t0, t1) ->
        dt_ltb effective_start t0 = false -> result = Some info ->
        time_start info = time_start e /\ frame_start info = frame_start e)
  /\ (forall e t0 t1 info,
        existing = Some e -> time_range e = Some (t0, t1) ->
        dt_ltb t1 effective_end = false -> result = Some info ->
        time_end info = time_end e /\ frame_end info = frame_end e).
Proof.
  cbv zeta. split; [|split].
  - unfold build_baseline.
    destruct (to_fetch _ _ _) as [fetches|]; cbn [snd]; [|now left].
    destruct (0 <? new_count _) eqn:E; cbn [snd]; [|now left].
    right. eexists. split; [reflexivity|]. cbn [updated_at count].
    apply Z.ltb_lt in E. split; [reflexivity|lia].
  - intros e t0 t1 info -> Hr Hb. unfold build_baseline.
    change (Some e ≫= time_range) with (time_range e). rewrite Hr.
    unfold to_fetch. rewrite Hb. cbn [app].
    destruct (dt_ltb t1 effective_end); cbn [snd fold_left];
      [|intros [= <-]; auto].
    unfold fetch_step.
    destruct (search_has_any_product _ _); cbn [negb new_count];
      [destruct (get_baseline_info _ _) as [i|]|];
      cbn [new_count r_time_start r_frame_start negb];
      (destruct (0 <? _); cbn [snd]; intros [= <-]; auto).
  - intros e t0 t1 info -> Hr Ha. unfold build_baseline.
    change (Some e ≫= time_range) with (time_range e). rewrite Hr.
    unfold to_fetch. rewrite Ha. cbn [app].
    destruct (dt_ltb effective_start t0); cbn [snd fold_left app];
      [|intros [= <-]; auto].
    unfold fetch_step.
    destruct (search_has_any_product _ _); cbn [negb new_count];
      [destruct (get_baseline_info _ _) as [i|]|];
      cbn [new_count r_time_end r_frame_end negb];
      (destruct (0 <? _); cbn [snd]; intros [= <-]; auto).
Qed.

End CatalogEntry.

(** ** The date in the name of a record file *)

Section FileDates.
Import Paths Registry RegistryFiles.
Local Arguments String.append !_ _ / : simpl nomatch.

(** *** The calendar repeats every 400 years *)

Lemma is_leap_period (y k : Z) : is_leap (y + 400 * k) = is_leap y.
Proof.
  unfold is_leap.
  replace ((y + 400 * k) mod 4) with (y mod 4)
    by (Z.to_euclidean_division_equations; lia).
  replace ((y + 400 * k) mod 100) with (y mod 100)
    by (Z.to_euclidean_division_equations; lia).
  replace ((y + 400 * k) mod 400) with (y mod 400)
    by (Z.to_euclidean_division_equations; lia).
  reflexivity.
Qed.

Lemma days_in_month_period (y k m : Z) :
  days_in_month (y + 400 * k) m = days_in_month y m.
Proof. unfold days_in_month. now rewrite is_leap_period. Qed.

Lemma days_before_month_period (y k m : Z) :
  days_before_month (y + 400 * k) m = days_before_month y m.
Proof.
  unfold days_before_month. induction (Z.to_nat (m - 1)) as [|n IH]; [reflexivity|].
  cbn [days_before_month_nat]. now rewrite IH, days_in_month_period.
Qed.

Lemma ymd2ord_period (y k m d : Z) :
  ymd2ord (y + 400 * k) m d = ymd2ord y m d + 146097 * k.
Proof.
  unfold ymd2ord. rewrite days_before_month_period. unfold days_before_year.
  Z.to_euclidean_division_equations. lia.
Qed.

Lemma ord2ymd_period (n : Z) :
  ord2ymd n
  = (let '(y, m, d) := ord2ymd ((n - 1) mod 146097 + 1) in
     (y + 400 * ((n - 1) / 146097), m, d)).
Proof.
  unfold ord2ymd. cbv zeta.
  set (r := (n - 1) mod 146097).
  assert (0 <= r < 146097) as Hr by (subst r; apply Z.mod_pos_bound; lia).
  replace (r + 1 - 1) with r by lia.
  rewrite (Z.div_small r 146097), (Z.mod_small r 146097) by exact Hr.
  destruct ((r mod 36524 mod 1461 / 365 =? 4) || (r / 36524 =? 4));
    [f_equal; f_equal; lia|].
  match goal with
  | |- context [if ?c then _ else _] => destruct c
  end; f_equal; f_equal; lia.
Qed.

(** *** [date.fromordinal] and [date.toordinal] *)

(** A check of [f] on the integers from 0 up to [n], by iteration. *)
Lemma checked_below (f : Z -> bool) (n : positive) :
  Pos.iter (fun s : Z * bool => (fst s + 1, snd s && f (fst s))) (0, true) n
  = (Z.pos n, true) ->
  forall r, 0 <= r < Z.pos n -> f r = true.
Proof.
  intros Hiter.
  assert (let s := Pos.iter (fun s : Z * bool => (fst s + 1, snd s && f (fst s)))
                     (0, true) n in
          0 <= fst s /\ (snd s = true -> forall r, 0 <= r < fst s -> f r = true))
    as Hinv.
  { apply Pos.iter_invariant.
    - intros [i b] [Hi Hb]. cbn [fst snd] in *. split; [lia|].
      intros Hand r Hr. apply andb_true_iff in Hand. destruct Hand as [Hb' Hf].
      destruct (Z.eq_dec r i) as [->|Hne]; [exact Hf|]. apply Hb; [exact Hb'|lia].
    - cbn [fst snd]. split; [lia|]. intros _ r Hr. lia. }
  cbv zeta in Hinv. rewrite Hiter in Hinv. cbn [fst snd] in Hinv.
  now apply Hinv.
Qed.

Lemma ord2ymd_first_cycle (r : Z) :
  0 <= r < 146097 ->
  let '(y, m, d) := ord2ymd (r + 1) in
  ymd2ord y m d = r + 1
  /\ r + 1 <= days_before_year (y + 1)
  /\ 1 <= y <= 400 /\ 1 <= m <= 12 /\ 1 <= d <= days_in_month y m.
Proof.
  intros Hr.
  pose proof (checked_below
                (fun r =>
                   let '(y, m, d) := ord2ymd (r + 1) in
                   (ymd2ord y m d =? r + 1)
                   && (r + 1 <=? days_before_year (y + 1))
                   && (1 <=? y) && (y <=? 400)
                   && (1 <=? m) && (m <=? 12) && (1 <=? d)
                   && (d <=? days_in_month y m))
                146097 ltac:(vm_compute; reflexivity) r Hr) as Hall.
  cbv beta in Hall.
  destruct (ord2ymd (r + 1)) as [[y m] d].
  repeat (apply andb_true_iff in Hall; destruct Hall as [Hall ?]).
  repeat match goal with
         | H : (_ <=? _) = true |- _ => apply Z.leb_le in H
         | H : (_ =? _) = true |- _ => apply Z.eqb_eq in H
         end.
  repeat split; assumption.
Qed.

Lemma days_before_month_nonneg (y m : Z) : 0 <= days_before_month y m.
Proof.
  unfold days_before_month. induction (Z.to_nat (m - 1)) as [|n IH];
    cbn [days_before_month_nat]; [lia|].
  assert (28 <= days_in_month y (Z.of_nat (S n))).
  { unfold days_in_month.
    destruct (_ =? 2); [destruct (is_leap y); lia|]. destruct (_ || _); lia. }
  lia.
Qed.

Lemma days_before_year_period (y k : Z) :
  days_before_year (y + 400 * k) = days_before_year y + 146097 * k.
Proof. unfold days_before_year. Z.to_euclidean_division_equations. lia. Qed.

Lemma days_before_year_mono (a b : Z) :
  a <= b -> days_before_year a <= days_before_year b.
Proof. unfold days_before_year. Z.to_euclidean_division_equations. lia. Qed.

(** Every day from 0001-01-01 to 9999-12-31 is the ordinal of the
    calendar date that [date.fromordinal] gives for it, and lies in the
    year of that date. *)
Lemma ymd2ord_ord2ymd (n : Z) :
  1 <= n <= 3652059 ->
  let '(y, m, d) := ord2ymd n in
  ymd2ord y m d = n /\ valid_ymd y m d = true /\ n <= days_before_year (y + 1).
Proof.
  intros Hn. rewrite ord2ymd_period.
  set (r := (n - 1) mod 146097). set (k := (n - 1) / 146097).
  assert (0 <= r < 146097) as Hr by (subst r; apply Z.mod_pos_bound; lia).
  assert (n - 1 = 146097 * k + r) as Hdiv by (subst r k; apply Z.div_mod; lia).
  assert (0 <= k) as Hk by (subst k; apply Z.div_pos; lia).
  pose proof (ord2ymd_first_cycle r Hr) as Hc.
  destruct (ord2ymd (r + 1)) as [[y m] d].
  destruct Hc as (Ho & Hnext & Hy & Hm & Hd).
  assert (ymd2ord (y + 400 * k) m d = n) as Hord
    by (rewrite ymd2ord_period; lia).
  split; [exact Hord|].
  assert (y + 400 * k <= 9999) as Hy'.
  { unfold ymd2ord, days_before_year in Hord.
    pose proof (days_before_month_nonneg (y + 400 * k) m).
    Z.to_euclidean_division_equations. lia. }
  split.
  - unfold valid_ymd. rewrite days_in_month_period.
    repeat (apply andb_true_iff; split); apply Z.leb_le; lia.
  - replace (y + 400 * k + 1) with (y + 1 + 400 * k) by lia.
    rewrite days_before_year_period. lia.
Qed.

(** *** Decimal fields *)

Lemma format_d_4 (y : Z) :
  1000 <= y <= 9999 ->
  exists a b c e,
    format_d 4 y = String a (String b (String c (String e EmptyString)))
    /\ is_digit a = true /\ is_digit b = true /\ is_digit c = true
    /\ is_digit e = true
    /\ int_of (String a (String b (String c (String e EmptyString)))) = y.
Proof.
  intros Hy.
  pose proof (checked_below
                (fun y =>
                   (y <? 1000)
                   || match format_d 4 y with
                      | String a (String b (String c (String e EmptyString))) =>
                          is_digit a && is_digit b && is_digit c && is_digit e
                          && (int_of (format_d 4 y) =? y)
                      | _ => false
                      end)
                10000 ltac:(vm_compute; reflexivity) y ltac:(lia)) as Hall.
  cbv beta in Hall. apply orb_true_iff in Hall.
  destruct Hall as [Hlt|Hall]; [apply Z.ltb_lt in Hlt; lia|].
  destruct (format_d 4 y) as [|a [|b [|c [|e [|? ?]]]]]; try discriminate.
  do 4 (apply andb_true_iff in Hall; destruct Hall as [Hall ?]).
  exists a, b, c, e. repeat split; try assumption. now apply Z.eqb_eq.
Qed.

Lemma format_d_2 (n : Z) :
  1 <= n <= 31 ->
  exists a b,
    format_d 2 n = String a (String b EmptyString)
    /\ is_digit a = true /\ is_digit b = true
    /\ int_of (String a (String b EmptyString)) = n.
Proof.
  intros Hn.
  pose proof (checked_below
                (fun n =>
                   (n <? 1)
                   || match format_d 2 n with
                      | String a (String b EmptyString) =>
                          is_digit a && is_digit b && (int_of (format_d 2 n) =? n)
                      | _ => false
                      end)
                32 ltac:(vm_compute; reflexivity) n ltac:(lia)) as Hall.
  cbv beta in Hall. apply orb_true_iff in Hall.
  destruct Hall as [Hlt|Hall]; [apply Z.ltb_lt in Hlt; lia|].
  destruct (format_d 2 n) as [|a [|b [|? ?]]]; try discriminate.
  do 2 (apply andb_true_iff in Hall; destruct Hall as [Hall ?]).
  exists a, b. repeat split; try assumption. now apply Z.eqb_eq.
Qed.

(** *** Matching a name *)

Lemma match_here_lit (prefix : string) (p : pattern) (s : string) :
  match_here (lit prefix ++ p) (prefix ++ s)
  = option_map (String.append prefix) (match_here p s).
Proof.
  induction prefix as [|c prefix IH].
  - cbn [lit list_ascii_of_string map app String.append].
    destruct (match_here p s); reflexivity.
  - change (lit (String c prefix)) with (is_char c :: lit prefix).
    cbn [app String.append match_here]. unfold is_char at 1.
    rewrite Ascii.eqb_refl, IH. destruct (match_here p s); reflexivity.
Qed.

Lemma skip_all (s : string) : skip (String.length s) s = EmptyString.
Proof.
  unfold skip. rewrite Nat.sub_diag.
  induction s as [|c s IH]; [reflexivity|exact IH].
Qed.

Lemma substring_after (prefix s : string) (n : nat) :
  substring (String.length prefix) n (prefix ++ s) = substring 0 n s.
Proof. induction prefix as [|c prefix IH]; [reflexivity|exact IH]. Qed.

Lemma match_here_app (p q : pattern) (s t : string) :
  match_here p s = Some s ->
  match_here (p ++ q) (s ++ t) = option_map (String.append s) (match_here q t).
Proof.
  revert s. induction p as [|cls p IH]; intros s H; cbn [match_here] in H.
  - injection H as <-. cbn [app String.append].
    destruct (match_here q t); reflexivity.
  - destruct s as [|c s]; [discriminate|].
    destruct (cls c) eqn:Hc; [|discriminate].
    destruct (match_here p s) as [m|] eqn:Hm; [|discriminate].
    injection H as ->. cbn [app String.append match_here]. rewrite Hc, (IH s Hm).
    destruct (match_here q t); reflexivity.
Qed.

Lemma match_here_length (p : pattern) (s m : string) :
  match_here p s = Some m -> String.length m = List.length p.
Proof.
  revert s m. induction p as [|cls p IH]; intros s m H; cbn [match_here] in H.
  - injection H as <-. reflexivity.
  - destruct s as [|c s]; [discriminate|].
    destruct (cls c); [|discriminate].
    destruct (match_here p s) as [m'|] eqn:Hm; [|discriminate].
    injection H as <-. cbn [String.length List.length]. now rewrite (IH s m' Hm).
Qed.

Lemma substring_prefix (s t : string) :
  substring 0 (String.length s) (s ++ t) = s.
Proof.
  induction s as [|c s IH]; cbn [String.length String.append substring].
  - destruct t; reflexivity.
  - now rewrite IH.
Qed.

(** A name made of the prefix, eight digits and [.txt] is matched as a
    whole, and the digits are handed to [strptime]. *)
Lemma extract_file_date_digits (prefix digits8 : string) :
  match_here d8 digits8 = Some digits8 ->
  extract_file_date (prefix ++ digits8 ++ ".txt") prefix
  = match strptime_date digits8 with
    | Some d => Date d
    | None => Raise_ValueError
    end.
Proof.
  intros Hd.
  assert (match_here (lit prefix ++ d8 ++ lit ".txt") (prefix ++ digits8 ++ ".txt")
          = Some (prefix ++ digits8 ++ ".txt")%string) as Hm.
  { rewrite match_here_lit, (match_here_app d8 (lit ".txt") digits8 ".txt" Hd).
    reflexivity. }
  unfold extract_file_date.
  assert (re_search_then (lit prefix ++ d8 ++ lit ".txt") at_end
            (prefix ++ digits8 ++ ".txt")
          = Some (prefix ++ digits8 ++ ".txt")%string) as ->.
  { destruct (prefix ++ digits8 ++ ".txt")%string eqn:E;
      cbn [re_search_then]; rewrite Hm; rewrite skip_all; reflexivity. }
  rewrite substring_after.
  pose proof (match_here_length _ _ _ Hd) as Hlen.
  change (List.length d8) with 8%nat in Hlen.
  rewrite <- Hlen, substring_prefix. reflexivity.
Qed.

(** X18: The date of a record file is read back from its name: for every
    date from the year 1000 on, [extract_file_date] gives on the name made
    by [url_file_for_date], [dwl_file_for_date] or [mrk_file_for_date]
    (whatever the prefix) the date the name was made from. *)
Theorem file_name_date_round_trip (prefix : string) (d : Z) :
  ymd2ord 1000 1 1 <= d <= ymd2ord 9999 12 31 ->
  extract_file_date (file_name_for_date prefix d) prefix = Date d.
Proof.
  intros Hd.
  change (ymd2ord 1000 1 1) with 364878 in Hd.
  change (ymd2ord 9999 12 31) with 3652059 in Hd.
  unfold file_name_for_date, strftime_Ymd.
  pose proof (ymd2ord_ord2ymd d ltac:(lia)) as Hc.
  destruct (ord2ymd d) as [[y m] dd]. destruct Hc as (Hord & Hvalid & Hnext).
  assert (1000 <= y) as Hy.
  { destruct (Z_lt_le_dec y 1000) as [Hlt|]; [|assumption].
    pose proof (days_before_year_mono (y + 1) 1000 ltac:(lia)) as Hmono.
    change (days_before_year 1000) with 364877 in Hmono. lia. }
  pose proof Hvalid as Hv. unfold valid_ymd in Hv.
  repeat (apply andb_true_iff in Hv; destruct Hv as [Hv ?]).
  repeat match goal with
         | H : (_ <=? _) = true |- _ => apply Z.leb_le in H
         end.
  assert (days_in_month y m <= 31) as Hdim.
  { unfold days_in_month.
    destruct (_ =? 2); [destruct (is_leap y); lia|]. destruct (_ || _); lia. }
  destruct (format_d_4 y ltac:(lia)) as (a & b & c & e & -> & Ha & Hb & Hc & He & Hy4).
  destruct (format_d_2 m ltac:(lia)) as (f & g & -> & Hf & Hg & Hm2).
  destruct (format_d_2 dd ltac:(lia)) as (h & i & -> & Hh & Hi & Hd2).
  set (digits8 := String a (String b (String c (String e
                    (String f (String g (String h (String i EmptyString)))))))).
  change (extract_file_date (prefix ++ digits8 ++ ".txt") prefix = Date d).
  rewrite (extract_file_date_digits prefix digits8); subst digits8.
  - unfold strptime_date.
    change (substring 0 4 _) with (String a (String b (String c (String e EmptyString)))).
    change (substring 4 2 _) with (String f (String g EmptyString)).
    change (substring 6 2 _) with (String h (String i EmptyString)).
    cbv zeta. rewrite Hy4, Hm2, Hd2, Hvalid, Hord. reflexivity.
  - unfold d8, rep. cbn [replicate match_here].
    rewrite Ha, Hb, Hc, He, Hf, Hg, Hh, Hi. reflexivity.
Qed.

(** X19: A file whose name has the prefix, eight digits and [.txt], where the
    digits give no calendar date, makes [extract_file_date] raise
    [ValueError] instead of returning [None]. *)
Theorem extract_file_date_raises (prefix digits8 : string) :
  match_here d8 digits8 = Some digits8 ->
  strptime_date digits8 = None ->
  extract_file_date (prefix ++ digits8 ++ ".txt") prefix = Raise_ValueError.
Proof. intros Hd Hs. now rewrite (extract_file_date_digits _ _ Hd), Hs. Qed.

End FileDates.

Lemma file_name_date_round_trip_witness :
  ymd2ord 1000 1 1 <= ymd2ord 2025 9 8 <= ymd2ord 9999 12 31
  /\ RegistryFiles.file_name_for_date "url_" (ymd2ord 2025 9 8)
     = "url_20250908.txt"%string
  /\ RegistryFiles.extract_file_date "url_20250908.txt" "url_"
     = RegistryFiles.Date (ymd2ord 2025 9 8).
Proof.
  split; [vm_compute; split; discriminate|].
  split; [vm_compute; reflexivity|].
  change "url_20250908.txt"%string
    with (RegistryFiles.file_name_for_date "url_" (ymd2ord 2025 9 8)).
  apply (file_name_date_round_trip "url_" (ymd2ord 2025 9 8)).
  vm_compute. split; discriminate.
Defined.

Lemma extract_file_date_raises_witness :
  RegistryFiles.extract_file_date "url_20250230.txt" "url_"
  = RegistryFiles.Raise_ValueError.
Proof.
  apply (extract_file_date_raises "url_" "20250230"); vm_compute; reflexivity.
Defined.
